(** * compress-csv-img: the upload controller and its image pipeline

    A shallow embedding of [docController.js] (served under [/api] by
    [docRouter.js]): the CSV validator, the request/product/image store
    operations, the detached image-processing routine and the upload
    handler, followed by the properties established about them. *)

From Stdlib Require Import Ascii String DecimalString DecimalN.
From stdpp Require Import gmap strings list fin_maps.

Open Scope string_scope.
Open Scope list_scope.

(** ** JavaScript string primitives used by the controller

    A character stands for one UTF-16 code unit below 256. *)

Module JsString.

(** [String.prototype.split(sep)] for a one-character separator: the
    pieces between separators, empty pieces included; the empty string
    splits into one empty piece. *)
Fixpoint split (sep : ascii) (s : string) : list string :=
  match s with
  | EmptyString => [EmptyString]
  | String c rest =>
      if Ascii.eqb c sep then EmptyString :: split sep rest
      else match split sep rest with
           | piece :: pieces => String c piece :: pieces
           | [] => [String c EmptyString]
           end
  end.

(** WhiteSpace and LineTerminator code units below 256: TAB, LF, VT, FF,
    CR, SP and NBSP. *)
Definition isWhiteSpace (c : ascii) : bool :=
  match Ascii.N_of_ascii c with
  | 9%N | 10%N | 11%N | 12%N | 13%N | 32%N | 160%N => true
  | _ => false
  end.

Fixpoint trimStart (s : string) : string :=
  match s with
  | EmptyString => EmptyString
  | String c rest => if isWhiteSpace c then trimStart rest else s
  end.

Fixpoint trimEnd (s : string) : string :=
  match s with
  | EmptyString => EmptyString
  | String c rest =>
      match trimEnd rest with
      | EmptyString => if isWhiteSpace c then EmptyString else String c EmptyString
      | kept => String c kept
      end
  end.

(** [String.prototype.trim]. *)
Definition trim (s : string) : string := trimEnd (trimStart s).

(** [s.startsWith(p)]. *)
Fixpoint startsWith (s p : string) {struct p} : bool :=
  match p, s with
  | EmptyString, _ => true
  | String _ _, EmptyString => false
  | String a p', String b s' => Ascii.eqb a b && startsWith s' p'
  end.

(** [Array.prototype.join(sep)] on an array of strings. *)
Fixpoint join (sep : string) (parts : list string) : string :=
  match parts with
  | [] => EmptyString
  | [x] => x
  | x :: rest => x +:+ sep +:+ join sep rest
  end.

(** Template-literal rendering of a non-negative integer. *)
Definition ofNumber (n : N) : string := NilEmpty.string_of_uint (N.to_uint n).

(** A string is truthy when it is not empty; [undefined] is falsy. *)
Definition truthy (v : option string) : bool :=
  match v with
  | Some EmptyString | None => false
  | Some (String _ _) => true
  end.

End JsString.

(** ** Outcomes

    A JavaScript computation returns, throws an [Error] carrying a message,
    or raises an error no handler of the program receives. *)

Inductive Result (A : Type) : Type :=
| Ok (a : A)
| Throw (message : string)
| Uncaught (message : string).
Arguments Ok {A} a.
Arguments Throw {A} message.
Arguments Uncaught {A} message.

(** A parsed CSV record: an object from column header to field. *)
Abbreviation Row := (gmap string string).

(** ** validateCSV: the [end] handler (lines 31-43) *)

Definition rowIsValid (row : Row) : bool :=
  JsString.truthy (row !! "S. No.") &&
  JsString.truthy (row !! "Product Name") &&
  JsString.truthy (row !! "Input Image Urls") &&
  match row !! "Input Image Urls" with
  | Some urls =>
      forallb (fun url => JsString.startsWith (JsString.trim url) "https://")
              (JsString.split "," urls)
  | None => false
  end.

Definition isValid (results : list Row) : bool := forallb rowIsValid results.

Definition validateCSV_end (results : list Row) : Result (list Row) :=
  if isValid results then Ok results else Throw "Invalid CSV format or data".

(** The validity of a row in the words of the specification: a non-empty
    sequence label, a non-empty name, and a non-empty comma-delimited URL
    list each of whose entries, once trimmed, begins with [https://]. *)
Definition RowMeetsContract (row : Row) : Prop :=
  (exists label, row !! "S. No." = Some label /\ label <> "") /\
  (exists name, row !! "Product Name" = Some name /\ name <> "") /\
  (exists urls, row !! "Input Image Urls" = Some urls /\ urls <> "" /\
     forall url, In url (JsString.split "," urls) ->
       exists rest, JsString.trim url = "https://" +:+ rest).

(** ** The store

    Modelled from the spec: the connection pool ([utils/db]) and the schema
    of [requests], [products] and [images] are not part of the sources; the
    tables hold the columns the statements of the controller name,
    identifiers come from a sequence per table, and the timestamp columns
    are left out. *)

Record Product := {
  product_id : nat;
  request_id : nat;
  serial_number : option string;
  product_name : option string
}.

Record Image := {
  image_product_id : nat;
  input_url : string;
  processing_status : string;
  output_url : option string
}.

Record Db := {
  requests : gmap nat string;          (* id |-> status *)
  products : list Product;
  images : list Image;
  requests_id_seq : nat;
  products_id_seq : nat
}.

(** The statements the controller sends, with their parameters. *)
Inductive Query :=
| Begin
| Commit
| Rollback
| InsertRequest (status : string)
| InsertProduct (requestId : nat) (serialNumber productName : option string)
| InsertImage (productId : nat) (inputUrl status : string)
| UpdateRequest (status : string) (requestId : nat)
| UpdateImages (status : string) (outputUrl : option string)
               (requestId : nat) (inputUrl : string).

(** [product_id IN (SELECT id FROM products WHERE request_id = $3)]. *)
Definition productOfRequest (ps : list Product) (requestId productId : nat) : bool :=
  existsb (fun p => Nat.eqb (product_id p) productId && Nat.eqb (request_id p) requestId) ps.

Definition imageMatches (ps : list Product) (requestId : nat) (inputUrl : string)
    (img : Image) : bool :=
  productOfRequest ps requestId (image_product_id img) &&
  String.eqb (input_url img) inputUrl.

Definition updateImage (status : string) (outputUrl : option string) (img : Image) : Image :=
  {| image_product_id := image_product_id img;
     input_url := input_url img;
     processing_status := status;
     output_url := outputUrl |}.

Definition updateImages (ps : list Product) (status : string) (outputUrl : option string)
    (requestId : nat) (inputUrl : string) (imgs : list Image) : list Image :=
  map (fun img => if imageMatches ps requestId inputUrl img
                  then updateImage status outputUrl img else img) imgs.

(** ROLLBACK restores the tables; sequences keep their values. *)
Definition restoreTables (saved current : Db) : Db :=
  {| requests := requests saved;
     products := products saved;
     images := images saved;
     requests_id_seq := requests_id_seq current;
     products_id_seq := products_id_seq current |}.

(** The effect of one statement on the tables and on the open transaction
    ([t] holds the tables as they were at BEGIN), and the identifiers it
    returns. *)
Definition execute (q : Query) (d : Db) (t : option Db) : Db * option Db * list nat :=
  match q with
  | Begin => (d, Some (default d t), [])
  | Commit => (d, None, [])
  | Rollback => (from_option (fun saved => restoreTables saved d) d t, None, [])
  | InsertRequest status =>
      let id := requests_id_seq d in
      ({| requests := <[id := status]> (requests d);
          products := products d;
          images := images d;
          requests_id_seq := S id;
          products_id_seq := products_id_seq d |}, t, [id])
  | InsertProduct requestId serialNumber productName =>
      let id := products_id_seq d in
      ({| requests := requests d;
          products := products d ++ [{| product_id := id;
                                        request_id := requestId;
                                        serial_number := serialNumber;
                                        product_name := productName |}];
          images := images d;
          requests_id_seq := requests_id_seq d;
          products_id_seq := S id |}, t, [id])
  | InsertImage productId inputUrl status =>
      ({| requests := requests d;
          products := products d;
          images := images d ++ [{| image_product_id := productId;
                                    input_url := inputUrl;
                                    processing_status := status;
                                    output_url := None |}];
          requests_id_seq := requests_id_seq d;
          products_id_seq := products_id_seq d |}, t, [])
  | UpdateRequest status requestId =>
      ({| requests := alter (fun _ => status) requestId (requests d);
          products := products d;
          images := images d;
          requests_id_seq := requests_id_seq d;
          products_id_seq := products_id_seq d |}, t, [])
  | UpdateImages status outputUrl requestId inputUrl =>
      ({| requests := requests d;
          products := products d;
          images := updateImages (products d) status outputUrl requestId inputUrl (images d);
          requests_id_seq := requests_id_seq d;
          products_id_seq := products_id_seq d |}, t, [])
  end.

(** ** HTTP exchange, report rows and observable effects *)

Record UploadedFile := { path : string }.
Record Request := { file : option UploadedFile }.

Inductive Body :=
| MessageBody (message : string)
| UploadedBody (message : string) (requestId : nat).

Record ResultRow := {
  S_No : option string;
  Product_Name : option string;
  Input_Image_Urls : string;
  Output_Image_Urls : string
}.

Inductive Event :=
| EvQuery (q : Query)                                  (* statement executed *)
| EvCompress (url : string) (outcome : Result string)  (* compressImage settled *)
| EvUnlink (filePath : string)
| EvWriteFile (filePath content : string)
| EvPost (url : string) (requestId : nat) (status outputCsvUrl : string)
| EvConsoleError (label message : string)
| EvDetach (requestId : nat) (data : list Row)         (* processImages started, not awaited *)
| EvResume (requestId : nat)                           (* the event loop takes up a detached call *)
| EvUnhandledRejection (message : string)
| EvResponse (code : nat) (body : Body).

(** ** The environment and the world

    What the program cannot decide is read from the environment, indexed by
    the instant (the count of earlier interactions) at which it is asked. *)

(** A promise or callback of a collaborator, once settled. *)
Inductive Settled (A : Type) : Type :=
| Resolved (a : A)
| Rejected (message : string).
Arguments Resolved {A} a.
Arguments Rejected {A} message.

Record Env := {
  store_error : nat -> option string;       (* pool.connect / client.query fails *)
  http_get : nat -> string -> Settled (list Byte.byte);
  sharp_jpeg : nat -> list Byte.byte -> Settled (list Byte.byte);
  date_now : nat -> N;
  csv_parse : string -> Settled (list Row);
  csv_stringify : list ResultRow -> Settled string;
  write_file_error : nat -> option string;
  http_post_error : nat -> option string;
  WEBHOOK_URL : option string
}.

Record World := {
  db : Db;
  txn : option Db;                  (* tables at BEGIN while a transaction is open *)
  files : gmap string string;       (* path |-> content *)
  clock : nat;                      (* interactions with the environment so far *)
  log : list Event;                 (* effects, oldest first *)
  history : list Db;                (* every state the store went through *)
  detached : list (nat * list Row)  (* processImages calls not awaited *)
}.

(** What an effect does to the world; every effect is appended to the log. *)
Definition perform (ev : Event) (w : World) : World :=
  match ev with
  | EvQuery q =>
      let '(d, t, _) := execute q (db w) (txn w) in
      {| db := d; txn := t; files := files w; clock := clock w;
         log := log w ++ [ev]; history := history w ++ [d];
         detached := detached w |}
  | EvUnlink filePath =>
      {| db := db w; txn := txn w; files := delete filePath (files w);
         clock := clock w; log := log w ++ [ev]; history := history w;
         detached := detached w |}
  | EvWriteFile filePath content =>
      {| db := db w; txn := txn w; files := <[filePath := content]> (files w);
         clock := clock w; log := log w ++ [ev]; history := history w;
         detached := detached w |}
  | EvDetach requestId data =>
      {| db := db w; txn := txn w; files := files w; clock := clock w;
         log := log w ++ [ev]; history := history w;
         detached := detached w ++ [(requestId, data)] |}
  | EvResume _ =>
      {| db := db w; txn := txn w; files := files w; clock := clock w;
         log := log w ++ [ev]; history := history w;
         detached := tail (detached w) |}
  | _ =>
      {| db := db w; txn := txn w; files := files w; clock := clock w;
         log := log w ++ [ev]; history := history w; detached := detached w |}
  end.

Definition performAll (evs : list Event) (w : World) : World :=
  fold_left (fun w1 ev => perform ev w1) evs w.

Definition setClock (n : nat) (w : World) : World :=
  {| db := db w; txn := txn w; files := files w; clock := n;
     log := log w; history := history w; detached := detached w |}.

(** ** Computations: state passing with exceptions *)

Definition M (A : Type) : Type := World -> Result A * World.

#[global] Instance M_ret : MRet M := fun A a w => (Ok a, w).

#[global] Instance M_bind : MBind M := fun A B f m w =>
  match m w with
  | (Ok a, w1) => f a w1
  | (Throw e, w1) => (Throw e, w1)
  | (Uncaught e, w1) => (Uncaught e, w1)
  end.

Definition throw {A} (message : string) : M A := fun w => (Throw message, w).

(** [try { m } catch (e) { h e }]. *)
Definition try_catch {A} (m : M A) (h : string -> M A) : M A := fun w =>
  match m w with
  | (Throw e, w1) => h e w1
  | settled => settled
  end.

(** [try { m } finally { f }]. *)
Definition try_finally {A} (m : M A) (f : M unit) : M A := fun w =>
  match m w with
  | (Uncaught e, w1) => (Uncaught e, w1)
  | (r, w1) =>
      match f w1 with
      | (Ok _, w2) => (r, w2)
      | (Throw e, w2) => (Throw e, w2)
      | (Uncaught e, w2) => (Uncaught e, w2)
      end
  end.

(** [await] on a settled promise. *)
Definition await {A} (p : Settled A) : M A := fun w =>
  match p with
  | Resolved a => (Ok a, w)
  | Rejected e => (Throw e, w)
  end.

Definition lift {A} (r : Result A) : M A := fun w => (r, w).

Definition tick : M nat := fun w => (Ok (clock w), setClock (S (clock w)) w).

Definition emit (ev : Event) : M unit := fun w => (Ok tt, perform ev w).

Definition console_error (label message : string) : M unit :=
  emit (EvConsoleError label message).

(** [res.status(code).json(body)]. *)
Definition res_status_json (code : nat) (body : Body) : M unit :=
  emit (EvResponse code body).

(** ** The controller *)

Section Controller.

Variable env : Env.

(** *** Collaborators: file system, store connection, network, clock *)

(** [fs.createReadStream(filePath).pipe(parse(...))]: the parser's [error]
    rejects the promise; an [error] of the read stream itself has no
    listener. *)
Definition read_and_parse (filePath : string) : M (list Row) := fun w =>
  match files w !! filePath with
  | None => (Uncaught "ENOENT: no such file or directory", w)
  | Some content => await (csv_parse env content) w
  end.

Definition unlinkSync (filePath : string) : M unit := fun w =>
  match files w !! filePath with
  | None => (Throw "ENOENT: no such file or directory", w)
  | Some _ => emit (EvUnlink filePath) w
  end.

Definition writeFile (filePath content : string) : M unit :=
  now ← tick;
  match write_file_error env now with
  | Some e => throw e
  | None => emit (EvWriteFile filePath content)
  end.

Definition Date_now : M N := now ← tick; mret (date_now env now).

Definition pool_connect : M unit :=
  now ← tick;
  match store_error env now with
  | Some e => throw e
  | None => mret tt
  end.

Definition client_release : M unit := mret tt.

Definition client_query (q : Query) : M (list nat) :=
  now ← tick;
  match store_error env now with
  | Some e => throw e
  | None => fun w => (Ok (execute q (db w) (txn w)).2, perform (EvQuery q) w)
  end.

(** [result.rows[0].id]. *)
Definition first_id (rows : list nat) : M nat :=
  match rows with
  | id :: _ => mret id
  | [] => throw "TypeError: Cannot read properties of undefined (reading 'id')"
  end.

(** [inputUrls.split(',').map(url => url.trim())]. *)
Definition split_and_trim (inputUrls : option string) : M (list string) :=
  match inputUrls with
  | Some s => mret (map JsString.trim (JsString.split "," s))
  | None => throw "TypeError: Cannot read properties of undefined (reading 'split')"
  end.

Definition axios_post (url : string) (requestId : nat) (status outputCsvUrl : string)
    : M unit :=
  now ← tick;
  match http_post_error env now with
  | Some e => throw e
  | None => emit (EvPost url requestId status outputCsvUrl)
  end.

(** *** validateCSV (lines 24-47) *)

Definition validateCSV (filePath : string) : M (list Row) :=
  results ← read_and_parse filePath;
  lift (validateCSV_end results).

(** *** createRequest (lines 90-106) *)

Definition createRequest : M nat :=
  client ← pool_connect;
  try_finally
    (try_catch
       (client_query Begin;;
        result ← client_query (InsertRequest "pending");
        client_query Commit;;
        first_id result)
       (fun e => client_query Rollback;; throw e))
    client_release.

(** *** storeProductData (lines 108-138) *)

Fixpoint insertImages (productId : nat) (urls : list string) : M unit :=
  match urls with
  | [] => mret tt
  | url :: rest =>
      client_query (InsertImage productId url "pending");;
      insertImages productId rest
  end.

Fixpoint insertRows (requestId : nat) (data : list Row) : M unit :=
  match data with
  | [] => mret tt
  | row :: rest =>
      let serialNumber := row !! "S. No." in
      let productName := row !! "Product Name" in
      let inputUrls := row !! "Input Image Urls" in
      productResult ← client_query (InsertProduct requestId serialNumber productName);
      productId ← first_id productResult;
      urls ← split_and_trim inputUrls;
      insertImages productId urls;;
      insertRows requestId rest
  end.

Definition storeProductData (requestId : nat) (data : list Row) : M unit :=
  client ← pool_connect;
  try_finally
    (try_catch
       (client_query Begin;;
        insertRows requestId data;;
        client_query Commit;;
        mret tt)
       (fun e => client_query Rollback;; throw e))
    client_release.

(** *** updateRequestStatus (lines 140-153) *)

Definition updateRequestStatus (requestId : nat) (status : string) : M unit :=
  client ← pool_connect;
  try_finally
    (try_catch
       (client_query (UpdateRequest status requestId);; mret tt)
       (fun e => console_error "Error updating request status:" e;; throw e))
    client_release.

(** *** updateImageStatus (lines 203-218) *)

Definition updateImageStatus (requestId : nat) (inputUrl status : string)
    (outputUrl : option string) : M unit :=
  client ← pool_connect;
  try_finally
    (try_catch
       (client_query (UpdateImages status outputUrl requestId inputUrl);; mret tt)
       (fun e => console_error "Error updating image status:" e;; throw e))
    client_release.

(** *** compressImage (lines 191-201) *)

Definition compressImage_body (url : string) : M string :=
  now ← tick;
  response ← await (http_get env now url);
  compressedBuffer ← await (sharp_jpeg env 50 response);
  stamp ← Date_now;
  mret ("https://compressed-image-url.com/" +:+ JsString.ofNumber stamp +:+ ".jpg").

(** The call, with its settlement recorded in the log. *)
Definition compressImage (url : string) : M string := fun w =>
  match compressImage_body url w with
  | (r, w1) => (r, perform (EvCompress url r) w1)
  end.

(** *** generateOutputCsv (lines 220-237) *)

Definition generateOutputCsv (data : list ResultRow) : M string :=
  stamp ← Date_now;
  let outputPath := "./output_" +:+ JsString.ofNumber stamp +:+ ".csv" in
  output ← await (csv_stringify env data);
  writeFile outputPath output;;
  mret outputPath.

(** *** sendWebhookNotification (lines 239-253) *)

Definition sendWebhookNotification (requestId : nat) (outputCsvPath : string) : M unit :=
  let webhookUrl :=
    if JsString.truthy (WEBHOOK_URL env)
    then default "" (WEBHOOK_URL env)
    else "https://example.com/webhook" in
  try_catch
    (axios_post webhookUrl requestId "completed"
                ("https://your-api-domain.com/download/" +:+ outputCsvPath))
    (fun error => console_error "Error sending webhook notification:" error).

(** *** processImages (lines 155-189) *)

Fixpoint processUrls (requestId : nat) (inputUrlList outputUrls : list string)
    : M (list string) :=
  match inputUrlList with
  | [] => mret outputUrls
  | url :: rest =>
      outputUrl ← compressImage url;
      updateImageStatus requestId url "completed" (Some outputUrl);;
      processUrls requestId rest (outputUrls ++ [outputUrl])
  end.

Fixpoint processRows (requestId : nat) (data : list Row) (processedData : list ResultRow)
    : M (list ResultRow) :=
  match data with
  | [] => mret processedData
  | row :: rest =>
      let serialNumber := row !! "S. No." in
      let productName := row !! "Product Name" in
      let inputUrls := row !! "Input Image Urls" in
      inputUrlList ← split_and_trim inputUrls;
      outputUrls ← processUrls requestId inputUrlList [];
      processRows requestId rest
        (processedData ++ [{| S_No := serialNumber;
                              Product_Name := productName;
                              Input_Image_Urls := default "" inputUrls;
                              Output_Image_Urls := JsString.join ", " outputUrls |}])
  end.

Definition processImages (requestId : nat) (data : list Row) : M unit :=
  try_catch
    (processedData ← processRows requestId data [];
     outputCsvPath ← generateOutputCsv processedData;
     updateRequestStatus requestId "completed";;
     sendWebhookNotification requestId outputCsvPath)
    (fun error =>
       console_error "Error processing images:" error;;
       updateRequestStatus requestId "failed").

(** [processImages(requestId, validatedData)] without [await]: the call
    is handed to the event loop and the caller goes on. *)
Definition detach_processImages (requestId : nat) (data : list Row) : M unit :=
  emit (EvDetach requestId data).

(** *** uploadDoc (lines 49-88) *)

(** The inner [try] block (lines 58-78). *)
Definition uploadDoc_try (filePath : string) : M unit :=
  validatedData ← validateCSV filePath;
  requestId ← createRequest;
  storeProductData requestId validatedData;;
  updateRequestStatus requestId "processing";;
  unlinkSync filePath;;
  detach_processImages requestId validatedData;;
  res_status_json 200 (UploadedBody "File uploaded and processing started" requestId).

Definition uploadDoc (req : Request) : M unit :=
  try_catch
    (match file req with
     | None => res_status_json 400 (MessageBody "No file uploaded")
     | Some f =>
         let filePath := path f in
         try_catch
           (uploadDoc_try filePath)
           (fun validationError =>
              unlinkSync filePath;;
              res_status_json 400 (MessageBody validationError))
     end)
    (fun error =>
       console_error "Error in uploadDoc:" error;;
       res_status_json 500 (MessageBody "Internal server error")).

(** *** The event loop running the detached calls *)

(** The oldest detached call is taken up and run to its end; an exception
    that leaves [processImages] is an unhandled rejection. *)
Definition settle (task : nat * list Row) (w : World) : World :=
  match processImages task.1 task.2 (perform (EvResume task.1) w) with
  | (Ok _, w1) => w1
  | (Throw e, w1) | (Uncaught e, w1) => perform (EvUnhandledRejection e) w1
  end.

Definition runDetached (w : World) : World :=
  fold_left (fun w1 task => settle task w1) (detached w) w.

(** One upload from request to the end of its background work. *)
Definition serveUpload (req : Request) (w : World) : World :=
  runDetached (snd (uploadDoc req w)).

End Controller.

(** ** Traces of the processing routine *)

(** [inputUrls.split(',').map(url => url.trim())] of a row; no URL when the
    column is missing. *)
Definition rowUrls (row : Row) : list string :=
  match row !! "Input Image Urls" with
  | Some s => map JsString.trim (JsString.split "," s)
  | None => []
  end.

(** The URLs of a table in processing order: by row, then by position. *)
Definition allUrls (data : list Row) : list string := concat (map rowUrls data).

(** The effects of transforming [done] (input URL, output URL) in order:
    each transformation settles, then the status of its URL is written. *)
Definition processedTrace (requestId : nat) (done : list (string * string)) : list Event :=
  flat_map (fun p => [EvCompress p.1 (Ok p.2);
                      EvQuery (UpdateImages "completed" (Some p.2) requestId p.1)]) done.

(** The effects of the step at which the loop over URLs is left by an
    exception [e] raised while handling [url]. *)
Definition abortedAt (url e : string) (tail : list Event) : Prop :=
  tail = [EvCompress url (Throw e)] \/
  exists outputUrl,
    tail = [EvCompress url (Ok outputUrl)] \/
    tail = [EvCompress url (Ok outputUrl);
            EvConsoleError "Error updating image status:" e].

(** The effects of one call of updateRequestStatus. *)
Definition statusWrite (requestId : nat) (status : string) (r : Result unit)
    (evs : list Event) : Prop :=
  (r = Ok tt /\ evs = [EvQuery (UpdateRequest status requestId)]) \/
  (exists e, r = Throw e /\
     (evs = [] \/ evs = [EvConsoleError "Error updating request status:" e])).

(** A computation that ran from [w] to [w'] performed the effects [evs]:
    the world it leaves is the one the effects produce, at a later instant. *)
Definition Ran (w w' : World) (evs : list Event) : Prop :=
  exists n, w' = setClock n (performAll evs w).

(** ** Ingestion: the statements one upload may send

    [firstRequest] and [firstProduct] are the values of the two sequences
    when the upload starts, [urls] the URLs of the accepted table. *)
Definition ingestionEvent (firstRequest firstProduct : nat) (urls : list string)
    (ev : Event) : Prop :=
  match ev with
  | EvQuery Begin | EvQuery Commit | EvQuery Rollback => True
  | EvQuery (InsertRequest status) => status = "pending"
  | EvQuery (InsertProduct requestId _ _) => firstRequest <= requestId
  | EvQuery (InsertImage productId inputUrl status) =>
      firstProduct <= productId /\ status = "pending" /\ In inputUrl urls
  | EvQuery (UpdateRequest status requestId) =>
      status = "processing" /\ firstRequest <= requestId
  | EvQuery (UpdateImages _ _ _ _) => False
  | EvConsoleError _ _ => True
  | _ => False
  end.

(** The tables only grew: rows were appended, none changed, and every
    ImageRef appended is pending and has no output URL. *)
Definition Grown (d d' : Db) : Prop :=
  requests d' = requests d /\
  (exists ps, products d' = products d ++ ps) /\
  (exists imgs, images d' = images d ++ imgs /\
     Forall (fun img => processing_status img = "pending" /\ output_url img = None) imgs).

(** [url] has an ImageRef under the job that is still pending. *)
Definition hasPendingImage (d : Db) (requestId : nat) (url : string) : Prop :=
  exists img, In img (images d) /\ input_url img = url /\
    processing_status img = "pending" /\
    productOfRequest (products d) requestId (image_product_id img) = true.

(** Effects that neither reach the store nor start a transformation. *)
Definition quietEvent (ev : Event) : Prop :=
  match ev with
  | EvWriteFile _ _ | EvConsoleError _ _ | EvPost _ _ _ _ => True
  | _ => False
  end.

(** What the routine did in the step that raised [e], with [rest] the URLs
    not yet completed: it was handling the first of them, or it was past
    the loop (or could not read a row) and touched no ImageRef. *)
Definition abortCause (rest : list string) (e : string) (cause : list Event) : Prop :=
  (exists u rest', rest = u :: rest' /\ abortedAt u e cause) \/
  Forall quietEvent cause.

(** The two ways processImages ends: every URL done, report written, job
    marked completed and the webhook tried; or an exception [e] at some
    point, logged, and the job marked failed. *)
Definition processingOutcome (requestId : nat) (data : list Row)
    (done : list (string * string)) (r : Result unit) (tail : list Event) : Prop :=
  (r = Ok tt /\ map fst done = allUrls data /\
   exists reportPath content last,
     tail = [EvWriteFile reportPath content;
             EvQuery (UpdateRequest "completed" requestId); last] /\
     quietEvent last) \/
  (exists rest e cause evsF,
     allUrls data = map fst done ++ rest /\
     tail = cause ++ EvConsoleError "Error processing images:" e :: evsF /\
     abortCause rest e cause /\
     statusWrite requestId "failed" r evsF).

(** The rows [insertImages] appends to [images]. *)
Definition insertedImages (productId : nat) (urls : list string) : list Image :=
  map (fun u => {| image_product_id := productId; input_url := u;
                   processing_status := "pending"; output_url := None |}) urls.

(** The [images] table once the transformations [done] have been recorded. *)
Definition completeImages (ps : list Product) (requestId : nat)
    (done : list (string * string)) (imgs : list Image) : list Image :=
  fold_left (fun acc c => updateImages ps "completed" (Some c.2) requestId c.1 acc)
            done imgs.

(** An ImageRef belongs to a job when its product is one of the job's. *)
Definition underJob (d : Db) (requestId : nat) (img : Image) : Prop :=
  exists p, In p (products d) /\ product_id p = image_product_id img /\
            request_id p = requestId.

(** ** The store over the life of one upload *)

(** Referential integrity: every job, product and ImageRef carries
    identifiers that the sequences have already issued. *)
Definition WellFormed (d : Db) : Prop :=
  Forall (fun p => request_id p < requests_id_seq d /\ product_id p < products_id_seq d)
         (products d) /\
  Forall (fun img => image_product_id img < products_id_seq d) (images d) /\
  (forall k, requests_id_seq d <= k -> requests d !! k = None).

(** Effects that leave the store alone. *)
Definition inert (ev : Event) : Prop :=
  match ev with
  | EvQuery _ => False
  | _ => True
  end.





(** ** Sample tables, environments and worlds *)

Module Sample.

Definition row (label name urls : string) : Row :=
  <["S. No." := label]> (<["Product Name" := name]> (<["Input Image Urls" := urls]> ∅)).

(** Two products; the second has one image. *)
Definition twoRows : list Row :=
  [row "1" "Mug" "https://cdn.example/a.png, https://cdn.example/b.png";
   row "2" "Cup" "https://cdn.example/c.png"].

(** Two products showing the same picture. *)
Definition sharedUrl : list Row :=
  [row "1" "Mug" "https://cdn.example/a.png";
   row "2" "Cup" "https://cdn.example/a.png"].

(** An environment: the table every upload parses to, the instant at which
    the store fails (if any), the URL that cannot be fetched (if any),
    the clock, and whether the report can be written. *)
Definition environment (table : list Row) (storeDownAt : option nat)
    (brokenUrl : option string) (now : nat -> N) (diskFull : bool) : Env :=
  {| store_error := fun n =>
       if decide (storeDownAt = Some n)
       then Some "connect ECONNREFUSED 127.0.0.1:5432" else None;
     http_get := fun _ url =>
       if decide (brokenUrl = Some url)
       then Rejected "Request failed with status code 404" else Resolved [];
     sharp_jpeg := fun _ buffer => Resolved buffer;
     date_now := now;
     csv_parse := fun _ => Resolved table;
     csv_stringify := fun _ => Resolved "report";
     write_file_error := fun _ =>
       if diskFull then Some "ENOSPC: no space left on device" else None;
     http_post_error := fun _ => None;
     WEBHOOK_URL := None |}.

Definition ticking (n : nat) : N := (1700000000000 + N.of_nat n)%N.
Definition frozen (n : nat) : N := 1700000000000%N.

Definition calm (table : list Row) : Env := environment table None None ticking false.

Definition emptyDb : Db :=
  {| requests := ∅; products := []; images := [];
     requests_id_seq := 1; products_id_seq := 1 |}.

Definition upload : Request := {| file := Some {| path := "uploads/3f9a" |} |}.

(** A fresh server holding one uploaded file. *)
Definition start : World :=
  {| db := emptyDb; txn := None; files := {["uploads/3f9a" := "csv"]};
     clock := 0; log := []; history := []; detached := [] |}.

(** The server once [sharedUrl] has been ingested, before any processing. *)
Definition ingested : World :=
  (uploadDoc (calm sharedUrl) upload start).2.

End Sample.

(** ** getRequestStatus (lines 255-273)

    With a client of the pool to hand out, the handler sends one response
    on every path; the model returns it. The pool is added further down. *)

Inductive StatusBody :=
| StatusOf (requestId status : string)       (* { requestId, status } *)
| StatusMessage (message : string).          (* { message } *)

Record StatusReply := { reply_code : nat; reply_body : StatusBody }.

Section StatusQuery.

Variable env : Env.

(** Modelled from the spec: the type of [requests.id] belongs to the schema,
    which is not part of the sources. [id_of_param] is the store's reading
    of the text of the route parameter as an identifier; it rejects, with
    the driver's message, a text that is none. *)
Variable id_of_param : string -> Settled nat.

(** The [status] column of the rows of [requests] whose [id] is the given
    one. *)
Definition statusRows (id : nat) : M (list string) := fun w =>
  (Ok (match requests (db w) !! id with
       | Some status => [status]
       | None => []
       end), w).

(** [client.query('SELECT status FROM requests WHERE id = $1', [requestId])]. *)
Definition select_status (requestId : string) : M (list string) :=
  now ← tick;
  match store_error env now with
  | Some e => throw e
  | None => id ← await (id_of_param requestId); statusRows id
  end.

Definition getRequestStatus (requestId : string) : M StatusReply :=
  try_catch
    (client ← pool_connect env;
     result ← select_status requestId;
     client_release;;
     match result with
     | [] => mret {| reply_code := 404;
                     reply_body := StatusMessage "Request not found" |}
     | status :: _ => mret {| reply_code := 200;
                              reply_body := StatusOf requestId status |}
     end)
    (fun error =>
       console_error "Error getting request status:" error;;
       mret {| reply_code := 500;
               reply_body := StatusMessage "Internal server error" |}).

End StatusQuery.

(** ** The status query and the connection pool

    createRequest, storeProductData, updateRequestStatus and
    updateImageStatus release their client in a [finally] block: whatever
    happens, the pool has as many clients checked out after the call as
    before, and their model leaves the pool out. getRequestStatus releases
    its client after the query, outside any [finally] (lines 259-261): the
    pool is part of what it does. [getRequestStatus] above is the handler
    as long as the pool has a client to hand out; [Pooled.getRequestStatus]
    is the handler with the pool. *)

(** An asynchronous computation settles, or awaits a promise that never
    settles. *)
Inductive Progress (A : Type) : Type :=
| Settles (r : Result A)
| Waits.
Arguments Settles {A} r.
Arguments Waits {A}.

Module Pooled.

(** Computations over the world and the number of clients of the pool that
    are checked out. *)
Definition P (A : Type) : Type := nat -> World -> Progress A * World * nat.

#[global] Instance P_ret : MRet P := fun A a leased w => (Settles (Ok a), w, leased).

#[global] Instance P_bind : MBind P := fun A B f m leased w =>
  match m leased w with
  | (Settles (Ok a), w1, leased1) => f a leased1 w1
  | (Settles (Throw e), w1, leased1) => (Settles (Throw e), w1, leased1)
  | (Settles (Uncaught e), w1, leased1) => (Settles (Uncaught e), w1, leased1)
  | (Waits, w1, leased1) => (Waits, w1, leased1)
  end.

(** [try { m } catch (e) { h e }]. *)
Definition try_catch {A} (m : P A) (h : string -> P A) : P A := fun leased w =>
  match m leased w with
  | (Settles (Throw e), w1, leased1) => h e leased1 w1
  | settled => settled
  end.

(** A computation that does not use the pool. *)
Definition unpooled {A} (m : M A) : P A := fun leased w =>
  match m w with
  | (r, w1) => (Settles r, w1, leased)
  end.

Section Pool.

Variable env : Env.
Variable id_of_param : string -> Settled nat.

(** Modelled from the spec: the pool is created in [utils/db], which is not
    part of the sources. [pool_max] is the number of clients it hands out
    at most; while all of them are checked out, [pool.connect()] waits for
    a release, without a time limit. *)
Variable pool_max : nat.

(** [pool.connect()]: a client is checked out when the store accepts the
    connection. *)
Definition pool_connect : P unit := fun leased w =>
  if decide (pool_max <= leased) then (Waits, w, leased)
  else match pool_connect env w with
       | (Ok _, w1) => (Settles (Ok tt), w1, S leased)
       | (r, w1) => (Settles r, w1, leased)
       end.

(** [client.release()]. *)
Definition client_release : P unit := fun leased w =>
  (Settles (Ok tt), w, pred leased).

(** getRequestStatus (lines 255-273). *)
Definition getRequestStatus (requestId : string) : P StatusReply :=
  try_catch
    (client ← pool_connect;
     result ← unpooled (select_status env id_of_param requestId);
     client_release;;
     match result with
     | [] => mret {| reply_code := 404;
                     reply_body := StatusMessage "Request not found" |}
     | status :: _ => mret {| reply_code := 200;
                              reply_body := StatusOf requestId status |}
     end)
    (fun error =>
       unpooled (console_error "Error getting request status:" error);;
       mret {| reply_code := 500;
               reply_body := StatusMessage "Internal server error" |}).

(** The world and the pool after the status queries for [requestIds], one
    after the other. *)
Fixpoint asked (requestIds : list string) (leased : nat) (w : World) : World * nat :=
  match requestIds with
  | [] => (w, leased)
  | requestId :: rest =>
      match getRequestStatus requestId leased w with
      | (_, w1, leased1) => asked rest leased1 w1
      end
  end.

End Pool.

End Pooled.

(** ** Blocks of the controller named for the proofs *)

Section Blocks.

Variable env : Env.

(** The [try] block of storeProductData (lines 111-131). *)
Definition storeProductData_try (requestId : nat) (data : list Row) : M unit :=
  client_query env Begin;;
  insertRows env requestId data;;
  client_query env Commit;;
  mret tt.

(** The [try] block of processImages (lines 157-184). *)
Definition processImages_try (requestId : nat) (data : list Row) : M unit :=
  processedData ← processRows env requestId data [];
  outputCsvPath ← generateOutputCsv env processedData;
  updateRequestStatus env requestId "completed";;
  sendWebhookNotification env requestId outputCsvPath.

(** [process.env.WEBHOOK_URL || 'https://example.com/webhook'] (line 242). *)
Definition webhookUrl : string :=
  if JsString.truthy (WEBHOOK_URL env)
  then default "" (WEBHOOK_URL env)
  else "https://example.com/webhook".

End Blocks.

(** ** Rows created and rows reported *)

(** [`./output_${Date.now()}.csv`] (line 222). *)
Definition reportPath (stamp : N) : string :=
  "./output_" +:+ JsString.ofNumber stamp +:+ ".csv".

(** [`https://your-api-domain.com/download/${outputCsvPath}`] (line 248). *)
Definition downloadUrl (outputCsvPath : string) : string :=
  "https://your-api-domain.com/download/" +:+ outputCsvPath.

(** The products [storeProductData] creates for a table, the first of them
    under identifier [firstId]. *)
Fixpoint createdProducts (requestId firstId : nat) (data : list Row) : list Product :=
  match data with
  | [] => []
  | row :: rest =>
      {| product_id := firstId; request_id := requestId;
         serial_number := row !! "S. No.";
         product_name := row !! "Product Name" |}
      :: createdProducts requestId (S firstId) rest
  end.

(** The ImageRefs it creates: those of the first row, then of the next. *)
Fixpoint createdImages (firstId : nat) (data : list Row) : list Image :=
  match data with
  | [] => []
  | row :: rest => insertedImages firstId (rowUrls row) ++ createdImages (S firstId) rest
  end.

(** The rows [processImages] hands to the report for a table whose URLs
    were transformed into [outputs], in order. *)
Fixpoint reportRows (data : list Row) (outputs : list string) : list ResultRow :=
  match data with
  | [] => []
  | row :: rest =>
      let n := length (rowUrls row) in
      {| S_No := row !! "S. No.";
         Product_Name := row !! "Product Name";
         Input_Image_Urls := default "" (row !! "Input Image Urls");
         Output_Image_Urls := JsString.join ", " (take n outputs) |}
      :: reportRows rest (drop n outputs)
  end.

(** Statements that insert a product or an ImageRef. *)
Definition insertion (ev : Event) : Prop :=
  match ev with
  | EvQuery (InsertProduct _ _ _) | EvQuery (InsertImage _ _ _) => True
  | _ => False
  end.

(** The three tables of two store states are the same. *)
Definition sameTables (d d' : Db) : Prop :=
  requests d' = requests d /\ products d' = products d /\ images d' = images d.

(** The URL a transformation was asked for. *)
Definition attempted (ev : Event) : list string :=
  match ev with
  | EvCompress url _ => [url]
  | _ => []
  end.

(** ** More sample collaborators *)

Module Scenario.

(** A store whose [requests.id] is an integer column reads the route
    parameter as a decimal numeral and rejects any other text. *)
Definition asInteger (text : string) : Settled nat :=
  match text, NilEmpty.uint_of_string text with
  | String _ _, Some digits => Resolved (Nat.of_uint digits)
  | _, _ => Rejected ("invalid input syntax for type integer: " +:+ text)
  end.

(** The sample environment with a webhook endpoint that cannot be reached. *)
Definition webhookDown (table : list Row) : Env :=
  {| store_error := store_error (Sample.calm table);
     http_get := http_get (Sample.calm table);
     sharp_jpeg := sharp_jpeg (Sample.calm table);
     date_now := date_now (Sample.calm table);
     csv_parse := csv_parse (Sample.calm table);
     csv_stringify := csv_stringify (Sample.calm table);
     write_file_error := write_file_error (Sample.calm table);
     http_post_error := fun _ => Some "connect ETIMEDOUT 203.0.113.7:443";
     WEBHOOK_URL := Some "https://hooks.example/jobs" |}.

(** The effects a computation added to the log of the world it started in. *)
Definition added (w w' : World) : list Event := drop (length (log w)) (log w').

End Scenario.

(** ** Predicates on traces and stores used by the further properties *)

(** What the routine did when its [try] block ended normally. *)
Definition completion (env : Env) (id : nat) (data : list Row)
    (cs : list (string * string)) (tail : list Event) : Prop :=
  map fst cs = allUrls data /\
  exists stamp content last,
    tail = [EvWriteFile (reportPath stamp) content;
            EvQuery (UpdateRequest "completed" id); last] /\
    csv_stringify env (reportRows data (map snd cs)) = Resolved content /\
    (last = EvPost (webhookUrl env) id "completed" (downloadUrl (reportPath stamp)) \/
     exists e, last = EvConsoleError "Error sending webhook notification:" e).

(** What the [try] block did in the step that raised [e]. *)
Definition interruption (env : Env) (data : list Row)
    (cs : list (string * string)) (e : string) (cause : list Event) : Prop :=
  exists rest, allUrls data = map fst cs ++ rest /\
    ((exists u rest', rest = u :: rest' /\ abortedAt u e cause) \/
     cause = [] \/
     (rest = [] /\ exists stamp content,
        csv_stringify env (reportRows data (map snd cs)) = Resolved content /\
        (cause = [EvWriteFile (reportPath stamp) content] \/
         cause = [EvWriteFile (reportPath stamp) content;
                  EvConsoleError "Error updating request status:" e]))).

(** Effects that leave the files alone. *)
Definition keepsFiles (ev : Event) : Prop :=
  match ev with
  | EvUnlink _ | EvWriteFile _ _ => False
  | _ => True
  end.

(** The status writes of an effect: job and status. *)
Definition statusWrites (ev : Event) : list (nat * string) :=
  match ev with
  | EvQuery (UpdateRequest status id) => [(id, status)]
  | _ => []
  end.

(** The effects processImages may have for job [id] on a table whose URLs
    are [urls]. *)
Definition processingEvent (id : nat) (urls : list string) (ev : Event) : Prop :=
  match ev with
  | EvQuery (UpdateRequest _ k) => k = id
  | EvQuery (UpdateImages _ _ k url) => k = id /\ In url urls
  | EvCompress _ _ | EvWriteFile _ _ | EvPost _ _ _ _ | EvConsoleError _ _ => True
  | _ => False
  end.

(** Store [d'] differs from [d] at most in the status of job [id] and in
    the ImageRefs under it that carry one of [urls]. *)
Definition sameButJob (id : nat) (urls : list string) (d d' : Db) : Prop :=
  requests_id_seq d' = requests_id_seq d /\
  products_id_seq d' = products_id_seq d /\
  products d' = products d /\
  (forall k, is_Some (requests d' !! k) <-> is_Some (requests d !! k)) /\
  (forall k, k <> id -> requests d' !! k = requests d !! k) /\
  length (images d') = length (images d) /\
  forall i img, images d !! i = Some img ->
    exists img', images d' !! i = Some img' /\
      image_product_id img' = image_product_id img /\
      input_url img' = input_url img /\
      (~ underJob d id img \/ ~ In (input_url img) urls -> img' = img).

(** The store failed with [e] at some instant between the two worlds. *)
Definition storeFailed (env : Env) (w w' : World) (e : string) : Prop :=
  exists n, clock w <= n < clock w' /\ store_error env n = Some e.

(** A computation that takes time forward, leaves the files alone and
    raises only what the store raised while it ran. *)
Definition raisesStoreErrors (env : Env) {A} (m : M A) : Prop :=
  forall w r w', m w = (r, w') ->
    clock w <= clock w' /\ files w' = files w /\
    match r with
    | Ok _ => True
    | Throw e => storeFailed env w w' e
    | Uncaught _ => False
    end.

(** The job of the product an effect inserted, when the effect is an executed
    [INSERT INTO products]. *)
Definition productsInserted (ev : Event) : list nat :=
  match ev with
  | EvQuery (InsertProduct requestId _ _) => [requestId]
  | _ => []
  end.

(** ** Properties of the validator *)

Lemma truthy_spec (v : option string) :
  JsString.truthy v = true <-> exists s, v = Some s /\ s <> "".
Proof.
  destruct v as [[|c s]|]; simpl; split; try discriminate.
  - intros (s & [= <-] & Hs). congruence.
  - intros _. exists (String c s). split; [reflexivity | discriminate].
  - intros (s' & [= <-] & _). reflexivity.
  - intros (s & Hs & _). discriminate.
Qed.

Lemma startsWith_spec (p s : string) :
  JsString.startsWith s p = true <-> exists rest, s = p +:+ rest.
Proof.
  revert s. induction p as [|a p IH]; intros s; simpl.
  - split; [intros _; exists s; reflexivity | reflexivity].
  - destruct s as [|b s].
    + split; [discriminate | intros (rest & H); discriminate].
    + rewrite andb_true_iff, IH. split.
      * intros (Hab & rest & ->). apply Ascii.eqb_eq in Hab as ->. by exists rest.
      * intros (rest & [= -> ->]). split; [apply Ascii.eqb_refl | by exists rest].
Qed.

Lemma rowIsValid_spec (row : Row) :
  rowIsValid row = true <-> RowMeetsContract row.
Proof.
  unfold rowIsValid, RowMeetsContract.
  rewrite !andb_true_iff, !truthy_spec. split.
  - intros (((Hl & Hn) & (urls & Hu & Hne)) & Hall).
    split; [exact Hl | split; [exact Hn |]].
    exists urls. rewrite Hu in Hall. split; [exact Hu | split; [exact Hne |]].
    intros url Hin. rewrite forallb_forall in Hall.
    apply startsWith_spec, Hall, Hin.
  - intros (Hl & Hn & (urls & Hu & Hne & Hall)).
    split; [split; [split; [exact Hl | exact Hn] | by exists urls] |].
    rewrite Hu. apply forallb_forall. intros url Hin.
    apply startsWith_spec, Hall, Hin.
Qed.

Lemma isValid_spec (results : list Row) :
  isValid results = true <-> Forall RowMeetsContract results.
Proof.
  unfold isValid. rewrite forallb_forall, Forall_forall.
  split; intros H row Hin.
  - apply rowIsValid_spec, H, list_elem_of_In, Hin.
  - apply rowIsValid_spec, H, list_elem_of_In, Hin.
Qed.

(** C4: the empty table is valid and validation yields zero rows. *)
Theorem validate_empty_table :
  validateCSV_end [] = Ok [] /\ isValid [] = true.
Proof. split; reflexivity. Qed.

(** C5: validation succeeds, returning the input rows (hence as many rows
    as were given), exactly when every row meets the column contract; in
    every other case the whole table is refused with the single error
    [Invalid CSV format or data]. *)
Theorem validate_all_or_nothing (results : list Row) :
  (validateCSV_end results = Ok results <-> Forall RowMeetsContract results) /\
  (validateCSV_end results = Throw "Invalid CSV format or data"
     <-> ~ Forall RowMeetsContract results) /\
  (forall accepted, validateCSV_end results = Ok accepted ->
     accepted = results /\ length accepted = length results).
Proof.
  unfold validateCSV_end. rewrite <- isValid_spec.
  destruct (isValid results); repeat split; congruence.
Qed.

(** The primitives and the validator on small inputs. *)

Example split_keeps_empty_pieces :
  JsString.split "," "a, b,,c" = ["a"; " b"; ""; "c"] /\ JsString.split "," "" = [""].
Proof. split; reflexivity. Qed.

Example trim_strips_both_ends :
  JsString.trim "  https://cdn.example/a.png  " = "https://cdn.example/a.png".
Proof. reflexivity. Qed.

Example join_with_comma_space : JsString.join ", " ["a"; "b"; "c"] = "a, b, c".
Proof. reflexivity. Qed.

Example table_with_http_url_refused :
  validateCSV_end
    [Sample.row "1" "Mug" "https://cdn.example/a.png, http://cdn.example/b.png"]
  = Throw "Invalid CSV format or data".
Proof. vm_compute. reflexivity. Qed.

Example table_with_padded_urls_accepted :
  validateCSV_end Sample.twoRows = Ok Sample.twoRows.
Proof. vm_compute. reflexivity. Qed.

(** ** Effects and worlds *)

Lemma perform_setClock ev n w : perform ev (setClock n w) = setClock n (perform ev w).
Proof.
  destruct ev; try reflexivity.
  unfold perform, setClock; cbn. by destruct (execute q (db w) (txn w)) as [[d t] rows].
Qed.

Lemma performAll_setClock evs n w :
  performAll evs (setClock n w) = setClock n (performAll evs w).
Proof.
  revert w. induction evs as [|ev evs IH]; intros w; [reflexivity|].
  cbn. rewrite perform_setClock. apply IH.
Qed.

Lemma performAll_app evs1 evs2 w :
  performAll (evs1 ++ evs2) w = performAll evs2 (performAll evs1 w).
Proof. apply fold_left_app. Qed.

Lemma log_perform ev w : log (perform ev w) = log w ++ [ev].
Proof.
  destruct ev; try reflexivity.
  cbn. by destruct (execute q (db w) (txn w)) as [[d t] rows].
Qed.

Lemma log_performAll evs w : log (performAll evs w) = log w ++ evs.
Proof.
  revert w. induction evs as [|ev evs IH]; intros w; cbn.
  - by rewrite app_nil_r.
  - by rewrite IH, log_perform, <- app_assoc.
Qed.

Lemma Ran_refl w : Ran w w [].
Proof. exists (clock w). by destruct w. Qed.


Lemma Ran_trans w w1 w2 evs1 evs2 :
  Ran w w1 evs1 -> Ran w1 w2 evs2 -> Ran w w2 (evs1 ++ evs2).
Proof.
  intros [n1 ->] [n2 ->]. exists n2.
  by rewrite performAll_setClock, performAll_app.
Qed.

Lemma Ran_log w w' evs : Ran w w' evs -> log w' = log w ++ evs.
Proof. intros [n ->]. apply log_performAll. Qed.

Lemma Ran_state w w' evs :
  Ran w w' evs ->
  db w' = db (performAll evs w) /\ txn w' = txn (performAll evs w) /\
  files w' = files (performAll evs w) /\ history w' = history (performAll evs w) /\
  detached w' = detached (performAll evs w).
Proof. by intros [n ->]. Qed.

Lemma perform_seq_mono ev w :
  requests_id_seq (db w) <= requests_id_seq (db (perform ev w)) /\
  products_id_seq (db w) <= products_id_seq (db (perform ev w)).
Proof.
  destruct ev as [q| | | | | | | | |]; cbn; try lia.
  destruct q; cbn; try lia. destruct (txn w); cbn; lia.
Qed.

Lemma performAll_seq_mono evs w :
  requests_id_seq (db w) <= requests_id_seq (db (performAll evs w)) /\
  products_id_seq (db w) <= products_id_seq (db (performAll evs w)).
Proof.
  revert w. induction evs as [|ev evs IH]; intros w; [cbn; lia|].
  change (performAll (ev :: evs) w) with (performAll evs (perform ev w)).
  specialize (IH (perform ev w)). pose proof (perform_seq_mono ev w). lia.
Qed.

Lemma Ran_seq_mono w w' evs :
  Ran w w' evs ->
  requests_id_seq (db w) <= requests_id_seq (db w') /\
  products_id_seq (db w) <= products_id_seq (db w').
Proof. intros [n ->]. apply performAll_seq_mono. Qed.

Lemma Grown_refl d : Grown d d.
Proof.
  split; [done|]. split; exists []; [by rewrite app_nil_r|].
  split; [by rewrite app_nil_r|constructor].
Qed.

Lemma Grown_trans d1 d2 d3 : Grown d1 d2 -> Grown d2 d3 -> Grown d1 d3.
Proof.
  intros (Hr1 & (ps1 & Hp1) & (is1 & Hi1 & Hf1)) (Hr2 & (ps2 & Hp2) & (is2 & Hi2 & Hf2)).
  split; [congruence|]. split.
  - exists (ps1 ++ ps2). by rewrite Hp2, Hp1, <- app_assoc.
  - exists (is1 ++ is2). split; [by rewrite Hi2, Hi1, <- app_assoc|by apply Forall_app].
Qed.

Lemma productOfRequest_app ps1 ps2 requestId productId :
  productOfRequest (ps1 ++ ps2) requestId productId =
  productOfRequest ps1 requestId productId || productOfRequest ps2 requestId productId.
Proof. apply existsb_app. Qed.

Lemma productOfRequest_spec ps requestId productId :
  productOfRequest ps requestId productId = true <->
  exists p, In p ps /\ product_id p = productId /\ request_id p = requestId.
Proof.
  unfold productOfRequest. rewrite existsb_exists. split.
  - intros (p & Hin & Hp). apply andb_true_iff in Hp as (H1 & H2).
    apply Nat.eqb_eq in H1, H2. eauto.
  - intros (p & Hin & <- & <-). exists p. by rewrite !Nat.eqb_refl.
Qed.

Lemma imageMatches_spec d requestId inputUrl img :
  imageMatches (products d) requestId inputUrl img = true <->
  underJob d requestId img /\ input_url img = inputUrl.
Proof.
  unfold imageMatches, underJob.
  by rewrite andb_true_iff, productOfRequest_spec, String.eqb_eq.
Qed.

Lemma hasPendingImage_Grown d d' requestId url :
  Grown d d' -> hasPendingImage d requestId url -> hasPendingImage d' requestId url.
Proof.
  intros (_ & (ps & Hp) & (imgs & Hi & _)) (img & Hin & Hu & Hs & Hp').
  exists img. rewrite Hi, Hp, productOfRequest_app, Hp'.
  repeat split; auto. apply in_or_app. by left.
Qed.

Ltac events_of l w :=
  lazymatch l with
  | log w => constr:(@nil Event)
  | ?l' ++ [?ev] => let evs := events_of l' w in constr:(evs ++ [ev])
  end.

(* for a goal [exists evs, Ran w W evs /\ _] with [W] an explicit world over
   [w]: reads the effects off the log of [W] *)
Ltac ran_from w :=
  lazymatch goal with
  | |- exists evs, Ran w ?W evs /\ _ =>
      let L := eval cbn in (log W) in
      let evs := events_of L w in
      let evs' := eval cbn in evs in
      exists evs'; split; [exists (clock W); reflexivity|]
  end.

Ltac unfold_ops :=
  unfold pool_connect, client_query, try_finally, try_catch, client_release,
    console_error, res_status_json, emit, throw, tick, await, lift, Date_now,
    writeFile, axios_post, first_id in *;
  unfold mbind, M_bind, mret, M_ret in *.

Ltac case_store env :=
  repeat match goal with
         | |- context [store_error env ?n] => destruct (store_error env n); cbn
         end.

(** ** Control: sequencing, handlers, release *)

Lemma bind_run {A B} (m : M A) (f : A -> M B) w r w' :
  (m ≫= f) w = (r, w') ->
  (exists a w1, m w = (Ok a, w1) /\ f a w1 = (r, w')) \/
  (exists e, m w = (Throw e, w') /\ r = Throw e) \/
  (exists e, m w = (Uncaught e, w') /\ r = Uncaught e).
Proof.
  unfold mbind, M_bind. destruct (m w) as [[a|e|e] w1]; intros H.
  - left. eauto.
  - injection H as <- <-. right. left. eauto.
  - injection H as <- <-. right. right. eauto.
Qed.

Lemma try_catch_run {A} (m : M A) h w r w' :
  try_catch m h w = (r, w') ->
  (exists e w1, m w = (Throw e, w1) /\ h e w1 = (r, w')) \/
  (m w = (r, w') /\ forall e, r <> Throw e).
Proof.
  unfold try_catch. destruct (m w) as [[a|e|e] w1]; intros H.
  - injection H as <- <-. by right.
  - left. eauto.
  - injection H as <- <-. by right.
Qed.

Lemma try_finally_release {A} (m : M A) w : try_finally m client_release w = m w.
Proof. unfold try_finally, client_release. by destruct (m w) as [[a|e|e] w1]. Qed.

(** ** Runs of the store operations and of the transformer *)

Section Runs.

Variable env : Env.

Lemma updateImageStatus_run id u s o w r w' :
  updateImageStatus env id u s o w = (r, w') ->
  exists evs, Ran w w' evs /\
    ((r = Ok tt /\ evs = [EvQuery (UpdateImages s o id u)]) \/
     (exists e, r = Throw e /\
        (evs = [] \/ evs = [EvConsoleError "Error updating image status:" e]))).
Proof.
  unfold updateImageStatus. unfold_ops. cbn. case_store env;
    intros [= <- <-]; ran_from w; eauto.
Qed.

Lemma updateRequestStatus_run id s w r w' :
  updateRequestStatus env id s w = (r, w') ->
  exists evs, Ran w w' evs /\ statusWrite id s r evs.
Proof.
  unfold updateRequestStatus, statusWrite. unfold_ops. cbn. case_store env;
    intros [= <- <-]; ran_from w; eauto.
Qed.

Lemma compressImage_run url w r w' :
  compressImage env url w = (r, w') ->
  Ran w w' [EvCompress url r] /\
  match r with
  | Ok out => out = "https://compressed-image-url.com/" +:+
                    JsString.ofNumber (date_now env (S (clock w))) +:+ ".jpg"
  | Throw _ => True
  | Uncaught _ => False
  end.
Proof.
  unfold compressImage, compressImage_body. unfold_ops. cbn.
  destruct (http_get env (clock w) url) as [response|e]; cbn;
    [destruct (sharp_jpeg env 50 response) as [buffer|e]; cbn|];
    intros [= <- <-]; (split; [eexists; reflexivity|]); done.
Qed.

Lemma client_query_run q w r w' :
  client_query env q w = (r, w') ->
  (r = Ok (execute q (db w) (txn w)).2 /\ Ran w w' [EvQuery q] /\
   db w' = (execute q (db w) (txn w)).1.1 /\ txn w' = (execute q (db w) (txn w)).1.2) \/
  (exists e, r = Throw e /\ Ran w w' [] /\ db w' = db w /\ txn w' = txn w).
Proof.
  unfold client_query. unfold_ops. cbn [fst snd]. destruct (store_error env (clock w)).
  - intros [= <- <-]. right. eexists. split; [done|]. split; [|done].
    by exists (S (clock w)).
  - intros [= <- <-]. left. split; [done|]. split.
    + exists (S (clock w)). cbn. by destruct (execute q (db w) (txn w)) as [[d t] rows].
    + cbn. by destruct (execute q (db w) (txn w)) as [[d t] rows].
Qed.

Lemma insertImages_run productId urls w r w' :
  insertImages env productId urls w = (r, w') ->
  exists evs, Ran w w' evs /\
    (exists k, evs = map (fun u => EvQuery (InsertImage productId u "pending"))
                         (take k urls)) /\
    match r with
    | Ok _ => images (db w') = images (db w) ++ insertedImages productId urls /\
              products (db w') = products (db w) /\
              requests (db w') = requests (db w)
    | Throw _ => True
    | Uncaught _ => False
    end.
Proof.
  revert w r w'. induction urls as [|u urls IH]; intros w r w' H.
  - injection H as <- <-. exists []. split; [apply Ran_refl|]. split; [by exists 0|].
    cbn. by rewrite app_nil_r.
  - cbn [insertImages] in H. unfold mbind, M_bind in H.
    destruct (client_query env (InsertImage productId u "pending") w)
      as [[rows|e|e] w1] eqn:E;
      apply client_query_run in E as [(? & Hw1 & Hdb & _)|(e' & [= <-] & Hw1 & _)];
      try discriminate.
    + apply IH in H as (evs & Hw' & (k & ->) & Hr).
      eexists. split; [exact (Ran_trans _ _ _ _ _ Hw1 Hw')|]. split; [by exists (S k)|].
      destruct r; [|done|done]. destruct Hr as (-> & -> & ->). rewrite Hdb. cbn.
      by rewrite <- app_assoc.
    + injection H as <- <-. exists []. split; [done|]. split; [by exists 0|done].
Qed.

Lemma insertImage_events_class a b U productId urls k :
  b <= productId -> (forall u, In u urls -> In u U) ->
  Forall (ingestionEvent a b U)
    (map (fun u => EvQuery (InsertImage productId u "pending")) (take k urls)).
Proof.
  intros Hb. revert k. induction urls as [|u urls IH]; intros k HU.
  - destruct k; constructor.
  - destruct k; cbn; constructor.
    + cbn. repeat split; [done|]. apply HU. by left.
    + apply IH. intros u' Hu'. apply HU. by right.
Qed.

Lemma insertRows_run id data w r w' :
  insertRows env id data w = (r, w') ->
  exists evs, Ran w w' evs /\
    (forall a b U, a <= id -> b <= products_id_seq (db w) ->
       (forall u, In u (allUrls data) -> In u U) ->
       Forall (ingestionEvent a b U) evs) /\
    match r with
    | Ok _ => Grown (db w) (db w') /\
              forall u, In u (allUrls data) -> hasPendingImage (db w') id u
    | Throw _ => True
    | Uncaught _ => False
    end.
Proof.
  revert w r w'. induction data as [|row data IH]; intros w r w' H.
  - injection H as <- <-. exists []. split; [apply Ran_refl|]. split; [by constructor|].
    split; [apply Grown_refl | intros u []].
  - cbn [insertRows] in H. unfold mbind, M_bind in H.
    set (q := InsertProduct id (row !! "S. No.") (row !! "Product Name")) in *.
    destruct (client_query env q w) as [[rows|e|e] w1] eqn:E;
      apply client_query_run in E as [(Hrows & Hw1 & Hdb & _)|(e' & [= <-] & Hw1 & _)];
      try discriminate.
    2:{ injection H as <- <-. exists []. split; [done|]. split; [by constructor|done]. }
    injection Hrows as ->. cbn [first_id execute snd q] in H. unfold mret, M_ret in H.
    unfold split_and_trim in H.
    change (allUrls (row :: data)) with (rowUrls row ++ allUrls data). unfold rowUrls.
    destruct (row !! "Input Image Urls") as [s|].
    2:{ injection H as <- <-. exists [EvQuery q]. split; [done|]. split; [|done].
        intros a b U Ha Hb HU. repeat constructor. exact Ha. }
    unfold mret, M_ret in H. set (urls := map JsString.trim (JsString.split "," s)) in *.
    set (pid := products_id_seq (db w)) in *.
    destruct (insertImages env pid urls w1) as [[[]|e|e] w2] eqn:E2;
      apply insertImages_run in E2 as (evs2 & Hw2 & (k & Hevs2) & Hr2); [| |done].
    2:{ injection H as <- <-. eexists. split; [exact (Ran_trans _ _ _ _ _ Hw1 Hw2)|].
        split; [|done]. intros a b U Ha Hb HU. apply Forall_app. split.
        - repeat constructor. exact Ha.
        - subst evs2. apply insertImage_events_class; [done|].
          intros u Hu. apply HU, in_or_app. by left. }
    destruct Hr2 as (Himgs & Hprods & Hreqs).
    assert (Hps1 : products (db w1) = products (db w) ++
              [{| product_id := pid; request_id := id;
                  serial_number := row !! "S. No.";
                  product_name := row !! "Product Name" |}]) by (by rewrite Hdb).
    assert (Hg2 : Grown (db w) (db w2)).
    { split; [|split].
      - by rewrite Hreqs, Hdb.
      - eexists. by rewrite Hprods, Hps1.
      - eexists. split; [rewrite Himgs, Hdb; reflexivity|].
        unfold insertedImages. clear. induction urls; by constructor. }
    apply IH in H as (evs & Hw' & Hclass & Hr).
    eexists. split; [exact (Ran_trans _ _ _ _ _ (Ran_trans _ _ _ _ _ Hw1 Hw2) Hw')|].
    split.
    + intros a b U Ha Hb HU. rewrite Forall_app, Forall_app. split; [split|].
      * repeat constructor. exact Ha.
      * subst evs2. apply insertImage_events_class; [done|].
        intros u Hu. apply HU, in_or_app. by left.
      * apply Hclass; [done| |].
        -- pose proof (Ran_seq_mono _ _ _ (Ran_trans _ _ _ _ _ Hw1 Hw2)). lia.
        -- intros u Hu. apply HU, in_or_app. by right.
    + destruct r as [?|?|?]; [|done|done]. destruct Hr as (Hg & Hpend). split.
      * eapply Grown_trans; eassumption.
      * intros u Hu. apply in_app_or in Hu as [Hu|Hu]; [|by apply Hpend].
        eapply hasPendingImage_Grown; [exact Hg|].
        exists {| image_product_id := pid; input_url := u;
                  processing_status := "pending"; output_url := None |}.
        rewrite Himgs, Hprods, Hps1, productOfRequest_app. cbn.
        rewrite !Nat.eqb_refl. cbn. rewrite orb_true_r. repeat split; auto.
        apply in_or_app. right. unfold insertedImages. apply in_map_iff. eauto.
Qed.

Lemma pool_connect_run w r w' :
  pool_connect env w = (r, w') ->
  Ran w w' [] /\ db w' = db w /\ txn w' = txn w /\
  (r = Ok tt \/ exists e, r = Throw e).
Proof.
  unfold pool_connect. unfold_ops. destruct (store_error env (clock w));
    intros [= <- <-]; (split; [by exists (S (clock w))|]); eauto.
Qed.

Lemma rollback_and_rethrow_run {A} e w (r : Result A) w' :
  (client_query env Rollback;; throw e) w = (r, w') ->
  exists evs, Ran w w' evs /\ (evs = [] \/ evs = [EvQuery Rollback]) /\
    exists e', r = Throw e'.
Proof.
  intros H. apply bind_run in H as [(a & w1 & Hq & H)|[(e' & Hq & ->)|(e' & Hq & ->)]];
    apply client_query_run in Hq as [(? & Hw1 & _)|(e'' & ? & Hw1 & _)];
    try discriminate.
  - injection H as <- <-. eauto 6.
  - eauto 6.
Qed.

Lemma storeProductData_run id data w r w' :
  storeProductData env id data w = (r, w') ->
  exists evs, Ran w w' evs /\
    (forall a b U, a <= id -> b <= products_id_seq (db w) ->
       (forall u, In u (allUrls data) -> In u U) ->
       Forall (ingestionEvent a b U) evs) /\
    match r with
    | Ok _ => Grown (db w) (db w') /\ txn w' = None /\
              forall u, In u (allUrls data) -> hasPendingImage (db w') id u
    | Throw _ => True
    | Uncaught _ => False
    end.
Proof.
  unfold storeProductData. intros H.
  apply bind_run in H as [([] & wa & Hc & H)|[(e & Hc & ->)|(e & Hc & ->)]];
    apply pool_connect_run in Hc as (Hwa & Hda & _ & [?|[e' ?]]); try discriminate.
  2:{ exists []. split; [done|]. split; [by constructor|done]. }
  rewrite try_finally_release in H.
  assert (Hhandler : forall e w1 evs1,
    Ran w w1 evs1 ->
    (forall a b U, a <= id -> b <= products_id_seq (db w) ->
       (forall u, In u (allUrls data) -> In u U) ->
       Forall (ingestionEvent a b U) evs1) ->
    (client_query env Rollback;; @throw unit e) w1 = (r, w') ->
    exists evs, Ran w w' evs /\
      (forall a b U, a <= id -> b <= products_id_seq (db w) ->
         (forall u, In u (allUrls data) -> In u U) ->
         Forall (ingestionEvent a b U) evs) /\
      match r with Ok _ => False | Throw _ => True | Uncaught _ => False end).
  { intros e w1 evs1 Hw1 Hcl Hh.
    apply rollback_and_rethrow_run in Hh as (evs2 & Hw2 & Hevs2 & (e' & ->)).
    eexists. split; [exact (Ran_trans _ _ _ _ _ Hw1 Hw2)|]. split; [|done].
    intros a b U Ha Hb HU. apply Forall_app. split; [by apply Hcl|].
    destruct Hevs2 as [-> | ->]; repeat constructor. }
  assert (Hweak : (exists evs, Ran w w' evs /\
      (forall a b U, a <= id -> b <= products_id_seq (db w) ->
         (forall u, In u (allUrls data) -> In u U) ->
         Forall (ingestionEvent a b U) evs) /\
      match r with Ok _ => False | Throw _ => True | Uncaught _ => False end) ->
    exists evs, Ran w w' evs /\
    (forall a b U, a <= id -> b <= products_id_seq (db w) ->
       (forall u, In u (allUrls data) -> In u U) ->
       Forall (ingestionEvent a b U) evs) /\
    match r with
    | Ok _ => Grown (db w) (db w') /\ txn w' = None /\
              forall u, In u (allUrls data) -> hasPendingImage (db w') id u
    | Throw _ => True
    | Uncaught _ => False
    end).
  { intros (evs & ? & ? & ?). exists evs. by destruct r. }
  apply try_catch_run in H as [(e & w1 & Hbody & Hh)|(Hbody & Hnothrow)].
  - (* the body threw: ROLLBACK and rethrow *)
    apply Hweak.
    apply bind_run in Hbody as [(rows0 & wb & Hq & Hbody)|[(e0 & Hq & [= ->])|(e0 & Hq & ?)]];
      [| |discriminate];
      apply client_query_run in Hq as [(? & Hwb & Hdb & _)|(e'' & ? & Hwb & _)];
      try discriminate.
    2:{ eapply Hhandler; [exact (Ran_trans _ _ _ _ _ Hwa Hwb)| |exact Hh].
        intros; constructor. }
    apply bind_run in Hbody as [([] & wc & Hi & Hbody)|[(e0 & Hi & [= ->])|(e0 & Hi & ?)]];
      [| |discriminate];
      apply insertRows_run in Hi as (evsi & Hwc & Hcl & Hr).
    2:{ eapply Hhandler;
          [exact (Ran_trans _ _ _ _ _ (Ran_trans _ _ _ _ _ Hwa Hwb) Hwc)| |exact Hh].
        intros a b U Ha Hb HU. cbn. constructor; [done|].
        apply Hcl; [done| |done]. cbn in Hdb. rewrite Hdb, Hda. done. }
    apply bind_run in Hbody as [(rows1 & wd & Hq & Hbody)|[(e0 & Hq & [= ->])|(e0 & Hq & ?)]];
      [discriminate| |discriminate].
    apply client_query_run in Hq as [(? & Hwd & _)|(e'' & ? & Hwd & _)];
      try discriminate.
    eapply Hhandler;
      [exact (Ran_trans _ _ _ _ _
                (Ran_trans _ _ _ _ _ (Ran_trans _ _ _ _ _ Hwa Hwb) Hwc) Hwd)| |exact Hh].
    intros a b U Ha Hb HU. cbn. constructor; [done|]. rewrite app_nil_r.
    apply Hcl; [done| |done]. cbn in Hdb. rewrite Hdb, Hda. done.
  - (* the body returned *)
    apply bind_run in Hbody as [(rows0 & wb & Hq & Hbody)|[(e0 & _ & ->)|(e0 & Hq & ->)]];
      [|by destruct (Hnothrow e0)|];
      apply client_query_run in Hq as [(? & Hwb & Hdb & _)|(e'' & ? & Hwb & _)];
      try discriminate.
    apply bind_run in Hbody as [([] & wc & Hi & Hbody)|[(e0 & _ & ->)|(e0 & Hi & ->)]];
      [|by destruct (Hnothrow e0)|];
      apply insertRows_run in Hi as (evsi & Hwc & Hcl & Hr); [|done].
    apply bind_run in Hbody as [(rows1 & wd & Hq & Hbody)|[(e0 & _ & ->)|(e0 & Hq & ->)]];
      [|by destruct (Hnothrow e0)|];
      apply client_query_run in Hq as [(? & Hwd & Hdd & Htd)|(e'' & ? & Hwd & _)];
      try discriminate.
    injection Hbody as <- <-.
    eexists. split;
      [exact (Ran_trans _ _ _ _ _
                (Ran_trans _ _ _ _ _ (Ran_trans _ _ _ _ _ Hwa Hwb) Hwc) Hwd)|].
    cbn in Hdb, Hdd, Htd. split.
    + intros a b U Ha Hb HU. cbn. constructor; [done|]. apply Forall_app. split.
      * apply Hcl; [done| |done]. rewrite Hdb, Hda. done.
      * repeat constructor.
    + destruct Hr as (Hg & Hpend). rewrite Hdd, <- Hda, <- Hdb. auto.
Qed.

Lemma createRequest_run w r w' :
  createRequest env w = (r, w') ->
  exists evs, Ran w w' evs /\
    (forall a b U, Forall (ingestionEvent a b U) evs) /\
    match r with
    | Ok id => id = requests_id_seq (db w) /\
               evs = [EvQuery Begin; EvQuery (InsertRequest "pending"); EvQuery Commit]
    | Throw _ => True
    | Uncaught _ => False
    end.
Proof.
  unfold createRequest. unfold_ops. cbn. case_store env;
    intros [= <- <-]; ran_from w; (split; [intros; repeat constructor|]); done.
Qed.

End Runs.

(** ** Runs of the upload handler *)

Lemma ingestion_keeps_files a b U evs w :
  Forall (ingestionEvent a b U) evs ->
  files (performAll evs w) = files w /\ detached (performAll evs w) = detached w.
Proof.
  intros H. revert w. induction H as [|ev evs Hev _ IH]; intros w; [done|].
  change (performAll (ev :: evs) w) with (performAll evs (perform ev w)).
  destruct (IH (perform ev w)) as [-> ->].
  destruct ev as [q| | | | | | | | |]; try done.
  cbn. by destruct (execute q (db w) (txn w)) as [[d t] rows].
Qed.

Lemma hasPendingImage_same d d' requestId url :
  images d' = images d -> products d' = products d ->
  hasPendingImage d requestId url -> hasPendingImage d' requestId url.
Proof. unfold hasPendingImage. by intros -> ->. Qed.

Section Upload.

Variable env : Env.

Lemma uploadDoc_try_run filePath content w r w' :
  files w !! filePath = Some content ->
  uploadDoc_try env filePath w = (r, w') ->
  exists U evs,
    Forall (ingestionEvent (requests_id_seq (db w)) (products_id_seq (db w)) U) evs /\
    match r with
    | Ok _ =>
        exists data, let id := requests_id_seq (db w) in
          csv_parse env content = Resolved data /\ isValid data = true /\
          U = allUrls data /\
          Ran w w' (evs ++ [EvUnlink filePath; EvDetach id data;
                            EvResponse 200
                              (UploadedBody "File uploaded and processing started" id)]) /\
          requests (db w') !! id = Some "processing" /\
          forall u, In u (allUrls data) -> hasPendingImage (db w') id u
    | Throw e => Ran w w' evs
    | Uncaught _ => False
    end.
Proof.
  intros Hfile H. unfold uploadDoc_try in H.
  apply bind_run in H as [(data & w0 & Hv & H)|[(e & Hv & ->)|(e & Hv & ->)]].
  all: unfold validateCSV, read_and_parse, validateCSV_end in Hv; unfold_ops;
    rewrite Hfile in Hv; destruct (csv_parse env content) as [results|e'] eqn:Hparse;
    [destruct (isValid results) eqn:Hvalid|]; try discriminate.
  2,3: injection Hv as _ <-; exists [], []; split; [constructor | apply Ran_refl].
  injection Hv as <- <-.
  apply bind_run in H as [(id & w1 & Hc & H)|[(e & Hc & ->)|(e & Hc & ->)]];
    apply createRequest_run in Hc as (evs1 & Hw1 & Hcl1 & Hr1); [| |done].
  2:{ exists [], evs1. split; [apply Hcl1|done]. }
  destruct Hr1 as (-> & ->).
  set (id := requests_id_seq (db w)) in *.
  destruct (Ran_state _ _ _ Hw1) as (Hd1 & Ht1 & Hf1 & _). cbn in Hd1, Ht1.
  assert (Hseq1 : products_id_seq (db w1) = products_id_seq (db w)) by (by rewrite Hd1).
  apply bind_run in H as [([] & w2 & Hs & H)|[(e & Hs & ->)|(e & Hs & ->)]];
    apply storeProductData_run in Hs as (evs2 & Hw2 & Hcl2 & Hr2); [| |done].
  2:{ exists (allUrls results). eexists. split; [|exact (Ran_trans _ _ _ _ _ Hw1 Hw2)].
      apply Forall_app. split; [repeat constructor|].
      apply Hcl2; [done|lia|done]. }
  destruct Hr2 as (Hg2 & Ht2 & Hpend2). pose proof Hg2 as (Hreq2 & Hgp2 & Hgi2).
  apply bind_run in H as [([] & w3 & Hu & H)|[(e & Hu & ->)|(e & Hu & ->)]];
    apply updateRequestStatus_run in Hu as (evs3 & Hw3 & Hst).
  2:{ exists (allUrls results). eexists.
      split; [|exact (Ran_trans _ _ _ _ _ (Ran_trans _ _ _ _ _ Hw1 Hw2) Hw3)].
      apply Forall_app. split; [apply Forall_app; split|].
      - repeat constructor.
      - apply Hcl2; [done|lia|done].
      - destruct Hst as [(? & _)|(e' & _ & [-> | ->])];
          [discriminate|constructor|repeat constructor]. }
  2:{ by destruct Hst as [(? & _)|(e' & ? & _)]. }
  destruct Hst as [(_ & ->)|(e' & ? & _)]; [|discriminate].
  destruct (Ran_state _ _ _ Hw3) as (Hd3 & _). cbn in Hd3.
  pose proof (Ran_trans _ _ _ _ _ (Ran_trans _ _ _ _ _ Hw1 Hw2) Hw3) as Hw03.
  assert (Hcl : Forall (ingestionEvent id (products_id_seq (db w)) (allUrls results))
            (([EvQuery Begin; EvQuery (InsertRequest "pending"); EvQuery Commit] ++ evs2)
             ++ [EvQuery (UpdateRequest "processing" id)])).
  { apply Forall_app. split; [apply Forall_app; split|].
    - repeat constructor.
    - apply Hcl2; [done|lia|done].
    - repeat constructor. }
  assert (Hf3 : files w3 = files w).
  { destruct (Ran_state _ _ _ Hw03) as (_ & _ & -> & _).
    eapply ingestion_keeps_files, Hcl. }
  unfold unlinkSync in H. unfold_ops. rewrite Hf3, Hfile in H. injection H as <- <-.
  exists (allUrls results). eexists. split; [exact Hcl|].
  exists results. cbn zeta. split; [done|]. split; [done|]. split; [done|].
  split; [|split].
  - eapply Ran_trans; [exact Hw03|]. by exists (clock w3).
  - cbn. rewrite Hd3. cbn. rewrite lookup_alter_eq, Hreq2, Hd1. cbn.
    by rewrite lookup_insert_eq.
  - intros u Hu. eapply hasPendingImage_same; [| |exact (Hpend2 u Hu)];
      cbn; by rewrite Hd3.
Qed.

(** What one upload of a file present on disk does: it always answers
    normally; the store statements come first, then the file is unlinked,
    then either the processing is detached and 200 is sent, or 400 is
    sent with the message of the error caught. *)
Lemma uploadDoc_run f content w r w' :
  files w !! path f = Some content ->
  uploadDoc env {| file := Some f |} w = (r, w') ->
  r = Ok tt /\
  exists U evs tail,
    Forall (ingestionEvent (requests_id_seq (db w)) (products_id_seq (db w)) U) evs /\
    Ran w w' (evs ++ EvUnlink (path f) :: tail) /\
    ((exists data, let id := requests_id_seq (db w) in
        csv_parse env content = Resolved data /\ isValid data = true /\
        U = allUrls data /\
        tail = [EvDetach id data;
                EvResponse 200
                  (UploadedBody "File uploaded and processing started" id)] /\
        requests (db w') !! id = Some "processing" /\
        forall u, In u (allUrls data) -> hasPendingImage (db w') id u) \/
     (exists e, tail = [EvResponse 400 (MessageBody e)])).
Proof.
  intros Hfile H. unfold uploadDoc in H. cbn [file] in H.
  assert (Hinner : forall r1 w1,
    try_catch (uploadDoc_try env (path f))
      (fun validationError =>
         unlinkSync (path f);;
         res_status_json 400 (MessageBody validationError)) w = (r1, w1) ->
    r1 = Ok tt /\
    exists U evs tail,
      Forall (ingestionEvent (requests_id_seq (db w)) (products_id_seq (db w)) U) evs /\
      Ran w w1 (evs ++ EvUnlink (path f) :: tail) /\
      ((exists data, let id := requests_id_seq (db w) in
          csv_parse env content = Resolved data /\ isValid data = true /\
          U = allUrls data /\
          tail = [EvDetach id data;
                  EvResponse 200
                    (UploadedBody "File uploaded and processing started" id)] /\
          requests (db w1) !! id = Some "processing" /\
          forall u, In u (allUrls data) -> hasPendingImage (db w1) id u) \/
       (exists e, tail = [EvResponse 400 (MessageBody e)]))).
  { intros r1 w1 H1.
    apply try_catch_run in H1 as [(e & w2 & Hbody & Hh)|(Hbody & Hnothrow)];
      apply (uploadDoc_try_run _ _ _ _ _ Hfile) in Hbody as (U & evs & Hcl & Hr).
    - (* an error was caught: unlink, answer 400 *)
      assert (Hf2 : files w2 = files w).
      { destruct (Ran_state _ _ _ Hr) as (_ & _ & -> & _).
        eapply ingestion_keeps_files, Hcl. }
      unfold unlinkSync in Hh. unfold_ops. rewrite Hf2, Hfile in Hh.
      injection Hh as <- <-. split; [done|].
      exists U, evs, [EvResponse 400 (MessageBody e)]. split; [done|]. split; [|eauto].
      eapply Ran_trans; [exact Hr|]. by exists (clock w2).
    - destruct r1 as [[]|e|e]; [|by destruct (Hnothrow e)|done].
      destruct Hr as (data & Hparse & Hvalid & -> & Hw1 & Hst & Hpend).
      split; [done|]. exists (allUrls data), evs. eexists. split; [done|].
      split; [exact Hw1|]. left. by exists data. }
  apply try_catch_run in H as [(e & w1 & Hbody & _)|(Hbody & _)];
    apply Hinner in Hbody as (Hr & Hrest); [discriminate|done].
Qed.

End Upload.

(** ** Runs of the processing routine *)

Section Processing.

Variable env : Env.

Lemma processUrls_run id urls outs w r w' :
  processUrls env id urls outs w = (r, w') ->
  exists done tail,
    Ran w w' (processedTrace id done ++ tail) /\
    match r with
    | Ok outs' => tail = [] /\ map fst done = urls /\ outs' = outs ++ map snd done
    | Throw e => exists u rest, urls = map fst done ++ u :: rest /\ abortedAt u e tail
    | Uncaught _ => False
    end.
Proof.
  revert outs w r w'. induction urls as [|u urls IH]; intros outs w r w' H.
  - injection H as <- <-. exists [], [].
    split; [apply Ran_refl | by rewrite app_nil_r].
  - cbn [processUrls] in H.
    apply bind_run in H as [(o & w1 & Hc & H)|[(e & Hc & ->)|(e & Hc & ->)]];
      apply compressImage_run in Hc as (Hw1 & Ho); [| |done].
    2:{ exists [], [EvCompress u (Throw e)]. split; [exact Hw1|].
        exists u, urls. split; [reflexivity|]. by left. }
    clear Ho.
    apply bind_run in H as [([] & w2 & Hu & H)|[(e & Hu & ->)|(e & Hu & ->)]];
      apply updateImageStatus_run in Hu as (evs2 & Hw2 & [[? Hevs]|(e' & [= <-] & Hevs)]);
      try discriminate.
    + subst evs2. apply IH in H as (done & tail & Hw' & Hr).
      exists ((u, o) :: done), tail. split.
      { exact (Ran_trans _ _ _ _ _ (Ran_trans _ _ _ _ _ Hw1 Hw2) Hw'). }
      destruct r as [outs'|e|e]; [| |done].
      * destruct Hr as (-> & <- & ->). cbn. by rewrite <- app_assoc.
      * destruct Hr as (u' & rest & -> & Hab). by exists u', rest.
    + exists [], (EvCompress u (Ok o) :: evs2). split.
      { exact (Ran_trans _ _ _ _ _ Hw1 Hw2). }
      exists u, urls. split; [reflexivity|]. right. exists o.
      destruct Hevs as [-> | ->]; auto.
Qed.

Lemma processRows_run id data acc w r w' :
  processRows env id data acc w = (r, w') ->
  exists done tail,
    Ran w w' (processedTrace id done ++ tail) /\
    match r with
    | Ok _ => tail = [] /\ map fst done = allUrls data
    | Throw e =>
        exists rest, allUrls data = map fst done ++ rest /\
          (tail = [] \/ exists u rest', rest = u :: rest' /\ abortedAt u e tail)
    | Uncaught _ => False
    end.
Proof.
  revert acc w r w'. induction data as [|row data IH]; intros acc w r w' H.
  - injection H as <- <-. exists [], []. split; [apply Ran_refl | done].
  - cbn [processRows] in H. unfold split_and_trim in H.
    change (allUrls (row :: data)) with (rowUrls row ++ allUrls data). unfold rowUrls.
    destruct (row !! "Input Image Urls") as [s|].
    2:{ injection H as <- <-. exists [], []. split; [apply Ran_refl|].
        exists (allUrls data). auto. }
    cbn [default] in H. set (urls := map JsString.trim (JsString.split "," s)) in *.
    apply bind_run in H as [(urls' & w0 & [= <- <-] & H)|[(e & ? & _)|(e & ? & _)]];
      [|discriminate|discriminate].
    apply bind_run in H as [(outs & w1 & Hp & H)|[(e & Hp & ->)|(e & Hp & ->)]];
      apply processUrls_run in Hp as (done1 & tail1 & Hw1 & Hr1); [| |done].
    + destruct Hr1 as (-> & <- & ->). rewrite app_nil_r in Hw1.
      apply IH in H as (done & tail & Hw' & Hr).
      exists (done1 ++ done), tail. split.
      { unfold processedTrace. rewrite flat_map_app, <- app_assoc.
        exact (Ran_trans _ _ _ _ _ Hw1 Hw'). }
      destruct r as [?|e|e]; [| |done].
      * destruct Hr as (-> & <-). by rewrite map_app.
      * destruct Hr as (rest & -> & Hc). exists rest. by rewrite map_app, <- app_assoc.
    + exists done1, tail1. split; [exact Hw1|].
      destruct Hr1 as (u & rest & -> & Hab).
      exists (u :: rest ++ allUrls data). split; [by rewrite <- app_assoc|].
      right. by exists u, (rest ++ allUrls data).
Qed.

Lemma generateOutputCsv_run data w r w' :
  generateOutputCsv env data w = (r, w') ->
  exists evs, Ran w w' evs /\
    ((exists reportPath content, r = Ok reportPath /\ evs = [EvWriteFile reportPath content]) \/
     (exists e, r = Throw e /\ evs = [])).
Proof.
  unfold generateOutputCsv. unfold_ops. cbn.
  destruct (csv_stringify env data) as [output|e]; cbn;
    [destruct (write_file_error env (S (clock w))); cbn|];
    intros [= <- <-]; ran_from w; eauto.
Qed.

Lemma sendWebhookNotification_run id reportPath w r w' :
  sendWebhookNotification env id reportPath w = (r, w') ->
  r = Ok tt /\ exists last, Ran w w' [last] /\ quietEvent last.
Proof.
  unfold sendWebhookNotification. unfold_ops. cbn.
  destruct (http_post_error env (clock w)); cbn; intros [= <- <-]; (split; [done|]).
  - eexists (EvConsoleError _ _). split; [by exists (S (clock w))|done].
  - eexists (EvPost _ _ _ _). split; [by exists (S (clock w))|done].
Qed.

Lemma processImages_run id data w r w' :
  processImages env id data w = (r, w') ->
  exists done tail,
    Ran w w' (processedTrace id done ++ tail) /\
    processingOutcome id data done r tail.
Proof.
  unfold processImages. intros H.
  assert (Hfail : forall e w1 done rest cause,
    Ran w w1 (processedTrace id done ++ cause) ->
    allUrls data = map fst done ++ rest ->
    abortCause rest e cause ->
    (console_error "Error processing images:" e;;
     updateRequestStatus env id "failed") w1 = (r, w') ->
    exists done tail,
      Ran w w' (processedTrace id done ++ tail) /\
      processingOutcome id data done r tail).
  { intros e w1 done rest cause Hw1 Hurls Hcause Hh.
    apply bind_run in Hh as [([] & w2 & [= <-] & Hh)|[(e0 & ? & _)|(e0 & ? & _)]];
      [|discriminate|discriminate].
    apply updateRequestStatus_run in Hh as (evsF & Hw' & Hst).
    exists done, (cause ++ EvConsoleError "Error processing images:" e :: evsF). split.
    - rewrite app_assoc.
      eapply Ran_trans; [exact Hw1|].
      eapply (Ran_trans _ _ _ [_]); [|exact Hw']. by exists (clock w1).
    - right. by exists rest, e, cause, evsF. }
  apply try_catch_run in H as [(e & w1 & Hbody & Hh)|(Hbody & Hnothrow)].
  - (* an exception reached the handler *)
    apply bind_run in Hbody as [(processed & wa & Hp & Hbody)|[(e0 & Hp & [= ->])|(e0 & _ & ?)]];
      [| |discriminate];
      apply processRows_run in Hp as (done & tail & Hwa & Hr).
    2:{ destruct Hr as (rest & Hurls & Hc).
        eapply Hfail; [exact Hwa|exact Hurls| |exact Hh].
        destruct Hc as [-> | Hc]; [right; constructor|by left]. }
    destruct Hr as (-> & Hdone). rewrite app_nil_r in Hwa.
    apply bind_run in Hbody as [(reportPath & wb & Hg & Hbody)|[(e0 & Hg & [= ->])|(e0 & _ & ?)]];
      [| |discriminate];
      apply generateOutputCsv_run in Hg
        as (evsg & Hwb & [(p & c & [= <-] & ->)|(e' & ? & ->)]); try discriminate.
    2:{ eapply (Hfail _ _ done [] []); [|by rewrite app_nil_r|right; constructor|exact Hh].
        rewrite app_nil_r. rewrite <- (app_nil_r (processedTrace id done)).
        exact (Ran_trans _ _ _ _ _ Hwa Hwb). }
    apply bind_run in Hbody as [([] & wc & Hu & Hbody)|[(e0 & Hu & [= ->])|(e0 & _ & ?)]];
      [| |discriminate];
      apply updateRequestStatus_run in Hu as (evsu & Hwc & Hst).
    { apply sendWebhookNotification_run in Hbody as (? & _). discriminate. }
    destruct Hst as [(? & _)|(e' & [= <-] & Hevsu)]; [discriminate|].
    eapply (Hfail _ _ done [] (EvWriteFile reportPath c :: evsu));
      [|by rewrite app_nil_r| |exact Hh].
    + pose proof (Ran_trans _ _ _ _ _ (Ran_trans _ _ _ _ _ Hwa Hwb) Hwc) as Hw.
      by rewrite <- app_assoc in Hw.
    + right. destruct Hevsu as [-> | ->]; repeat constructor.
  - (* no exception *)
    apply bind_run in Hbody as [(processed & wa & Hp & Hbody)|[(e0 & _ & ->)|(e0 & Hp & ->)]];
      [|by destruct (Hnothrow e0)|];
      apply processRows_run in Hp as (cs & tail & Hwa & Hr); [|done].
    destruct Hr as (-> & Hdone). rewrite app_nil_r in Hwa.
    apply bind_run in Hbody as [(reportPath & wb & Hg & Hbody)|[(e0 & _ & ->)|(e0 & Hg & ->)]];
      [|by destruct (Hnothrow e0)|];
      apply generateOutputCsv_run in Hg
        as (evsg & Hwb & [(p & c & [= <-] & ->)|(e' & ? & ->)]); try discriminate.
    apply bind_run in Hbody as [([] & wc & Hu & Hbody)|[(e0 & _ & ->)|(e0 & Hu & ->)]];
      [|by destruct (Hnothrow e0)|];
      apply updateRequestStatus_run in Hu as (evsu & Hwc & Hst).
    2:{ by destruct Hst as [(? & _)|(e' & ? & _)]. }
    destruct Hst as [(_ & ->)|(e' & ? & _)]; [|discriminate].
    apply sendWebhookNotification_run in Hbody as (-> & last & Hw' & Hlast).
    exists cs. eexists. split.
    + pose proof (Ran_trans _ _ _ _ _
               (Ran_trans _ _ _ _ _ (Ran_trans _ _ _ _ _ Hwa Hwb) Hwc) Hw') as Hw.
      rewrite <- !app_assoc in Hw. exact Hw.
    + left. split; [done|]. split; [done|]. by exists reportPath, c, last.
Qed.

End Processing.

(** ** What the recorded transformations do to the store *)

Lemma processedTrace_state id cs w :
  db (performAll (processedTrace id cs) w) =
    {| requests := requests (db w);
       products := products (db w);
       images := completeImages (products (db w)) id cs (images (db w));
       requests_id_seq := requests_id_seq (db w);
       products_id_seq := products_id_seq (db w) |} /\
  txn (performAll (processedTrace id cs) w) = txn w.
Proof.
  revert w. induction cs as [|c cs IH]; intros w.
  - by destruct w as [[] ?].
  - change (performAll (processedTrace id (c :: cs)) w)
      with (performAll (processedTrace id cs)
              (perform (EvQuery (UpdateImages "completed" (Some c.2) id c.1))
                 (perform (EvCompress c.1 (Ok c.2)) w))).
    destruct (IH (perform (EvQuery (UpdateImages "completed" (Some c.2) id c.1))
                    (perform (EvCompress c.1 (Ok c.2)) w))) as [-> ->].
    done.
Qed.









(** One upload served on the sample server, every collaborator answering:
    the effects in order. *)
Example upload_served_effects :
  log (serveUpload (Sample.calm Sample.sharedUrl) Sample.upload Sample.start) =
    [EvQuery Begin; EvQuery (InsertRequest "pending"); EvQuery Commit;
     EvQuery Begin;
     EvQuery (InsertProduct 1 (Some "1") (Some "Mug"));
     EvQuery (InsertImage 1 "https://cdn.example/a.png" "pending");
     EvQuery (InsertProduct 1 (Some "2") (Some "Cup"));
     EvQuery (InsertImage 2 "https://cdn.example/a.png" "pending");
     EvQuery Commit;
     EvQuery (UpdateRequest "processing" 1);
     EvUnlink "uploads/3f9a";
     EvDetach 1 Sample.sharedUrl;
     EvResponse 200 (UploadedBody "File uploaded and processing started" 1);
     EvResume 1;
     EvCompress "https://cdn.example/a.png"
       (Ok "https://compressed-image-url.com/1700000000014.jpg");
     EvQuery (UpdateImages "completed"
                (Some "https://compressed-image-url.com/1700000000014.jpg") 1
                "https://cdn.example/a.png");
     EvCompress "https://cdn.example/a.png"
       (Ok "https://compressed-image-url.com/1700000000018.jpg");
     EvQuery (UpdateImages "completed"
                (Some "https://compressed-image-url.com/1700000000018.jpg") 1
                "https://cdn.example/a.png");
     EvWriteFile "./output_1700000000021.csv" "report";
     EvQuery (UpdateRequest "completed" 1);
     EvPost "https://example.com/webhook" 1 "completed"
       "https://your-api-domain.com/download/./output_1700000000021.csv"].
Proof. vm_compute. reflexivity. Qed.

(** Both ImageRefs carry the output of the second transformation: each
    was written twice. *)
Example shared_url_written_twice :
  map output_url
    (images (db (serveUpload (Sample.calm Sample.sharedUrl) Sample.upload Sample.start))) =
    [Some "https://compressed-image-url.com/1700000000018.jpg";
     Some "https://compressed-image-url.com/1700000000018.jpg"].
Proof. vm_compute. reflexivity. Qed.

(** ** Invariants of the store over the life of one upload *)





Lemma productOfRequest_old_job d0 ps k pid :
  Forall (fun p => requests_id_seq d0 <= request_id p /\
                   products_id_seq d0 <= product_id p) ps ->
  k < requests_id_seq d0 ->
  productOfRequest ps k pid = false.
Proof.
  intros Hps Hk. apply not_true_is_false. intros H.
  apply productOfRequest_spec in H as (p & Hin & _ & Hp).
  rewrite Forall_forall in Hps. apply list_elem_of_In, Hps in Hin. lia.
Qed.








Lemma inert_keeps_db evs w :
  Forall inert evs -> db (performAll evs w) = db w.
Proof.
  intros H. revert w. induction H as [|ev evs Hev _ IH]; intros w; [done|].
  change (performAll (ev :: evs) w) with (performAll evs (perform ev w)).
  rewrite IH. by destruct ev.
Qed.




Section Lifecycle.

Variable env : Env.


End Lifecycle.






(** ** The upload handler *)

Section UploadClaims.

Variable env : Env.

(** C10: a request without a file is answered 400 [No file uploaded] and
    nothing else happens: the response is the only effect; the store (no
    job, product or ImageRef created), the files and the detached calls
    (no processing started) are as before. *)
Theorem upload_without_file_only_answers (w : World) :
  let after := uploadDoc env {| file := None |} w in
  after.1 = Ok tt /\
  log after.2 = log w ++ [EvResponse 400 (MessageBody "No file uploaded")] /\
  db after.2 = db w /\ txn after.2 = txn w /\ history after.2 = history w /\
  files after.2 = files w /\ detached after.2 = detached w /\
  clock after.2 = clock w.
Proof. cbv zeta. repeat split. Qed.

(** C9: when the request carries a file (present on disk), the handler
    unlinks it before it sends its response, whatever the outcome of
    validation and of the store: the file is gone afterwards, exactly one
    response is sent, and the unlink precedes it in the log. *)
Theorem uploaded_file_removed_before_response f content w r w' :
  files w !! path f = Some content ->
  uploadDoc env {| file := Some f |} w = (r, w') ->
  files w' !! path f = None /\
  exists before code body,
    log w' = log w ++ before ++ [EvResponse code body] /\
    In (EvUnlink (path f)) before /\
    (forall c b, ~ In (EvResponse c b) before).
Proof.
  intros Hfile H.
  destruct (uploadDoc_run env _ _ _ _ _ Hfile H) as (_ & U & evs & tail & Hcl & Hw' & Htail).
  assert (Hnoresp : forall c b, ~ In (EvResponse c b) evs).
  { intros c b Hin. rewrite Forall_forall in Hcl.
    apply list_elem_of_In in Hin. by apply Hcl in Hin. }
  assert (Hfiles : forall tl, files (performAll (EvUnlink (path f) :: tl) (performAll evs w))
                     = files (performAll tl
                         {| db := db w; txn := txn w; files := delete (path f) (files w);
                            clock := clock w; log := log w; history := history w;
                            detached := detached w |})).
  { intros tl. change (performAll (EvUnlink (path f) :: tl) (performAll evs w))
      with (performAll tl (perform (EvUnlink (path f)) (performAll evs w))).
    destruct (ingestion_keeps_files _ _ _ _ w Hcl) as (Hf & _).
    assert (forall w1 w2, files w1 = files w2 ->
              files (performAll tl w1) = files (performAll tl w2)) as Hcong.
    { induction tl as [|ev tl IH]; intros w1 w2 Hw; [done|].
      change (performAll (ev :: tl) ?x) with (performAll tl (perform ev x)).
      apply IH. destruct ev as [q| | | | | | | | |]; cbn; try congruence.
      by destruct (execute q (db w1) (txn w1)) as [[? ?] ?],
                  (execute q (db w2) (txn w2)) as [[? ?] ?]. }
    apply Hcong. cbn. by rewrite Hf. }
  destruct (Ran_state _ _ _ Hw') as (_ & _ & Hf' & _).
  rewrite performAll_app, Hfiles in Hf'. split.
  - rewrite Hf'. destruct Htail as [(data & _ & _ & _ & -> & _)|(e & ->)];
      cbn; apply lookup_delete_eq.
  - apply Ran_log in Hw'.
    destruct Htail as [(data & _ & _ & _ & -> & _)|(e & ->)].
    + exists (evs ++ [EvUnlink (path f); EvDetach (requests_id_seq (db w)) data]).
      do 2 eexists. split; [by rewrite Hw', <- !app_assoc|]. split.
      * apply in_or_app. right. by left.
      * intros c b Hin. apply in_app_or in Hin as [Hin|[Hin|[Hin|[]]]];
          [by apply (Hnoresp c b)|discriminate|discriminate].
    + exists (evs ++ [EvUnlink (path f)]).
      do 2 eexists. split; [by rewrite Hw', <- !app_assoc|]. split.
      * apply in_or_app. right. by left.
      * intros c b Hin. apply in_app_or in Hin as [Hin|[Hin|[]]];
          [by apply (Hnoresp c b)|discriminate].
Qed.

End UploadClaims.

(** Witness of C9 on the sample server: a valid table, a store that
    answers. *)
Lemma uploaded_file_removed_before_response_witness :
  files (uploadDoc (Sample.calm Sample.twoRows) Sample.upload Sample.start).2
    !! "uploads/3f9a" = None /\
  exists before code body,
    log (uploadDoc (Sample.calm Sample.twoRows) Sample.upload Sample.start).2
      = log Sample.start ++ before ++ [EvResponse code body] /\
    In (EvUnlink "uploads/3f9a") before /\
    (forall c b, ~ In (EvResponse c b) before).
Proof.
  apply (uploaded_file_removed_before_response (Sample.calm Sample.twoRows)
           {| path := "uploads/3f9a" |} "csv" Sample.start
           (uploadDoc (Sample.calm Sample.twoRows) Sample.upload Sample.start).1).
  - reflexivity.
  - vm_compute. reflexivity.
Defined.

(** C8: the store refuses the connection while the job is created, before
    any acknowledgment; the handler answers 400 with the driver's message,
    not 500 with [Internal server error]. *)
Theorem store_failure_answered_as_validation_error :
  let env := Sample.environment Sample.twoRows (Some 0) None Sample.ticking false in
  isValid Sample.twoRows = true /\
  (createRequest env Sample.start).1 = Throw "connect ECONNREFUSED 127.0.0.1:5432" /\
  log (uploadDoc env Sample.upload Sample.start).2 =
    [EvUnlink "uploads/3f9a";
     EvResponse 400 (MessageBody "connect ECONNREFUSED 127.0.0.1:5432")].
Proof. vm_compute. repeat split; reflexivity. Qed.

(** ** The store: status of the ImageRefs *)

(** C6: while the store answers, one call of updateImageStatus returns
    and has rewritten every ImageRef of the job whose input URL is the given
    one (all of them, when several items of the job share the URL); every
    other row is as it was. *)
Theorem updateImageStatus_updates_every_match env requestId inputUrl status outputUrl w :
  store_error env (clock w) = None ->
  store_error env (S (clock w)) = None ->
  exists w',
    updateImageStatus env requestId inputUrl status outputUrl w = (Ok tt, w') /\
    products (db w') = products (db w) /\
    length (images (db w')) = length (images (db w)) /\
    forall i img, images (db w) !! i = Some img ->
      (underJob (db w) requestId img /\ input_url img = inputUrl ->
       images (db w') !! i =
         Some {| image_product_id := image_product_id img;
                 input_url := input_url img;
                 processing_status := status;
                 output_url := outputUrl |}) /\
      (~ (underJob (db w) requestId img /\ input_url img = inputUrl) ->
       images (db w') !! i = Some img).
Proof.
  intros Hconnect Hquery.
  destruct (updateImageStatus env requestId inputUrl status outputUrl w) as [r w'] eqn:H.
  assert (Hr : r = Ok tt).
  { revert H. unfold updateImageStatus. unfold_ops. cbn.
    rewrite Hconnect. cbn. rewrite Hquery. cbn. by intros [= <- _]. }
  subst r. exists w'. split; [done|].
  apply updateImageStatus_run in H as (evs & Hw' & [(_ & ->)|(e & ? & _)]);
    [|discriminate].
  destruct (Ran_state _ _ _ Hw') as (Hdb & _). cbn in Hdb. rewrite Hdb. cbn.
  split; [done|]. unfold updateImages. split; [by rewrite length_map|].
  intros i img Hi. rewrite list_lookup_fmap, Hi. cbn.
  pose proof (imageMatches_spec (db w) requestId inputUrl img) as Hm.
  destruct (imageMatches (products (db w)) requestId inputUrl img); split; try done.
  - intros Hn. destruct Hn. by apply Hm.
  - intros Hy. apply Hm in Hy. discriminate.
Qed.

(** Witness of C6: two items of job 1 show the same picture; one call
    marks both ImageRefs. *)
Lemma updateImageStatus_updates_every_match_witness :
  map (fun img => (image_product_id img, input_url img, processing_status img))
      (images (db Sample.ingested))
    = [(1, "https://cdn.example/a.png", "pending");
       (2, "https://cdn.example/a.png", "pending")] /\
  exists w',
    updateImageStatus (Sample.calm Sample.sharedUrl) 1 "https://cdn.example/a.png"
      "completed" (Some "https://compressed-image-url.com/1.jpg") Sample.ingested
      = (Ok tt, w') /\
    products (db w') = products (db Sample.ingested) /\
    length (images (db w')) = length (images (db Sample.ingested)) /\
    forall i img, images (db Sample.ingested) !! i = Some img ->
      (underJob (db Sample.ingested) 1 img /\
       input_url img = "https://cdn.example/a.png" ->
       images (db w') !! i =
         Some {| image_product_id := image_product_id img;
                 input_url := input_url img;
                 processing_status := "completed";
                 output_url := Some "https://compressed-image-url.com/1.jpg" |}) /\
      (~ (underJob (db Sample.ingested) 1 img /\
          input_url img = "https://cdn.example/a.png") ->
       images (db w') !! i = Some img).
Proof.
  split; [vm_compute; reflexivity|].
  apply (updateImageStatus_updates_every_match (Sample.calm Sample.sharedUrl)).
  - reflexivity.
  - reflexivity.
Defined.

(** ** The image transformer *)

Lemma string_length_app (s t : string) :
  String.length (s +:+ t) = String.length s + String.length t.
Proof.
  induction s as [|c s IH]; [done|].
  change (S (String.length (s +:+ t)) = S (String.length s + String.length t)).
  by rewrite IH.
Qed.

Lemma string_app_inj_r (s1 s2 t : string) : s1 +:+ t = s2 +:+ t -> s1 = s2.
Proof.
  revert s2. induction s1 as [|c s1 IH]; intros [|c' s2] H.
  - done.
  - apply (f_equal String.length) in H.
    change (String.length t = S (String.length (s2 +:+ t))) in H.
    rewrite string_length_app in H. lia.
  - apply (f_equal String.length) in H.
    change (S (String.length (s1 +:+ t)) = String.length t) in H.
    rewrite string_length_app in H. lia.
  - injection H as -> H. f_equal. by apply IH.
Qed.

Lemma ofNumber_inj (n m : N) : JsString.ofNumber n = JsString.ofNumber m -> n = m.
Proof.
  unfold JsString.ofNumber. intros H. apply Unsigned.to_uint_inj.
  apply (f_equal NilEmpty.uint_of_string) in H. rewrite !NilEmpty.usu in H. congruence.
Qed.

(** C7 (as amended): the string a successful transformation returns is a
    function of the millisecond clock alone; two successful calls return
    different strings exactly when they read different clock values. *)
Theorem compressImage_output_follows_clock env url1 url2 w1 w2 out1 out2 w1' w2' :
  compressImage env url1 w1 = (Ok out1, w1') ->
  compressImage env url2 w2 = (Ok out2, w2') ->
  out1 = "https://compressed-image-url.com/" +:+
         JsString.ofNumber (date_now env (S (clock w1))) +:+ ".jpg" /\
  (out1 = out2 <-> date_now env (S (clock w1)) = date_now env (S (clock w2))).
Proof.
  intros H1 H2. apply compressImage_run in H1 as (_ & ->), H2 as (_ & ->).
  split; [done|]. split.
  - intros H. apply String.app_inj, string_app_inj_r in H. by apply ofNumber_inj.
  - by intros ->.
Qed.

(** Witness of C7 (as amended): two calls one after the other while the
    clock advances. *)
Lemma compressImage_output_follows_clock_witness :
  let env := Sample.calm [] in
  let first := compressImage env "https://cdn.example/a.png" Sample.start in
  let second := compressImage env "https://cdn.example/b.png" first.2 in
  first.1 = Ok "https://compressed-image-url.com/1700000000001.jpg" /\
  second.1 = Ok "https://compressed-image-url.com/1700000000003.jpg" /\
  ("https://compressed-image-url.com/1700000000001.jpg"
     = "https://compressed-image-url.com/1700000000003.jpg"
   <-> date_now env (S (clock Sample.start)) = date_now env (S (clock first.2))).
Proof.
  cbv zeta. split; [reflexivity|]. split; [reflexivity|].
  apply (compressImage_output_follows_clock (Sample.calm [])
           "https://cdn.example/a.png" "https://cdn.example/b.png"
           Sample.start
           (compressImage (Sample.calm []) "https://cdn.example/a.png" Sample.start).2
           _ _
           (compressImage (Sample.calm []) "https://cdn.example/a.png" Sample.start).2
           (compressImage (Sample.calm []) "https://cdn.example/b.png"
              (compressImage (Sample.calm []) "https://cdn.example/a.png" Sample.start).2).2).
  - vm_compute. reflexivity.
  - vm_compute. reflexivity.
Defined.

(** Counterexample to C7: two calls, for two different pictures, settle
    within the same millisecond and return the same string. *)
Lemma compressImage_same_millisecond_same_output :
  let env := Sample.environment [] None None Sample.frozen false in
  let first := compressImage env "https://cdn.example/a.png" Sample.start in
  let second := compressImage env "https://cdn.example/b.png" first.2 in
  exists out, first.1 = Ok out /\ second.1 = Ok out.
Proof. cbv zeta. eexists. split; vm_compute; reflexivity. Qed.

(** ** The processing routine *)







(** ** The sample server is well formed *)

Lemma Sample_start_WellFormed : WellFormed (db Sample.start).
Proof. split; [constructor|]. split; [constructor|]. intros k _. apply lookup_empty. Defined.


(** ** Creation of jobs, products and ImageRefs *)

Lemma insertion_keeps evs w :
  Forall insertion evs ->
  txn (performAll evs w) = txn w /\ requests (db (performAll evs w)) = requests (db w) /\
  requests_id_seq (db (performAll evs w)) = requests_id_seq (db w).
Proof.
  intros H. revert w. induction H as [|ev evs Hev _ IH]; intros w; [done|].
  change (performAll (ev :: evs) w) with (performAll evs (perform ev w)).
  destruct (IH (perform ev w)) as (-> & -> & ->).
  destruct ev as [q| | | | | | | | |]; try done. by destruct q.
Qed.

Section Creation.

Variable env : Env.

Lemma insertImages_inserts productId urls w r w' :
  insertImages env productId urls w = (r, w') ->
  exists evs, Ran w w' evs /\ Forall insertion evs /\
    products (db w') = products (db w) /\
    products_id_seq (db w') = products_id_seq (db w) /\
    match r with
    | Ok _ => images (db w') = images (db w) ++ insertedImages productId urls
    | Throw _ => True
    | Uncaught _ => False
    end.
Proof.
  revert w r w'. induction urls as [|u urls IH]; intros w r w' H.
  - injection H as <- <-. exists []. split; [apply Ran_refl|]. split; [constructor|].
    cbn. by rewrite app_nil_r.
  - cbn [insertImages] in H.
    apply bind_run in H as [(rows & w1 & Hq & H)|[(e & Hq & ->)|(e & Hq & ->)]];
      apply client_query_run in Hq as [(? & Hw1 & Hdb & _)|(e' & ? & Hw1 & Hdb & _)];
      try discriminate.
    + apply IH in H as (evs & Hw' & Hins & Hp & Hs & Hr).
      eexists. split; [exact (Ran_trans _ _ _ _ _ Hw1 Hw')|].
      split; [by constructor|]. rewrite Hp, Hs, Hdb. cbn. split; [done|]. split; [done|].
      destruct r; [|done|done]. rewrite Hr, Hdb. cbn. by rewrite <- app_assoc.
    + exists []. split; [done|]. split; [constructor|]. by rewrite Hdb.
Qed.

Lemma insertRows_inserts id data w r w' :
  insertRows env id data w = (r, w') ->
  exists evs, Ran w w' evs /\ Forall insertion evs /\
    match r with
    | Ok _ =>
        products (db w') = products (db w) ++ createdProducts id (products_id_seq (db w)) data /\
        images (db w') = images (db w) ++ createdImages (products_id_seq (db w)) data /\
        products_id_seq (db w') = length data + products_id_seq (db w) /\
        Forall (fun row => is_Some (row !! "Input Image Urls")) data
    | Throw _ => True
    | Uncaught _ => False
    end.
Proof.
  revert w r w'. induction data as [|row data IH]; intros w r w' H.
  - injection H as <- <-. exists []. split; [apply Ran_refl|]. split; [constructor|].
    cbn. by rewrite !app_nil_r.
  - cbn [insertRows] in H. unfold mbind, M_bind in H.
    set (q := InsertProduct id (row !! "S. No.") (row !! "Product Name")) in *.
    destruct (client_query env q w) as [[rows|e|e] w1] eqn:E;
      apply client_query_run in E as [(Hrows & Hw1 & Hdb & _)|(e' & [= <-] & Hw1 & _)];
      try discriminate.
    2:{ injection H as <- <-. exists []. split; [done|]. split; [constructor|done]. }
    injection Hrows as ->. cbn [first_id execute snd q] in H. unfold mret, M_ret in H.
    unfold split_and_trim in H.
    change (createdImages (products_id_seq (db w)) (row :: data))
      with (insertedImages (products_id_seq (db w)) (rowUrls row)
            ++ createdImages (S (products_id_seq (db w))) data).
    unfold rowUrls.
    destruct (row !! "Input Image Urls") as [s|] eqn:Hcol.
    2:{ injection H as <- <-. exists [EvQuery q]. split; [done|]. split; [|done].
        by repeat constructor. }
    unfold mret, M_ret in H. set (urls := map JsString.trim (JsString.split "," s)) in *.
    set (pid := products_id_seq (db w)) in *.
    destruct (insertImages env pid urls w1) as [[[]|e|e] w2] eqn:E2;
      apply insertImages_inserts in E2 as (evs2 & Hw2 & Hins2 & Hp2 & Hs2 & Hr2); [| |done].
    2:{ injection H as <- <-. eexists. split; [exact (Ran_trans _ _ _ _ _ Hw1 Hw2)|].
        split; [|done]. by constructor. }
    apply IH in H as (evs & Hw' & Hins & Hr).
    eexists. split; [exact (Ran_trans _ _ _ _ _ (Ran_trans _ _ _ _ _ Hw1 Hw2) Hw')|].
    split.
    { constructor; [done|]. by apply Forall_app. }
    destruct r as [?|?|?]; [|done|done].
    destruct Hr as (Hp & Hi & Hs & Hcols).
    rewrite Hp, Hi, Hs, Hp2, Hr2, Hs2, Hdb. cbn. fold pid.
    rewrite <- !app_assoc. cbn. repeat split; try done; try lia.
    constructor; [by rewrite Hcol|done].
Qed.

Lemma createRequest_states w r w' :
  createRequest env w = (r, w') ->
  match r with
  | Ok id =>
      id = requests_id_seq (db w) /\
      db w' = (execute (InsertRequest "pending") (db w) (txn w)).1.1 /\ txn w' = None
  | Throw _ =>
      txn w = None ->
      (sameTables (db w) (db w') /\ txn w' = None) \/
      (txn w' = Some (db w) /\
       (db w' = db w \/ db w' = (execute (InsertRequest "pending") (db w) (txn w)).1.1))
  | Uncaught _ => False
  end.
Proof.
  unfold createRequest. unfold_ops. cbn. case_store env; intros [= <- <-]; cbn;
    try done; intros ->; cbn; unfold sameTables; cbn; auto.
Qed.

Lemma storeProductData_try_run id data w r w' :
  storeProductData_try env id data w = (r, w') ->
  match r with
  | Ok _ =>
      txn w' = None /\ requests (db w') = requests (db w) /\
      requests_id_seq (db w') = requests_id_seq (db w) /\
      products (db w') = products (db w) ++ createdProducts id (products_id_seq (db w)) data /\
      images (db w') = images (db w) ++ createdImages (products_id_seq (db w)) data /\
      products_id_seq (db w') = length data + products_id_seq (db w) /\
      Forall (fun row => is_Some (row !! "Input Image Urls")) data /\
      exists ins, Forall insertion ins /\ Ran w w' (EvQuery Begin :: ins ++ [EvQuery Commit])
  | Throw _ =>
      (db w' = db w /\ txn w' = txn w /\ Ran w w' []) \/
      (txn w' = Some (default (db w) (txn w)) /\ requests (db w') = requests (db w) /\
       exists ins, Forall insertion ins /\ Ran w w' (EvQuery Begin :: ins))
  | Uncaught _ => False
  end.
Proof.
  unfold storeProductData_try. intros H.
  apply bind_run in H as [(rows0 & wb & Hq & H)|[(e0 & Hq & ->)|(e0 & Hq & ->)]];
    apply client_query_run in Hq as [(? & Hwb & Hdb & Htb)|(e'' & ? & Hwb & Hdb & Htb)];
    try discriminate.
  2:{ left. auto. }
  cbn in Hdb, Htb.
  apply bind_run in H as [([] & wc & Hi & H)|[(e0 & Hi & ->)|(e0 & Hi & ->)]];
    apply insertRows_inserts in Hi as (ins & Hwc & Hins & Hr); [| |done].
  2:{ right. destruct (Ran_state _ _ _ Hwc) as (Hd & Ht & _).
      destruct (insertion_keeps ins wb Hins) as (Ht' & Hrq & _).
      split; [by rewrite Ht, Ht', Htb|]. split; [by rewrite Hd, Hrq, Hdb|].
      exists ins. split; [done|].
      exact (Ran_trans _ _ _ _ _ Hwb Hwc). }
  destruct (Ran_state _ _ _ Hwc) as (Hdc & Htc & _).
  destruct (insertion_keeps ins wb Hins) as (Ht' & Hreq' & Hseq').
  apply bind_run in H as [(rows1 & wd & Hq & H)|[(e0 & Hq & ->)|(e0 & Hq & ->)]];
    apply client_query_run in Hq as [(? & Hwd & Hdd & Htd)|(e'' & ? & Hwd & Hdd & Htd)];
    try discriminate.
  2:{ right. split; [by rewrite Htd, Htc, Ht', Htb|].
      split; [by rewrite Hdd, Hdc, Hreq', Hdb|]. exists ins. split; [done|].
      rewrite <- (app_nil_r ins).
      exact (Ran_trans _ _ _ _ _ (Ran_trans _ _ _ _ _ Hwb Hwc) Hwd). }
  injection H as <- <-. cbn in Hdd, Htd. destruct Hr as (Hp & Hi & Hs & Hcols).
  rewrite Hdd, Hdc, Hreq', Hseq', <- Hdc, Hp, Hi, Hs, !Hdb.
  repeat split; try done. exists ins. split; [done|].
  exact (Ran_trans _ _ _ _ _ (Ran_trans _ _ _ _ _ Hwb Hwc) Hwd).
Qed.

Lemma storeProductData_states id data w r w' :
  storeProductData env id data w = (r, w') ->
  match r with
  | Ok _ =>
      txn w' = None /\ requests (db w') = requests (db w) /\
      requests_id_seq (db w') = requests_id_seq (db w) /\
      products (db w') = products (db w) ++ createdProducts id (products_id_seq (db w)) data /\
      images (db w') = images (db w) ++ createdImages (products_id_seq (db w)) data /\
      products_id_seq (db w') = length data + products_id_seq (db w) /\
      Forall (fun row => is_Some (row !! "Input Image Urls")) data /\
      exists ins, Forall insertion ins /\ Ran w w' (EvQuery Begin :: ins ++ [EvQuery Commit])
  | Throw _ =>
      txn w = None ->
      (sameTables (db w) (db w') /\ txn w' = None) \/
      (txn w' = Some (db w) /\ requests (db w') = requests (db w) /\
       forall evs, Ran w w' evs -> ~ In (EvQuery Rollback) evs)
  | Uncaught _ => False
  end.
Proof.
  unfold storeProductData. intros H.
  apply bind_run in H as [([] & wa & Hc & H)|[(e & Hc & ->)|(e & Hc & ->)]];
    apply pool_connect_run in Hc as (Hwa & Hda & Hta & [?|[e' ?]]); try discriminate.
  2:{ intros Ht. left. unfold sameTables. by rewrite Hda, Hta. }
  rewrite try_finally_release in H. fold (storeProductData_try env id data) in H.
  apply try_catch_run in H as [(e & w1 & Hbody & Hh)|(Hbody & Hnothrow)].
  - apply storeProductData_try_run in Hbody.
    apply bind_run in Hh as [(rows & w2 & Hq & Hh)|[(e0 & Hq & ->)|(e0 & Hq & ->)]];
      apply client_query_run in Hq as [(? & Hw2 & Hd2 & Ht2)|(e'' & ? & Hw2 & Hd2 & Ht2)];
      try discriminate.
    + injection Hh as <- <-. intros Ht. left. cbn in Hd2, Ht2. split; [|done].
      rewrite Hd2. rewrite Hta, Ht in Hbody. cbn in Hbody.
      destruct Hbody as [(Hd1 & Ht1 & _)|(Ht1 & _ & _)]; rewrite Ht1; cbn;
        unfold sameTables; [by rewrite Hd1, Hda|by rewrite Hda].
    + intros Ht. rewrite Hta, Ht in Hbody. cbn in Hbody.
      destruct Hbody as [(Hd1 & Ht1 & _)|(Ht1 & Hrq1 & ins & Hins & Hw1)].
      * left. unfold sameTables. by rewrite Hd2, Hd1, Hda, Ht2, Ht1.
      * right. split; [by rewrite Ht2, Ht1, Hda|]. split; [by rewrite Hd2, Hrq1, Hda|].
        intros evs Hevs Hin.
        pose proof (Ran_log _ _ _ (Ran_trans _ _ _ _ _ (Ran_trans _ _ _ _ _ Hwa Hw1) Hw2)) as HL.
        rewrite (Ran_log _ _ _ Hevs) in HL. apply app_inv_head in HL. subst evs.
        cbn in Hin. rewrite app_nil_r in Hin. destruct Hin as [?|Hin]; [done|].
        rewrite Forall_forall in Hins. by apply list_elem_of_In, Hins in Hin.
  - destruct r as [[]|e|e]; [|by destruct (Hnothrow e)|by apply storeProductData_try_run in Hbody].
    apply storeProductData_try_run in Hbody. rewrite Hda in Hbody.
    destruct Hbody as (? & ? & ? & ? & ? & ? & ? & ins & ? & Hw').
    repeat split; try done. exists ins. split; [done|].
    exact (Ran_trans _ _ _ _ _ Hwa Hw').
Qed.

Lemma createRequest_commit w r w' evs :
  createRequest env w = (r, w') -> Ran w w' evs -> In (EvQuery Commit) evs ->
  exists id, r = Ok id.
Proof.
  intros H Hevs Hin. assert (exists evs0, Ran w w' evs0 /\
    (In (EvQuery Commit) evs0 -> exists id, r = Ok id)) as (evs0 & Hevs0 & Hr).
  { revert H. unfold createRequest. unfold_ops. cbn. case_store env;
      intros [= <- <-]; ran_from w; cbn; intros; try tauto; try by eauto;
      repeat match goal with H : _ \/ _ |- _ => destruct H end; done. }
  apply Hr. pose proof (Ran_log _ _ _ Hevs) as HL. rewrite (Ran_log _ _ _ Hevs0) in HL.
  apply app_inv_head in HL. by subst.
Qed.

End Creation.

Lemma alter_after_insert (m : gmap nat string) k v v' :
  alter (fun _ => v') k (<[k := v]> m) = <[k := v']> m.
Proof.
  apply map_eq. intros i. destruct (decide (i = k)) as [->|Hne].
  - by rewrite lookup_alter_eq, !lookup_insert_eq.
  - by rewrite lookup_alter_ne, !lookup_insert_ne.
Qed.

Lemma statusWrite_failed_keeps id s e evs w w' :
  statusWrite id s (Throw e) evs -> Ran w w' evs ->
  db w' = db w /\ txn w' = txn w /\ files w' = files w /\ detached w' = detached w /\
  Forall inert evs.
Proof.
  intros [(? & _)|(e' & _ & Hevs)] Hw; [discriminate|].
  destruct (Ran_state _ _ _ Hw) as (Hd & Ht & Hf & _ & Hq).
  rewrite Hd, Ht, Hf, Hq. destruct Hevs as [-> | ->]; repeat split; repeat constructor.
Qed.

Lemma queries_keep_files evs w :
  Forall (fun ev => exists q, ev = EvQuery q) evs ->
  files (performAll evs w) = files w /\ detached (performAll evs w) = detached w.
Proof.
  intros H. revert w. induction H as [|ev evs (q & ->) _ IH]; intros w; [done|].
  change (performAll (EvQuery q :: evs) w) with (performAll evs (perform (EvQuery q) w)).
  destruct (IH (perform (EvQuery q) w)) as [-> ->].
  cbn. by destruct (execute q (db w) (txn w)) as [[d t] rows].
Qed.

Lemma insertion_is_query evs :
  Forall insertion evs -> Forall (fun ev => exists q, ev = EvQuery q) evs.
Proof.
  intros H. eapply Forall_impl; [exact H|]. intros [q| | | | | | | | |]; try done. eauto.
Qed.

Section Uploads.

Variable env : Env.

Lemma uploadDoc_try_states filePath content w r w' :
  files w !! filePath = Some content ->
  uploadDoc_try env filePath w = (r, w') ->
  let id := requests_id_seq (db w) in
  match r with
  | Ok _ =>
      exists data ins,
        csv_parse env content = Resolved data /\ isValid data = true /\
        Forall insertion ins /\
        Ran w w' ([EvQuery Begin; EvQuery (InsertRequest "pending"); EvQuery Commit;
                   EvQuery Begin] ++ ins ++
                  [EvQuery Commit; EvQuery (UpdateRequest "processing" id);
                   EvUnlink filePath; EvDetach id data;
                   EvResponse 200 (UploadedBody "File uploaded and processing started" id)]) /\
        txn w' = None /\
        requests (db w') = <[id := "processing"]> (requests (db w)) /\
        products (db w') = products (db w) ++ createdProducts id (products_id_seq (db w)) data /\
        images (db w') = images (db w) ++ createdImages (products_id_seq (db w)) data /\
        requests_id_seq (db w') = S id /\
        products_id_seq (db w') = length data + products_id_seq (db w)
  | Throw e =>
      exists evs, Ran w w' evs /\
        (In (EvQuery Commit) evs -> requests (db w') !! id = Some "pending")
  | Uncaught _ => False
  end.
Proof.
  intros Hfile H id. unfold uploadDoc_try in H.
  apply bind_run in H as [(data & w0 & Hv & H)|[(e & Hv & ->)|(e & Hv & ->)]].
  all: unfold validateCSV, read_and_parse, validateCSV_end in Hv; unfold_ops;
    rewrite Hfile in Hv; destruct (csv_parse env content) as [results|e'] eqn:Hparse;
    [destruct (isValid results) eqn:Hvalid|]; try discriminate.
  2,3: injection Hv as <- <-; exists []; split; [apply Ran_refl|by intros []].
  injection Hv as <- <-.
  apply bind_run in H as [(id' & w1 & Hc & H)|[(e & Hc & ->)|(e & Hc & ->)]].
  3:{ by apply createRequest_run in Hc as (evs1 & Hw1 & Hcl1 & Hr1). }
  2:{ pose proof Hc as Hc'. apply createRequest_run in Hc' as (evs1 & Hw1 & _).
      exists evs1. split; [done|].
      intros Hin. by destruct (createRequest_commit _ _ _ _ _ Hc Hw1 Hin). }
  pose proof Hc as Hc'. apply createRequest_run in Hc' as (evs1 & Hw1 & _ & -> & ->).
  apply createRequest_states in Hc as (_ & Hd1 & Ht1). cbn in Hd1. fold id in Hd1, H.
  assert (Hrq1 : requests (db w1) = <[id := "pending"]> (requests (db w)))
    by (by rewrite Hd1).
  apply bind_run in H as [([] & w2 & Hs & H)|[(e & Hs & ->)|(e & Hs & ->)]].
  3:{ by apply storeProductData_states in Hs. }
  2:{ pose proof Hs as Hs'. apply storeProductData_run in Hs' as (evs2 & Hw2 & _).
      apply storeProductData_states in Hs.
      eexists. split; [exact (Ran_trans _ _ _ _ _ Hw1 Hw2)|].
      intros _. destruct (Hs Ht1) as [((Hrq & _) & _)|(_ & Hrq & _)];
        by rewrite Hrq, Hrq1, lookup_insert_eq. }
  apply storeProductData_states in Hs
    as (Ht2 & Hrq2 & Hsq2 & Hp2 & Hi2 & Hps2 & _ & ins & Hins & Hw2).
  apply bind_run in H as [([] & w3 & Hu & H)|[(e & Hu & ->)|(e & Hu & ->)]];
    apply updateRequestStatus_run in Hu as (evs3 & Hw3 & Hst).
  3:{ by destruct Hst as [(? & _)|(e' & ? & _)]. }
  2:{ eexists. split; [exact (Ran_trans _ _ _ _ _ (Ran_trans _ _ _ _ _ Hw1 Hw2) Hw3)|].
      intros _.
      destruct (statusWrite_failed_keeps _ _ _ _ _ _ Hst Hw3) as (-> & _).
      by rewrite Hrq2, Hrq1, lookup_insert_eq. }
  destruct Hst as [(_ & ->)|(e' & ? & _)]; [|discriminate].
  destruct (Ran_state _ _ _ Hw3) as (Hd3 & Ht3 & Hf3 & _). cbn in Hd3, Ht3, Hf3.
  pose proof (Ran_trans _ _ _ _ _ (Ran_trans _ _ _ _ _ Hw1 Hw2) Hw3) as Hw03.
  assert (Hfiles : files w3 = files w).
  { destruct (Ran_state _ _ _ Hw03) as (_ & _ & -> & _).
    apply queries_keep_files. rewrite !Forall_app. split; [split|].
    - repeat constructor; eauto.
    - constructor; [eauto|]. apply Forall_app. split; [by apply insertion_is_query|].
      repeat constructor; eauto.
    - repeat constructor; eauto. }
  unfold unlinkSync in H. unfold_ops. rewrite Hfiles, Hfile in H. injection H as <- <-.
  exists results, ins. split; [done|]. split; [done|]. split; [done|]. split.
  { match goal with |- Ran _ _ ?l =>
      replace l with
        ((([EvQuery Begin; EvQuery (InsertRequest "pending"); EvQuery Commit]
           ++ EvQuery Begin :: ins ++ [EvQuery Commit])
          ++ [EvQuery (UpdateRequest "processing" id)])
         ++ [EvUnlink filePath; EvDetach id results;
             EvResponse 200 (UploadedBody "File uploaded and processing started" id)])
        by (cbn; by rewrite <- !app_assoc) end.
    eapply Ran_trans; [exact Hw03|]. by exists (clock w3). }
  cbn. rewrite Hd3, Ht3. cbn. rewrite Hrq2, Hrq1, alter_after_insert, Hp2, Hi2, Hsq2, Hps2, Hd1.
  done.
Qed.

Lemma uploadDoc_states f content w r w' :
  files w !! path f = Some content ->
  uploadDoc env {| file := Some f |} w = (r, w') ->
  let id := requests_id_seq (db w) in
  r = Ok tt /\
  ((exists data ins,
      csv_parse env content = Resolved data /\ isValid data = true /\
      Forall insertion ins /\
      Ran w w' ([EvQuery Begin; EvQuery (InsertRequest "pending"); EvQuery Commit;
                 EvQuery Begin] ++ ins ++
                [EvQuery Commit; EvQuery (UpdateRequest "processing" id);
                 EvUnlink (path f); EvDetach id data;
                 EvResponse 200 (UploadedBody "File uploaded and processing started" id)]) /\
      txn w' = None /\
      requests (db w') = <[id := "processing"]> (requests (db w)) /\
      products (db w') = products (db w) ++ createdProducts id (products_id_seq (db w)) data /\
      images (db w') = images (db w) ++ createdImages (products_id_seq (db w)) data /\
      requests_id_seq (db w') = S id /\
      products_id_seq (db w') = length data + products_id_seq (db w)) \/
   (exists e evs U,
      Ran w w' (evs ++ [EvUnlink (path f); EvResponse 400 (MessageBody e)]) /\
      Forall (ingestionEvent id (products_id_seq (db w)) U) evs /\
      (In (EvQuery Commit) evs -> requests (db w') !! id = Some "pending"))).
Proof.
  intros Hfile H id. unfold uploadDoc in H. cbn [file] in H.
  assert (Hrefused : forall e w2 r1 w1,
    uploadDoc_try env (path f) w = (Throw e, w2) ->
    (unlinkSync (path f);; res_status_json 400 (MessageBody e)) w2 = (r1, w1) ->
    r1 = Ok tt /\
    exists evs U,
      Ran w w1 (evs ++ [EvUnlink (path f); EvResponse 400 (MessageBody e)]) /\
      Forall (ingestionEvent id (products_id_seq (db w)) U) evs /\
      (In (EvQuery Commit) evs -> requests (db w1) !! id = Some "pending")).
  { intros e w2 r1 w1 Hbody Hh.
    pose proof (uploadDoc_try_run _ _ _ _ _ _ Hfile Hbody) as (U & evs & Hcl & Hr).
    pose proof (uploadDoc_try_states _ _ _ _ _ Hfile Hbody) as (evs' & Hr' & Hpend).
    assert (Hf2 : files w2 = files w).
    { destruct (Ran_state _ _ _ Hr) as (_ & _ & -> & _).
      eapply ingestion_keeps_files, Hcl. }
    unfold unlinkSync in Hh. unfold_ops. rewrite Hf2, Hfile in Hh.
    injection Hh as <- <-. split; [done|]. exists evs, U.
    split; [eapply Ran_trans; [exact Hr|]; by exists (clock w2)|]. split; [done|].
    intros Hin. cbn. apply Hpend.
    pose proof (Ran_log _ _ _ Hr) as HL. rewrite (Ran_log _ _ _ Hr') in HL.
    apply app_inv_head in HL. by subst. }
  apply try_catch_run in H as [(e0 & w1 & H & _)|(H & _)];
    apply try_catch_run in H as [(e & w2 & Hbody & Hh)|(Hbody & Hnothrow)].
  - by destruct (Hrefused _ _ _ _ Hbody Hh).
  - by destruct (Hnothrow e0).
  - destruct (Hrefused _ _ _ _ Hbody Hh) as (-> & evs & U & ?). split; [done|].
    right. by exists e, evs, U.
  - pose proof (uploadDoc_try_states _ _ _ _ _ Hfile Hbody) as Hst; cbn zeta in Hst.
    destruct r as [[]|e|e]; [|by destruct (Hnothrow e)|done].
    split; [done|]. by left.
Qed.

End Uploads.



(** ** A store that answers *)

Lemma isValid_has_urls data :
  isValid data = true -> Forall (fun row => is_Some (row !! "Input Image Urls")) data.
Proof.
  unfold isValid. rewrite forallb_forall. intros H. apply Forall_forall. intros row Hin.
  apply list_elem_of_In, H in Hin. unfold rowIsValid in Hin.
  destruct (row !! "Input Image Urls"); [done|].
  by rewrite andb_false_r in Hin.
Qed.

Section Healthy.

Variable env : Env.
Hypothesis Hup : forall n, store_error env n = None.

Lemma updateRequestStatus_up id s w r w' :
  updateRequestStatus env id s w = (r, w') -> r = Ok tt.
Proof.
  unfold updateRequestStatus. unfold_ops. repeat (rewrite ?Hup; cbn).
  by intros [= <- _].
Qed.

Lemma updateImageStatus_up id u s o w r w' :
  updateImageStatus env id u s o w = (r, w') -> r = Ok tt.
Proof.
  unfold updateImageStatus. unfold_ops. repeat (rewrite ?Hup; cbn).
  by intros [= <- _].
Qed.

End Healthy.

(** ** The report and the webhook *)

Lemma reportRows_step row data (cs1 cs' : list (string * string)) :
  map fst cs1 = rowUrls row ->
  reportRows (row :: data) (map snd (cs1 ++ cs')) =
  {| S_No := row !! "S. No.";
     Product_Name := row !! "Product Name";
     Input_Image_Urls := default "" (row !! "Input Image Urls");
     Output_Image_Urls := JsString.join ", " (map snd cs1) |}
  :: reportRows data (map snd cs').
Proof.
  intros H. cbn [reportRows]. rewrite map_app.
  assert (Hlen : length (rowUrls row) = length (map snd cs1))
    by (by rewrite <- H, !length_map).
  by rewrite (take_app_length' _ _ _ Hlen), (drop_app_length' _ _ _ Hlen).
Qed.

Section Reporting.

Variable env : Env.

Lemma processRows_report id data acc w r w' :
  processRows env id data acc w = (r, w') ->
  exists cs tail,
    Ran w w' (processedTrace id cs ++ tail) /\
    match r with
    | Ok rows => tail = [] /\ map fst cs = allUrls data /\
                 rows = acc ++ reportRows data (map snd cs)
    | Throw e =>
        exists rest, allUrls data = map fst cs ++ rest /\
          (tail = [] \/ exists u rest', rest = u :: rest' /\ abortedAt u e tail)
    | Uncaught _ => False
    end.
Proof.
  revert acc w r w'. induction data as [|row data IH]; intros acc w r w' H.
  - injection H as <- <-. exists [], []. split; [apply Ran_refl|]. cbn.
    by rewrite app_nil_r.
  - cbn [processRows] in H. unfold split_and_trim in H.
    change (allUrls (row :: data)) with (rowUrls row ++ allUrls data).
    destruct (row !! "Input Image Urls") as [s|] eqn:Hcol.
    2:{ injection H as <- <-. exists [], []. split; [apply Ran_refl|].
        exists (rowUrls row ++ allUrls data). auto. }
    assert (Hurls : rowUrls row = map JsString.trim (JsString.split "," s))
      by (unfold rowUrls; by rewrite Hcol).
    cbn [default] in H. rewrite <- Hurls in H.
    apply bind_run in H as [(urls' & w0 & [= <- <-] & H)|[(e & ? & _)|(e & ? & _)]];
      [|discriminate|discriminate].
    apply bind_run in H as [(outs & w1 & Hp & H)|[(e & Hp & ->)|(e & Hp & ->)]];
      apply processUrls_run in Hp as (cs1 & tail1 & Hw1 & Hr1); [| |done].
    + destruct Hr1 as (-> & Hfst & ->). rewrite app_nil_r in Hw1.
      apply IH in H as (cs & tail & Hw' & Hr).
      exists (cs1 ++ cs), tail. split.
      { unfold processedTrace. rewrite flat_map_app, <- app_assoc.
        exact (Ran_trans _ _ _ _ _ Hw1 Hw'). }
      destruct r as [rows|e|e]; [| |done].
      * destruct Hr as (-> & <- & ->). split; [done|]. split; [by rewrite map_app, Hfst|].
        rewrite (reportRows_step _ _ _ _ Hfst), <- app_assoc. cbn. by rewrite Hcol.
      * destruct Hr as (rest & -> & Hc). exists rest.
        by rewrite map_app, <- app_assoc, Hfst.
    + exists cs1, tail1. split; [exact Hw1|].
      destruct Hr1 as (u & rest & -> & Hab).
      exists (u :: rest ++ allUrls data). split; [by rewrite <- app_assoc|].
      right. by exists u, (rest ++ allUrls data).
Qed.

Lemma generateOutputCsv_report data w r w' :
  generateOutputCsv env data w = (r, w') ->
  exists evs, Ran w w' evs /\
    ((exists content, let stamp := date_now env (clock w) in
        r = Ok (reportPath stamp) /\ evs = [EvWriteFile (reportPath stamp) content] /\
        csv_stringify env data = Resolved content) \/
     (exists e, r = Throw e /\ evs = [])).
Proof.
  unfold generateOutputCsv. unfold_ops. cbn.
  destruct (csv_stringify env data) as [output|e]; cbn;
    [destruct (write_file_error env (S (clock w))); cbn|];
    intros [= <- <-]; ran_from w; eauto.
Qed.

Lemma sendWebhookNotification_post id outputCsvPath w r w' :
  sendWebhookNotification env id outputCsvPath w = (r, w') ->
  r = Ok tt /\ exists last, Ran w w' [last] /\
    (last = EvPost (webhookUrl env) id "completed" (downloadUrl outputCsvPath) \/
     exists e, last = EvConsoleError "Error sending webhook notification:" e).
Proof.
  unfold sendWebhookNotification, webhookUrl, downloadUrl. unfold_ops. cbn.
  destruct (http_post_error env (clock w)); cbn; intros [= <- <-]; (split; [done|]).
  - eexists (EvConsoleError _ _). split; [by exists (S (clock w))|eauto].
  - eexists (EvPost _ _ _ _). split; [by exists (S (clock w))|eauto].
Qed.

Lemma processImages_try_run id data w r w' :
  processImages_try env id data w = (r, w') ->
  exists cs tail,
    Ran w w' (processedTrace id cs ++ tail) /\
    match r with
    | Ok _ => completion env id data cs tail
    | Throw e => interruption env data cs e tail
    | Uncaught _ => False
    end.
Proof.
  unfold processImages_try. intros H.
  apply bind_run in H as [(rows & wa & Hp & H)|[(e0 & Hp & ->)|(e0 & Hp & ->)]];
    apply processRows_report in Hp as (cs & tail & Hwa & Hr); [| |done].
  2:{ exists cs, tail. split; [done|]. destruct Hr as (rest & Hurls & Hc).
      exists rest. split; [done|]. destruct Hc as [-> |Hc]; auto. }
  destruct Hr as (-> & Hfst & ->). rewrite app_nil_r in Hwa. cbn [app] in H.
  assert (Hall : allUrls data = map fst cs ++ []) by (by rewrite app_nil_r).
  apply bind_run in H as [(p & wb & Hg & H)|[(e0 & Hg & ->)|(e0 & Hg & ->)]];
    apply generateOutputCsv_report in Hg
      as (evsg & Hwb & [(c & Hp & -> & Hc)|(e' & ? & ->)]); try discriminate.
  2:{ exists cs, []. split; [exact (Ran_trans _ _ _ _ _ Hwa Hwb)|].
      exists []. split; [done|]. auto. }
  cbn zeta in Hp. injection Hp as ->. set (stamp := date_now env (clock wa)) in *.
  apply bind_run in H as [([] & wc & Hu & H)|[(e0 & Hu & ->)|(e0 & Hu & ->)]];
    apply updateRequestStatus_run in Hu as (evsu & Hwc & Hst).
  3:{ by destruct Hst as [(? & _)|(e' & ? & _)]. }
  2:{ destruct Hst as [(? & _)|(e' & [= <-] & Hevsu)]; [discriminate|].
      exists cs. eexists. split.
      { pose proof (Ran_trans _ _ _ _ _ (Ran_trans _ _ _ _ _ Hwa Hwb) Hwc) as Hw.
        rewrite <- app_assoc in Hw. exact Hw. }
      exists []. split; [done|]. right. right. split; [done|]. exists stamp, c.
      split; [done|]. destruct Hevsu as [-> | ->]; auto. }
  destruct Hst as [(_ & ->)|(e' & ? & _)]; [|discriminate].
  apply sendWebhookNotification_post in H as (-> & last & Hw' & Hlast).
  exists cs. eexists. split.
  { pose proof (Ran_trans _ _ _ _ _
             (Ran_trans _ _ _ _ _ (Ran_trans _ _ _ _ _ Hwa Hwb) Hwc) Hw') as Hw.
    rewrite <- !app_assoc in Hw. exact Hw. }
  split; [done|]. by exists stamp, c, last.
Qed.

(** The routine with what its handler adds. *)
Lemma processImages_detail id data w r w' :
  processImages env id data w = (r, w') ->
  exists cs tail,
    Ran w w' (processedTrace id cs ++ tail) /\
    ((r = Ok tt /\ completion env id data cs tail) \/
     (exists e cause evsF,
        tail = cause ++ EvConsoleError "Error processing images:" e :: evsF /\
        interruption env data cs e cause /\
        statusWrite id "failed" r evsF)).
Proof.
  intros H. change (processImages env id data) with
    (try_catch (processImages_try env id data)
       (fun error => console_error "Error processing images:" error;;
                     updateRequestStatus env id "failed")) in H.
  apply try_catch_run in H as [(e & w1 & Hbody & Hh)|(Hbody & Hnothrow)];
    apply processImages_try_run in Hbody as (cs & tail & Hw1 & Hr).
  - apply bind_run in Hh as [([] & w2 & [= <-] & Hh)|[(e0 & ? & _)|(e0 & ? & _)]];
      [|discriminate|discriminate].
    apply updateRequestStatus_run in Hh as (evsF & Hw' & Hst).
    exists cs, (tail ++ EvConsoleError "Error processing images:" e :: evsF). split.
    + rewrite app_assoc. eapply Ran_trans; [exact Hw1|].
      eapply (Ran_trans _ _ _ [_]); [|exact Hw']. by exists (clock w1).
    + right. by exists e, tail, evsF.
  - destruct r as [[]|e|e]; [|by destruct (Hnothrow e)|done].
    exists cs, tail. split; [done|]. by left.
Qed.

End Reporting.

(** * Further properties of the controller

    ** What processImages does, effect by effect *)

Lemma Ran_events w w' evs evs' :
  Ran w w' evs' -> log w' = log w ++ evs -> evs = evs'.
Proof. intros H Hlog. rewrite (Ran_log _ _ _ H) in Hlog. by apply app_inv_head in Hlog. Qed.

Lemma attempted_processedTrace id cs :
  flat_map attempted (processedTrace id cs) = map fst cs.
Proof.
  induction cs as [|c cs IH]; [done|].
  change (processedTrace id (c :: cs))
    with ([EvCompress c.1 (Ok c.2);
           EvQuery (UpdateImages "completed" (Some c.2) id c.1)] ++ processedTrace id cs).
  by rewrite flat_map_app, IH.
Qed.

Lemma statusWrite_attempts id s r evs :
  statusWrite id s r evs -> flat_map attempted evs = [].
Proof. by intros [(_ & ->)|(e & _ & [-> | ->])]. Qed.

(** X13: processImages asks for transformations in the order of the table,
    row by row and URL by URL, each URL occurrence at most once: the URLs
    it attempted are a prefix of the URLs of the table, and all of them
    when it came to mark the job completed. *)
Theorem transformations_follow_table_order env requestId data w r w' evs :
  processImages env requestId data w = (r, w') ->
  log w' = log w ++ evs ->
  exists rest,
    allUrls data = flat_map attempted evs ++ rest /\
    (In (EvQuery (UpdateRequest "completed" requestId)) evs -> rest = []).
Proof.
  intros H Hlog. apply processImages_detail in H as (cs & tail & Hw' & Hout).
  rewrite (Ran_events _ _ _ _ Hw' Hlog).
  rewrite flat_map_app, attempted_processedTrace.
  destruct Hout as [(_ & Hfst & stamp & c & last & -> & _ & Hlast)
                   |(e & cause & evsF & -> & (rest & Hurls & Hcause) & Hst)].
  - exists []. split; [|done]. rewrite Hfst.
    destruct Hlast as [-> |(e & ->)]; cbn; by rewrite !app_nil_r.
  - rewrite flat_map_app. cbn [flat_map attempted app].
    rewrite (statusWrite_attempts _ _ _ _ Hst), app_nil_r.
    assert (Hno : forall l, ~ In (EvQuery (UpdateRequest "completed" requestId))
                              (processedTrace requestId l)).
    { induction l as [|c l IH]; [by intros []|].
      intros [?|[?|?]]; [discriminate|discriminate|by apply IH]. }
    assert (HnoF : ~ In (EvQuery (UpdateRequest "completed" requestId)) evsF).
    { destruct Hst as [(_ & ->)|(e' & _ & [-> | ->])]; cbn; intros Hin;
        repeat destruct Hin as [Hin|Hin]; done. }
    destruct Hcause as [(u & rest' & -> & Hab)|[-> |(-> & stamp & c & _ & Hc)]].
    + exists rest'. split.
      * rewrite Hurls. destruct Hab as [-> |(o & [-> | ->])]; cbn;
          by rewrite <- app_assoc.
      * intros Hin. exfalso. apply in_app_or in Hin as [Hin|Hin]; [by apply Hno in Hin|].
        apply in_app_or in Hin as [Hin|[Hin|Hin]]; [|discriminate|by apply HnoF].
        destruct Hab as [-> |(o & [-> | ->])]; cbn in Hin;
          repeat destruct Hin as [Hin|Hin]; done.
    + exists rest. split; [by rewrite app_nil_r|].
      intros Hin. exfalso. apply in_app_or in Hin as [Hin|Hin]; [by apply Hno in Hin|].
      destruct Hin as [Hin|Hin]; [discriminate|by apply HnoF].
    + exists []. split; [|done]. rewrite Hurls.
      destruct Hc as [-> | ->]; cbn; by rewrite !app_nil_r.
Qed.

(** Witness of X13: the second URL of the first row cannot be fetched; the
    third URL is never attempted. *)
Lemma transformations_follow_table_order_witness :
  let env := Sample.environment Sample.twoRows None
               (Some "https://cdn.example/b.png") Sample.ticking false in
  let w := (uploadDoc env Sample.upload Sample.start).2 in
  let run := processImages env 1 Sample.twoRows w in
  flat_map attempted (Scenario.added w run.2)
    = ["https://cdn.example/a.png"; "https://cdn.example/b.png"] /\
  exists rest,
    allUrls Sample.twoRows = flat_map attempted (Scenario.added w run.2) ++ rest /\
    (In (EvQuery (UpdateRequest "completed" 1)) (Scenario.added w run.2) -> rest = []).
Proof.
  cbv zeta.
  pose (env := Sample.environment Sample.twoRows None
                 (Some "https://cdn.example/b.png") Sample.ticking false).
  pose (w := (uploadDoc env Sample.upload Sample.start).2).
  pose (run := processImages env 1 Sample.twoRows w).
  split; [vm_compute; reflexivity|].
  apply (transformations_follow_table_order env 1 Sample.twoRows w run.1 run.2
           (Scenario.added w run.2)).
  - vm_compute. reflexivity.
  - vm_compute. reflexivity.
Defined.

Lemma processedTrace_events id cs ev :
  In ev (processedTrace id cs) ->
  exists u o, In (u, o) cs /\
    (ev = EvCompress u (Ok o) \/ ev = EvQuery (UpdateImages "completed" (Some o) id u)).
Proof.
  induction cs as [|[u o] cs IH]; [by intros []|].
  intros [<- |[<- |Hin]].
  - exists u, o. split; [by left|by left].
  - exists u, o. split; [by left|by right].
  - destruct (IH Hin) as (u' & o' & ? & ?). exists u', o'. split; [by right|done].
Qed.

Lemma processedTrace_compressed id cs u o :
  In (u, o) cs -> In (EvCompress u (Ok o)) (processedTrace id cs).
Proof.
  induction cs as [|c cs IH]; [by intros []|].
  intros [-> |Hin]; [by left|]. right. right. by apply IH.
Qed.

Lemma statusWrite_events id s r evs ev :
  statusWrite id s r evs -> In ev evs ->
  (r = Ok tt /\ evs = [ev] /\ ev = EvQuery (UpdateRequest s id)) \/
  (exists e, r = Throw e /\ evs = [ev] /\ ev = EvConsoleError "Error updating request status:" e).
Proof.
  intros [(-> & ->)|(e & -> & [-> | ->])] Hin; try done.
  - destruct Hin as [<- |[]]. by left.
  - destruct Hin as [<- |[]]. right. by exists e.
Qed.

Lemma abortedAt_events u e cause ev :
  abortedAt u e cause -> In ev cause ->
  (exists outcome, ev = EvCompress u outcome) \/
  ev = EvConsoleError "Error updating image status:" e.
Proof.
  intros [-> |(o & [-> | ->])] Hin; cbn in Hin;
    repeat destruct Hin as [<- |Hin]; try done; eauto.
Qed.

Lemma reportRows_columns data outputs :
  Forall2 (fun row line =>
             S_No line = row !! "S. No." /\
             Product_Name line = row !! "Product Name" /\
             Input_Image_Urls line = default "" (row !! "Input Image Urls"))
          data (reportRows data outputs).
Proof.
  revert outputs. induction data as [|row data IH]; intros outputs; constructor; auto.
Qed.

Lemma keepsFiles_files evs w :
  Forall keepsFiles evs -> files (performAll evs w) = files w.
Proof.
  intros H. revert w. induction H as [|ev evs Hev _ IH]; intros w; [done|].
  change (performAll (ev :: evs) w) with (performAll evs (perform ev w)).
  rewrite IH. destruct ev as [q| | | | | | | | |]; try done.
  cbn. by destruct (execute q (db w) (txn w)) as [[d t] rows].
Qed.

Lemma processedTrace_keepsFiles id cs : Forall keepsFiles (processedTrace id cs).
Proof. induction cs as [|c cs IH]; [constructor|]. by repeat constructor. Qed.

Lemma statusWrite_keepsFiles id s r evs : statusWrite id s r evs -> Forall keepsFiles evs.
Proof. intros [(_ & ->)|(e & _ & [-> | ->])]; by repeat constructor. Qed.

(** X14: when processImages writes a report, every URL of the table has been
    transformed before, in order; the file holds the rendering of one line
    per row of the table, in order, with the row's label, name and URL
    column as uploaded and the outputs of its URLs joined by [", "]; its
    path is [./output_<timestamp>.csv], and the file is on disk when the
    routine ends, whether the job then ends completed or failed. *)
Theorem report_holds_every_row env requestId data w r w' evs reportFile content :
  processImages env requestId data w = (r, w') ->
  log w' = log w ++ evs ->
  In (EvWriteFile reportFile content) evs ->
  exists transformed stamp,
    reportFile = reportPath stamp /\
    map fst transformed = allUrls data /\
    (forall url out, In (url, out) transformed -> In (EvCompress url (Ok out)) evs) /\
    csv_stringify env (reportRows data (map snd transformed)) = Resolved content /\
    Forall2 (fun row line =>
               S_No line = row !! "S. No." /\
               Product_Name line = row !! "Product Name" /\
               Input_Image_Urls line = default "" (row !! "Input Image Urls"))
            data (reportRows data (map snd transformed)) /\
    files w' !! reportFile = Some content.
Proof.
  intros H Hlog Hin. apply processImages_detail in H as (cs & tail & Hw' & Hout).
  rewrite (Ran_events _ _ _ _ Hw' Hlog) in Hin |- *. clear Hlog evs.
  apply in_app_or in Hin as [Hin|Hin].
  { by apply processedTrace_events in Hin as (u & o & _ & [?|?]). }
  assert (Hfiles : forall stamp c rest,
            tail = EvWriteFile (reportPath stamp) c :: rest ->
            Forall keepsFiles rest ->
            files w' !! reportPath stamp = Some c).
  { intros stamp c rest -> Hrest.
    destruct (Ran_state _ _ _ Hw') as (_ & _ & -> & _).
    rewrite performAll_app.
    change (performAll (EvWriteFile (reportPath stamp) c :: rest) ?W)
      with (performAll rest (perform (EvWriteFile (reportPath stamp) c) W)).
    rewrite (keepsFiles_files _ _ Hrest). cbn. by rewrite lookup_insert_eq. }
  assert (Hcompressed : forall url out, In (url, out) cs ->
            In (EvCompress url (Ok out)) (processedTrace requestId cs ++ tail)).
  { intros url out Hcs. apply in_or_app. left. by apply processedTrace_compressed. }
  destruct Hout as [(_ & Hfst & stamp & c & last & Htail & Hc & Hlast)
                   |(e & cause & evsF & Htail & (rest & Hurls & Hcause) & Hst)].
  - rewrite Htail in Hin. destruct Hin as [[= <- <-]|[?|[Hin|[]]]]; [|done|].
    2:{ by destruct Hlast as [-> |(e & ->)]. }
    exists cs, stamp. repeat split; try done; [apply reportRows_columns|].
    eapply Hfiles; [exact Htail|]. destruct Hlast as [-> |(e & ->)]; by repeat constructor.
  - rewrite Htail in Hin. apply in_app_or in Hin as [Hin|[?|Hin]]; [|done|].
    2:{ by apply (statusWrite_events _ _ _ _ _ Hst) in Hin
          as [(_ & _ & ?)|(? & _ & _ & ?)]. }
    destruct Hcause as [(u & rest' & -> & Hab)|[-> |(-> & stamp & c & Hc & Hcause)]].
    + by apply (abortedAt_events _ _ _ _ Hab) in Hin as [(? & ?)|?].
    + done.
    + rewrite app_nil_r in Hurls.
      assert (Hfile : EvWriteFile reportFile content = EvWriteFile (reportPath stamp) c).
      { destruct Hcause as [-> | ->]; cbn in Hin; repeat destruct Hin as [Hin|Hin]; done. }
      injection Hfile as -> ->.
      exists cs, stamp. repeat split; try done; [apply reportRows_columns|].
      destruct Hcause as [-> | ->]; (eapply Hfiles; [by rewrite Htail|]);
        repeat constructor; by apply (statusWrite_keepsFiles _ _ _ _ Hst).
Qed.

(** Witness of X14: two rows, every collaborator works. *)
Lemma report_holds_every_row_witness :
  let env := Sample.calm Sample.twoRows in
  let w := (uploadDoc env Sample.upload Sample.start).2 in
  let run := processImages env 1 Sample.twoRows w in
  exists transformed stamp,
    "./output_1700000000026.csv" = reportPath stamp /\
    map fst transformed = allUrls Sample.twoRows /\
    (forall url out, In (url, out) transformed ->
       In (EvCompress url (Ok out)) (Scenario.added w run.2)) /\
    csv_stringify env (reportRows Sample.twoRows (map snd transformed)) = Resolved "report" /\
    Forall2 (fun row line =>
               S_No line = row !! "S. No." /\
               Product_Name line = row !! "Product Name" /\
               Input_Image_Urls line = default "" (row !! "Input Image Urls"))
            Sample.twoRows (reportRows Sample.twoRows (map snd transformed)) /\
    files run.2 !! "./output_1700000000026.csv" = Some "report".
Proof.
  cbv zeta.
  pose (env := Sample.calm Sample.twoRows).
  pose (w := (uploadDoc env Sample.upload Sample.start).2).
  pose (run := processImages env 1 Sample.twoRows w).
  apply (report_holds_every_row env 1 Sample.twoRows w run.1 run.2
           (Scenario.added w run.2) "./output_1700000000026.csv" "report").
  - vm_compute. reflexivity.
  - vm_compute. reflexivity.
  - apply (nth_error_In _ 6). vm_compute. reflexivity.
Defined.

Lemma processedTrace_requests id cs w :
  requests (db (performAll (processedTrace id cs) w)) = requests (db w).
Proof. by destruct (processedTrace_state id cs w) as [-> _]. Qed.

(** What a run that did not raise looks like from the tail of its trace. *)
Lemma webhook_only_on_completion env id data cs e cause evsF r ev :
  interruption env data cs e cause ->
  statusWrite id "failed" r evsF ->
  In ev (cause ++ EvConsoleError "Error processing images:" e :: evsF) ->
  (forall url k s out, ev <> EvPost url k s out) /\
  (forall e', ev <> EvConsoleError "Error sending webhook notification:" e') /\
  ev <> EvQuery (UpdateRequest "completed" id).
Proof.
  intros (rest & _ & Hcause) Hst Hin.
  apply in_app_or in Hin as [Hin|[<- |Hin]]; [|done|].
  - destruct Hcause as [(u & rest' & _ & Hab)|[-> |(_ & stamp & c & _ & Hc)]].
    + by apply (abortedAt_events _ _ _ _ Hab) in Hin as [(? & ->)| ->].
    + done.
    + destruct Hc as [-> | ->]; cbn in Hin; repeat destruct Hin as [<- |Hin]; done.
  - by apply (statusWrite_events _ _ _ _ _ Hst) in Hin as [(_ & _ & ->)|(? & _ & _ & ->)].
Qed.

(** X15: processImages posts the webhook only as its last effect, after every
    URL of the table was transformed, the report written and the job marked
    completed; the post goes to [WEBHOOK_URL] (or the default), names the
    job and the status [completed], and links the report just written. *)
Theorem webhook_posted_after_completion env requestId data w r w' evs url job status link :
  processImages env requestId data w = (r, w') ->
  log w' = log w ++ evs ->
  In (EvPost url job status link) evs ->
  r = Ok tt /\ url = webhookUrl env /\ job = requestId /\ status = "completed" /\
  exists transformed stamp content,
    map fst transformed = allUrls data /\
    link = downloadUrl (reportPath stamp) /\
    evs = processedTrace requestId transformed ++
          [EvWriteFile (reportPath stamp) content;
           EvQuery (UpdateRequest "completed" requestId);
           EvPost url job status link].
Proof.
  intros H Hlog Hin. apply processImages_detail in H as (cs & tail & Hw' & Hout).
  rewrite (Ran_events _ _ _ _ Hw' Hlog) in Hin |- *. clear Hlog evs.
  apply in_app_or in Hin as [Hin|Hin].
  { by apply processedTrace_events in Hin as (u & o & _ & [?|?]). }
  destruct Hout as [(-> & Hfst & stamp & c & last & -> & Hc & Hlast)
                   |(e & cause & evsF & -> & Hint & Hst)].
  - destruct Hin as [?|[?|[-> |[]]]]; [done|done|].
    destruct Hlast as [Hlast|(e & ?)]; [|done].
    injection Hlast as -> -> -> ->.
    repeat split. by exists cs, stamp, c.
  - destruct (webhook_only_on_completion _ _ _ _ _ _ _ _ _ Hint Hst Hin) as (Hno & _).
    by destruct (Hno url job status link).
Qed.

(** Witness of X15: two rows, every collaborator works. *)
Lemma webhook_posted_after_completion_witness :
  let env := Sample.calm Sample.twoRows in
  let w := (uploadDoc env Sample.upload Sample.start).2 in
  let run := processImages env 1 Sample.twoRows w in
  let link := "https://your-api-domain.com/download/./output_1700000000026.csv" in
  run.1 = Ok tt /\ "https://example.com/webhook" = webhookUrl env /\ 1 = 1 /\
  "completed" = "completed" /\
  exists transformed stamp content,
    map fst transformed = allUrls Sample.twoRows /\
    link = downloadUrl (reportPath stamp) /\
    Scenario.added w run.2 =
      processedTrace 1 transformed ++
      [EvWriteFile (reportPath stamp) content;
       EvQuery (UpdateRequest "completed" 1);
       EvPost "https://example.com/webhook" 1 "completed" link].
Proof.
  cbv zeta.
  pose (env := Sample.calm Sample.twoRows).
  pose (w := (uploadDoc env Sample.upload Sample.start).2).
  pose (run := processImages env 1 Sample.twoRows w).
  apply (webhook_posted_after_completion env 1 Sample.twoRows w run.1 run.2
           (Scenario.added w run.2) "https://example.com/webhook" 1 "completed"
           "https://your-api-domain.com/download/./output_1700000000026.csv").
  - vm_compute. reflexivity.
  - vm_compute. reflexivity.
  - apply (nth_error_In _ 8). vm_compute. reflexivity.
Defined.

(** X16: a webhook that cannot be delivered changes nothing: the error is
    logged, processImages returns normally, the job stays completed, it is
    not marked failed, and the post is not tried again. *)
Theorem webhook_failure_is_swallowed env requestId data w r w' evs e :
  processImages env requestId data w = (r, w') ->
  log w' = log w ++ evs ->
  In (EvConsoleError "Error sending webhook notification:" e) evs ->
  r = Ok tt /\
  requests (db w') = alter (fun _ => "completed") requestId (requests (db w)) /\
  ~ In (EvQuery (UpdateRequest "failed" requestId)) evs /\
  (forall url job status link, ~ In (EvPost url job status link) evs).
Proof.
  intros H Hlog Hin. apply processImages_detail in H as (cs & tail & Hw' & Hout).
  rewrite (Ran_events _ _ _ _ Hw' Hlog) in Hin |- *. clear Hlog evs.
  apply in_app_or in Hin as [Hin|Hin].
  { by apply processedTrace_events in Hin as (u & o & _ & [?|?]). }
  destruct Hout as [(-> & Hfst & stamp & c & last & -> & Hc & Hlast)
                   |(e' & cause & evsF & -> & Hint & Hst)].
  2:{ destruct (webhook_only_on_completion _ _ _ _ _ _ _ _ _ Hint Hst Hin)
        as (_ & Hno & _). by destruct (Hno e). }
  destruct Hin as [?|[?|[-> |[]]]]; [done|done|]. clear Hlast.
  split; [done|]. split; [|split].
  - destruct (Ran_state _ _ _ Hw') as (-> & _). rewrite performAll_app. cbn.
    by rewrite processedTrace_requests.
  - intros Hin. apply in_app_or in Hin as [Hin|Hin].
    + by apply processedTrace_events in Hin as (u & o & _ & [?|?]).
    + cbn in Hin. repeat destruct Hin as [Hin|Hin]; done.
  - intros url job status link Hin. apply in_app_or in Hin as [Hin|Hin].
    + by apply processedTrace_events in Hin as (u & o & _ & [?|?]).
    + cbn in Hin. repeat destruct Hin as [Hin|Hin]; done.
Qed.

(** Witness of X16: the webhook endpoint cannot be reached. *)
Lemma webhook_failure_is_swallowed_witness :
  let env := Scenario.webhookDown Sample.twoRows in
  let w := (uploadDoc env Sample.upload Sample.start).2 in
  let run := processImages env 1 Sample.twoRows w in
  requests (db run.2) !! 1 = Some "completed" /\
  run.1 = Ok tt /\
  requests (db run.2) = alter (fun _ => "completed") 1 (requests (db w)) /\
  ~ In (EvQuery (UpdateRequest "failed" 1)) (Scenario.added w run.2) /\
  (forall url job status link,
     ~ In (EvPost url job status link) (Scenario.added w run.2)).
Proof.
  cbv zeta.
  pose (env := Scenario.webhookDown Sample.twoRows).
  pose (w := (uploadDoc env Sample.upload Sample.start).2).
  pose (run := processImages env 1 Sample.twoRows w).
  split; [vm_compute; reflexivity|].
  apply (webhook_failure_is_swallowed env 1 Sample.twoRows w run.1 run.2
           (Scenario.added w run.2) "connect ETIMEDOUT 203.0.113.7:443").
  - vm_compute. reflexivity.
  - vm_compute. reflexivity.
  - apply (nth_error_In _ 8). vm_compute. reflexivity.
Defined.

Lemma statusWrites_processedTrace id cs : flat_map statusWrites (processedTrace id cs) = [].
Proof.
  induction cs as [|c cs IH]; [done|].
  change (processedTrace id (c :: cs))
    with ([EvCompress c.1 (Ok c.2);
           EvQuery (UpdateImages "completed" (Some c.2) id c.1)] ++ processedTrace id cs).
  by rewrite flat_map_app, IH.
Qed.

Lemma inert_statusWrites evs : Forall inert evs -> flat_map statusWrites evs = [].
Proof.
  induction 1 as [|ev evs Hev _ IH]; [done|]. cbn. rewrite IH.
  by destruct ev as [q| | | | | | | | |].
Qed.

Lemma interruption_inert env data cs e cause :
  interruption env data cs e cause -> Forall inert cause.
Proof.
  intros (rest & _ & [(u & rest' & _ & [-> |(o & [-> | ->])])
                     |[-> |(_ & stamp & c & _ & [-> | ->])]]);
    by repeat constructor.
Qed.

Lemma processImages_status_writes env requestId data w r w' evs :
  processImages env requestId data w = (r, w') ->
  log w' = log w ++ evs ->
  (exists e, r = Throw e /\ flat_map statusWrites evs = [] /\
     requests (db w') = requests (db w)) \/
  (r = Ok tt /\
   exists status before after,
     (status = "completed" /\ flat_map attempted evs = allUrls data \/ status = "failed") /\
     flat_map statusWrites evs = [(requestId, status)] /\
     evs = before ++ EvQuery (UpdateRequest status requestId) :: after /\
     Forall inert after /\
     requests (db w') = alter (fun _ => status) requestId (requests (db w))).
Proof.
  intros H Hlog. apply processImages_detail in H as (cs & tail & Hw' & Hout).
  rewrite (Ran_events _ _ _ _ Hw' Hlog). clear Hlog evs.
  destruct (Ran_state _ _ _ Hw') as (Hdb & _). rewrite Hdb, performAll_app.
  pose proof (processedTrace_requests requestId cs w) as Hreq.
  set (w1 := performAll (processedTrace requestId cs) w) in *.
  destruct Hout as [(-> & Hfst & stamp & c & last & -> & Hc & Hlast)
                   |(e & cause & evsF & -> & Hint & Hst)].
  - right. split; [done|].
    exists "completed", (processedTrace requestId cs ++ [EvWriteFile (reportPath stamp) c]),
      [last].
    assert (Hinert : inert last) by (by destruct Hlast as [-> |(e & ->)]).
    split; [left; split; [done|]|split; [|split; [|split]]].
    + rewrite flat_map_app, attempted_processedTrace, Hfst.
      destruct Hlast as [-> |(e & ->)]; cbn; by rewrite app_nil_r.
    + rewrite flat_map_app, statusWrites_processedTrace.
      destruct Hlast as [-> |(e & ->)]; done.
    + by rewrite <- app_assoc.
    + by repeat constructor.
    + destruct Hlast as [-> |(e & ->)]; cbn; by rewrite Hreq.
  - pose proof (interruption_inert _ _ _ _ _ Hint) as Hcause.
    assert (Hmid : db (performAll (cause ++ [EvConsoleError "Error processing images:" e]) w1)
                   = db w1).
    { apply inert_keeps_db. apply Forall_app. split; [done|by repeat constructor]. }
    replace (cause ++ EvConsoleError "Error processing images:" e :: evsF)
      with ((cause ++ [EvConsoleError "Error processing images:" e]) ++ evsF)
      by (by rewrite <- app_assoc).
    rewrite performAll_app.
    set (w2 := performAll (cause ++ [EvConsoleError "Error processing images:" e]) w1) in *.
    assert (Hsw : flat_map statusWrites
                    (processedTrace requestId cs
                     ++ cause ++ [EvConsoleError "Error processing images:" e]) = []).
    { rewrite !flat_map_app, statusWrites_processedTrace, (inert_statusWrites _ Hcause).
      done. }
    destruct Hst as [(-> & ->)|(e' & -> & Hf)].
    + right. split; [done|].
      exists "failed",
        (processedTrace requestId cs ++ cause ++ [EvConsoleError "Error processing images:" e]),
        [].
      split; [by right|]. split; [|split; [|split]].
      * rewrite app_assoc, flat_map_app, Hsw. done.
      * by rewrite <- !app_assoc.
      * constructor.
      * cbn. by rewrite Hmid, Hreq.
    + left. exists e'. split; [done|]. split.
      * rewrite app_assoc, flat_map_app, Hsw. by destruct Hf as [-> | ->].
      * destruct Hf as [-> | ->]; cbn; by rewrite Hmid, Hreq.
Qed.

(** X17: processImages settles the status of its job at most once. Either
    it raises, and then it wrote no status at all and the job is as it was;
    or it returns, and then it wrote exactly one status, to its own job:
    [completed], after attempting every URL of the table, or [failed];
    nothing is sent to the store after that write. *)
Theorem job_status_settled_once env requestId data w r w' evs :
  processImages env requestId data w = (r, w') ->
  log w' = log w ++ evs ->
  (exists e, r = Throw e /\ flat_map statusWrites evs = [] /\
     requests (db w') = requests (db w)) \/
  (r = Ok tt /\
   exists status before after,
     (status = "completed" /\ flat_map attempted evs = allUrls data \/ status = "failed") /\
     flat_map statusWrites evs = [(requestId, status)] /\
     evs = before ++ EvQuery (UpdateRequest status requestId) :: after /\
     Forall inert after /\
     requests (db w') = alter (fun _ => status) requestId (requests (db w))).
Proof. apply processImages_status_writes. Qed.

(** Witness of X17: the report cannot be written; the job is marked failed
    once, as the last statement. *)
Lemma job_status_settled_once_witness :
  let env := Sample.environment Sample.twoRows None None Sample.ticking true in
  let w := (uploadDoc env Sample.upload Sample.start).2 in
  let run := processImages env 1 Sample.twoRows w in
  let evs := Scenario.added w run.2 in
  flat_map statusWrites evs = [(1, "failed")] /\
  ((exists e, run.1 = Throw e /\ flat_map statusWrites evs = [] /\
      requests (db run.2) = requests (db w)) \/
   (run.1 = Ok tt /\
    exists status before after,
      (status = "completed" /\ flat_map attempted evs = allUrls Sample.twoRows \/
       status = "failed") /\
      flat_map statusWrites evs = [(1, status)] /\
      evs = before ++ EvQuery (UpdateRequest status 1) :: after /\
      Forall inert after /\
      requests (db run.2) = alter (fun _ => status) 1 (requests (db w)))).
Proof.
  cbv zeta.
  pose (env := Sample.environment Sample.twoRows None None Sample.ticking true).
  pose (w := (uploadDoc env Sample.upload Sample.start).2).
  pose (run := processImages env 1 Sample.twoRows w).
  split; [vm_compute; reflexivity|].
  apply (job_status_settled_once env 1 Sample.twoRows w run.1 run.2
           (Scenario.added w run.2)).
  - vm_compute. reflexivity.
  - vm_compute. reflexivity.
Defined.

Lemma alter_keeps_domain (m : gmap nat string) f k j :
  is_Some (alter f k m !! j) <-> is_Some (m !! j).
Proof.
  destruct (decide (j = k)) as [->|Hne].
  - rewrite lookup_alter_eq. by rewrite fmap_is_Some.
  - by rewrite lookup_alter_ne.
Qed.

Lemma sameButJob_refl id urls d : sameButJob id urls d d.
Proof. repeat split; try done. intros i img Hi. exists img. auto. Qed.

Lemma underJob_same_products d d' id img img' :
  products d' = products d -> image_product_id img' = image_product_id img ->
  underJob d' id img' <-> underJob d id img.
Proof. unfold underJob. by intros -> ->. Qed.

Lemma sameButJob_trans id urls d1 d2 d3 :
  sameButJob id urls d1 d2 -> sameButJob id urls d2 d3 -> sameButJob id urls d1 d3.
Proof.
  intros (Ha1 & Ha2 & Ha3 & Ha4 & Ha5 & Ha6 & Ha7) (Hb1 & Hb2 & Hb3 & Hb4 & Hb5 & Hb6 & Hb7).
  split; [congruence|]. split; [congruence|]. split; [congruence|].
  split; [intros k; by rewrite Hb4|]. split; [intros k Hk; by rewrite Hb5, Ha5|].
  split; [congruence|]. intros i img Hi.
  destruct (Ha7 i img Hi) as (img1 & Hi1 & Hp1 & Hu1 & Hsame1).
  destruct (Hb7 i img1 Hi1) as (img2 & Hi2 & Hp2 & Hu2 & Hsame2).
  exists img2. split; [done|]. split; [congruence|]. split; [congruence|].
  intros Hout. rewrite Hsame2, Hsame1; [done|done|].
  rewrite Hu1, (underJob_same_products d1 d2 id img img1); done.
Qed.

Lemma processingEvent_step id urls ev w :
  processingEvent id urls ev ->
  sameButJob id urls (db w) (db (perform ev w)) /\
  txn (perform ev w) = txn w /\ detached (perform ev w) = detached w.
Proof.
  destruct ev as [q| | | | | | | | |]; try done;
    try (intros _; split; [apply sameButJob_refl|done]).
  destruct q as [| | | | | |status k|status out k url]; try done.
  - intros ->. split; [|done]. cbn.
    split; [done|]. split; [done|]. split; [done|].
    split; [intros j; apply alter_keeps_domain|].
    split; [intros j Hj; apply lookup_alter_ne; congruence|]. split; [done|].
    intros i img Hi. exists img. auto.
  - intros (-> & Hurl). split; [|done].
    cbn [perform execute db].
    cbn [requests products images requests_id_seq products_id_seq].
    split; [done|]. split; [done|]. split; [done|]. split; [done|]. split; [done|].
    split; [apply length_map|].
    intros i img Hi. change (images _) with
      (updateImages (products (db w)) status out id url (images (db w))). unfold updateImages. rewrite list_lookup_fmap, Hi. cbn.
      destruct (imageMatches (products (db w)) id url img) eqn:Hm.
      * apply imageMatches_spec in Hm as (Hjob & <-).
        eexists. split; [done|]. split; [done|]. split; [done|].
        intros [Hno|Hno]; by destruct Hno.
      * exists img. auto.
Qed.

Lemma processingEvent_frame id urls evs w :
  Forall (processingEvent id urls) evs ->
  sameButJob id urls (db w) (db (performAll evs w)) /\
  txn (performAll evs w) = txn w /\ detached (performAll evs w) = detached w.
Proof.
  intros H. revert w. induction H as [|ev evs Hev _ IH]; intros w.
  - split; [apply sameButJob_refl|done].
  - change (performAll (ev :: evs) w) with (performAll evs (perform ev w)).
    destruct (IH (perform ev w)) as (Hd & -> & ->).
    destruct (processingEvent_step id urls ev w Hev) as (Hd0 & -> & ->).
    split; [|done]. eapply sameButJob_trans; eassumption.
Qed.

Lemma processedTrace_processing id urls cs :
  (forall u, In u (map fst cs) -> In u urls) ->
  Forall (processingEvent id urls) (processedTrace id cs).
Proof.
  induction cs as [|c cs IH]; intros H; [constructor|].
  constructor; [done|]. constructor; [split; [done|apply H; by left]|].
  apply IH. intros u Hu. apply H. by right.
Qed.

Lemma processImages_events env id data w r w' :
  processImages env id data w = (r, w') ->
  exists evs, Ran w w' evs /\ Forall (processingEvent id (allUrls data)) evs.
Proof.
  intros H. apply processImages_detail in H as (cs & tail & Hw' & Hout).
  eexists. split; [exact Hw'|]. apply Forall_app. split.
  - apply processedTrace_processing. intros u Hu.
    destruct Hout as [(_ & (<- & _))|(e & cause & evsF & _ & (rest & -> & _) & _)];
      [done|]. apply in_or_app. by left.
  - destruct Hout as [(_ & (_ & stamp & c & last & -> & _ & Hlast))
                     |(e & cause & evsF & -> & Hint & Hst)].
    + destruct Hlast as [-> |(e & ->)]; by repeat constructor.
    + apply Forall_app. split.
      * destruct Hint as (rest & _ & [(u & rest' & _ & [-> |(o & [-> | ->])])
                                      |[-> |(_ & stamp & c & _ & [-> | ->])]]);
          by repeat constructor.
      * constructor; [done|].
        destruct Hst as [(_ & ->)|(e' & _ & [-> | ->])]; by repeat constructor.
Qed.

(** X18: processImages touches one job only. It opens no transaction,
    detaches nothing, creates and deletes no job, product or ImageRef,
    changes the status of no other job, and leaves every ImageRef as it
    was unless it is under the job and carries a URL of the table; an
    ImageRef it does write keeps its product and its input URL. *)
Theorem processing_touches_one_job env requestId data w r w' :
  processImages env requestId data w = (r, w') ->
  txn w' = txn w /\ detached w' = detached w /\
  requests_id_seq (db w') = requests_id_seq (db w) /\
  products_id_seq (db w') = products_id_seq (db w) /\
  products (db w') = products (db w) /\
  (forall k, is_Some (requests (db w') !! k) <-> is_Some (requests (db w) !! k)) /\
  (forall k, k <> requestId -> requests (db w') !! k = requests (db w) !! k) /\
  length (images (db w')) = length (images (db w)) /\
  forall i img, images (db w) !! i = Some img ->
    exists img', images (db w') !! i = Some img' /\
      image_product_id img' = image_product_id img /\
      input_url img' = input_url img /\
      (~ underJob (db w) requestId img \/ ~ In (input_url img) (allUrls data) ->
       img' = img).
Proof.
  intros H. apply processImages_events in H as (evs & Hw' & Hclass).
  destruct (Ran_state _ _ _ Hw') as (-> & -> & _ & _ & ->).
  destruct (processingEvent_frame _ _ _ w Hclass) as (Hsame & -> & ->).
  split; [done|]. split; [done|]. exact Hsame.
Qed.

(** Witness of X18: two rows, every collaborator works. *)
Lemma processing_touches_one_job_witness :
  let env := Sample.calm Sample.twoRows in
  let w := (uploadDoc env Sample.upload Sample.start).2 in
  let run := processImages env 1 Sample.twoRows w in
  txn run.2 = txn w /\ detached run.2 = detached w /\
  requests_id_seq (db run.2) = requests_id_seq (db w) /\
  products_id_seq (db run.2) = products_id_seq (db w) /\
  products (db run.2) = products (db w) /\
  (forall k, is_Some (requests (db run.2) !! k) <-> is_Some (requests (db w) !! k)) /\
  (forall k, k <> 1 -> requests (db run.2) !! k = requests (db w) !! k) /\
  length (images (db run.2)) = length (images (db w)) /\
  forall i img, images (db w) !! i = Some img ->
    exists img', images (db run.2) !! i = Some img' /\
      image_product_id img' = image_product_id img /\
      input_url img' = input_url img /\
      (~ underJob (db w) 1 img \/ ~ In (input_url img) (allUrls Sample.twoRows) ->
       img' = img).
Proof.
  cbv zeta.
  pose (env := Sample.calm Sample.twoRows).
  pose (w := (uploadDoc env Sample.upload Sample.start).2).
  pose (run := processImages env 1 Sample.twoRows w).
  apply (processing_touches_one_job env 1 Sample.twoRows w run.1 run.2).
  vm_compute. reflexivity.
Defined.

(** X12: updateRequestStatus reaches the one job it names and nothing else:
    products, ImageRefs and the other jobs are as they were; a job that
    does not exist is not created, and the call still returns normally
    when the store answers; a job that exists takes the status when the
    call returns and keeps its own when the call raises. *)
Theorem updateRequestStatus_touches_one_job env requestId status w r w' :
  updateRequestStatus env requestId status w = (r, w') ->
  products (db w') = products (db w) /\ images (db w') = images (db w) /\
  (forall k, k <> requestId -> requests (db w') !! k = requests (db w) !! k) /\
  (requests (db w) !! requestId = None -> requests (db w') = requests (db w)) /\
  (forall old, requests (db w) !! requestId = Some old ->
     requests (db w') !! requestId = Some (if r is Ok _ then status else old)).
Proof.
  intros H. apply updateRequestStatus_run in H as (evs & Hw' & Hst).
  destruct (Ran_state _ _ _ Hw') as (-> & _).
  destruct Hst as [(-> & ->)|(e & -> & [-> | ->])]; cbn;
    (split; [done|]); (split; [done|]).
  - split; [intros k Hk; apply lookup_alter_ne; congruence|]. split.
    + intros Hnone. apply map_eq. intros k. destruct (decide (k = requestId)) as [->|Hk].
      * rewrite Hnone. apply lookup_alter_None. done.
      * apply lookup_alter_ne. congruence.
    + intros old Hold.
      change (alter (fun _ => status) requestId (requests (db w)) !! requestId = Some status).
      by rewrite lookup_alter_eq, Hold.
  - auto.
  - auto.
Qed.

(** Witness of X12: a status written for a job the store does not hold. *)
Lemma updateRequestStatus_touches_one_job_witness :
  let env := Sample.calm Sample.twoRows in
  let run := updateRequestStatus env 7 "failed" Sample.ingested in
  run.1 = Ok tt /\ requests (db Sample.ingested) !! 7 = None /\
  products (db run.2) = products (db Sample.ingested) /\
  images (db run.2) = images (db Sample.ingested) /\
  (forall k, k <> 7 -> requests (db run.2) !! k = requests (db Sample.ingested) !! k) /\
  (requests (db Sample.ingested) !! 7 = None ->
   requests (db run.2) = requests (db Sample.ingested)) /\
  (forall old, requests (db Sample.ingested) !! 7 = Some old ->
     requests (db run.2) !! 7 = Some (if run.1 is Ok _ then "failed" else old)).
Proof.
  cbv zeta.
  pose (env := Sample.calm Sample.twoRows).
  pose (run := updateRequestStatus env 7 "failed" Sample.ingested).
  split; [vm_compute; reflexivity|]. split; [vm_compute; reflexivity|].
  apply (updateRequestStatus_touches_one_job env 7 "failed" Sample.ingested run.1 run.2).
  vm_compute. reflexivity.
Defined.

(** ** Collaborators that work *)

Section Working.

Variable env : Env.
Hypothesis Hstore : forall n, store_error env n = None.
Hypothesis Hget : forall n url, exists buffer, http_get env n url = Resolved buffer.
Hypothesis Hsharp : forall buffer, exists compressed, sharp_jpeg env 50 buffer = Resolved compressed.
Hypothesis Hcsv : forall rows, exists content, csv_stringify env rows = Resolved content.
Hypothesis Hdisk : forall n, write_file_error env n = None.

Lemma compressImage_works url w r w' :
  compressImage env url w = (r, w') -> exists out, r = Ok out.
Proof.
  unfold compressImage, compressImage_body. unfold_ops. cbn.
  destruct (Hget (clock w) url) as (buffer & ->). cbn.
  destruct (Hsharp buffer) as (compressed & ->). cbn. intros [= <- _]. eauto.
Qed.

Lemma processUrls_works id urls outs w r w' :
  processUrls env id urls outs w = (r, w') -> exists outs', r = Ok outs'.
Proof.
  revert outs w. induction urls as [|u urls IH]; intros outs w H;
    [injection H as <- _; eauto|].
  cbn [processUrls] in H.
  apply bind_run in H as [(o & w1 & Hc & H)|[(e & Hc & ->)|(e & Hc & ->)]];
    [|by apply compressImage_works in Hc as [? ?]..].
  apply bind_run in H as [([] & w2 & Hu & H)|[(e & Hu & ->)|(e & Hu & ->)]];
    [by eapply IH|by apply (updateImageStatus_up env Hstore) in Hu..].
Qed.

Lemma processRows_works id data acc w r w' :
  Forall (fun row => is_Some (row !! "Input Image Urls")) data ->
  processRows env id data acc w = (r, w') -> exists rows, r = Ok rows.
Proof.
  intros Hcols. revert acc w. induction Hcols as [|row data [s Hs] _ IH]; intros acc w H;
    [injection H as <- _; eauto|].
  cbn [processRows] in H. rewrite Hs in H. unfold split_and_trim in H.
  apply bind_run in H as [(urls' & w0 & [= <- <-] & H)|[(e & ? & _)|(e & ? & _)]];
    [|discriminate|discriminate].
  apply bind_run in H as [(outs & w1 & Hp & H)|[(e & Hp & ->)|(e & Hp & ->)]];
    [by eapply IH|by apply processUrls_works in Hp as [? ?]..].
Qed.

Lemma generateOutputCsv_works rows w r w' :
  generateOutputCsv env rows w = (r, w') -> exists p, r = Ok p.
Proof.
  unfold generateOutputCsv. unfold_ops. cbn.
  destruct (Hcsv rows) as (content & ->). cbn. rewrite Hdisk. cbn.
  intros [= <- _]. eauto.
Qed.

Lemma processImages_try_works id data w r w' :
  Forall (fun row => is_Some (row !! "Input Image Urls")) data ->
  processImages_try env id data w = (r, w') -> r = Ok tt.
Proof.
  intros Hcols H. unfold processImages_try in H.
  apply bind_run in H as [(rows & wa & Hp & H)|[(e & Hp & ->)|(e & Hp & ->)]];
    [|by apply (processRows_works _ _ _ _ _ _ Hcols) in Hp as [? ?]..].
  apply bind_run in H as [(p & wb & Hg & H)|[(e & Hg & ->)|(e & Hg & ->)]];
    [|by apply generateOutputCsv_works in Hg as [? ?]..].
  apply bind_run in H as [([] & wc & Hu & H)|[(e & Hu & ->)|(e & Hu & ->)]];
    [|by apply (updateRequestStatus_up env Hstore) in Hu..].
  by apply sendWebhookNotification_post in H as (-> & _).
Qed.

End Working.

(** X19: when the store answers, every picture can be fetched and encoded,
    the report can be rendered and written, and every row has its URL
    column, processImages returns normally having transformed every URL of
    the table in order, written the report, marked the job completed and
    tried the webhook; every transformation is recorded in the ImageRefs. *)
Theorem working_collaborators_complete_the_job env requestId data w r w' :
  (forall n, store_error env n = None) ->
  (forall n url, exists buffer, http_get env n url = Resolved buffer) ->
  (forall buffer, exists compressed, sharp_jpeg env 50 buffer = Resolved compressed) ->
  (forall rows, exists content, csv_stringify env rows = Resolved content) ->
  (forall n, write_file_error env n = None) ->
  Forall (fun row => is_Some (row !! "Input Image Urls")) data ->
  processImages env requestId data w = (r, w') ->
  r = Ok tt /\
  exists transformed stamp content last,
    map fst transformed = allUrls data /\
    log w' = log w ++ processedTrace requestId transformed ++
             [EvWriteFile (reportPath stamp) content;
              EvQuery (UpdateRequest "completed" requestId); last] /\
    csv_stringify env (reportRows data (map snd transformed)) = Resolved content /\
    (last = EvPost (webhookUrl env) requestId "completed" (downloadUrl (reportPath stamp)) \/
     exists e, last = EvConsoleError "Error sending webhook notification:" e) /\
    requests (db w') = alter (fun _ => "completed") requestId (requests (db w)) /\
    images (db w') =
      completeImages (products (db w)) requestId transformed (images (db w)).
Proof.
  intros Hstore Hget Hsharp Hcsv Hdisk Hcols H.
  change (processImages env requestId data) with
    (try_catch (processImages_try env requestId data)
       (fun error => console_error "Error processing images:" error;;
                     updateRequestStatus env requestId "failed")) in H.
  apply try_catch_run in H as [(e & w1 & Hbody & _)|(Hbody & _)];
    pose proof (processImages_try_works env Hstore Hget Hsharp Hcsv Hdisk _ _ _ _ _ Hcols Hbody)
      as Hr; [discriminate|]. subst r. split; [done|].
  apply processImages_try_run in Hbody as (cs & tail & Hw' & Hdone).
  destruct Hdone as (Hfst & stamp & c & last & -> & Hc & Hlast).
  exists cs, stamp, c, last. split; [done|]. split; [exact (Ran_log _ _ _ Hw')|].
  split; [done|]. split; [done|].
  destruct (Ran_state _ _ _ Hw') as (-> & _). rewrite performAll_app.
  destruct (processedTrace_state requestId cs w) as (Hd1 & _).
  destruct Hlast as [-> |(e & ->)]; cbn; by rewrite Hd1.
Qed.

(** Witness of X19: the sample environment, two rows. *)
Lemma working_collaborators_complete_the_job_witness :
  let env := Sample.calm Sample.twoRows in
  let w := (uploadDoc env Sample.upload Sample.start).2 in
  let run := processImages env 1 Sample.twoRows w in
  requests (db run.2) !! 1 = Some "completed" /\
  map processing_status (images (db run.2)) = ["completed"; "completed"; "completed"] /\
  run.1 = Ok tt /\
  exists transformed stamp content last,
    map fst transformed = allUrls Sample.twoRows /\
    log run.2 = log w ++ processedTrace 1 transformed ++
                [EvWriteFile (reportPath stamp) content;
                 EvQuery (UpdateRequest "completed" 1); last] /\
    csv_stringify env (reportRows Sample.twoRows (map snd transformed)) = Resolved content /\
    (last = EvPost (webhookUrl env) 1 "completed" (downloadUrl (reportPath stamp)) \/
     exists e, last = EvConsoleError "Error sending webhook notification:" e) /\
    requests (db run.2) = alter (fun _ => "completed") 1 (requests (db w)) /\
    images (db run.2) = completeImages (products (db w)) 1 transformed (images (db w)).
Proof.
  cbv zeta.
  pose (env := Sample.calm Sample.twoRows).
  pose (w := (uploadDoc env Sample.upload Sample.start).2).
  pose (run := processImages env 1 Sample.twoRows w).
  split; [vm_compute; reflexivity|]. split; [vm_compute; reflexivity|].
  apply (working_collaborators_complete_the_job env 1 Sample.twoRows w run.1 run.2).
  - intros n. reflexivity.
  - intros n url. eexists. reflexivity.
  - intros buffer. eexists. reflexivity.
  - intros rows. eexists. reflexivity.
  - intros n. reflexivity.
  - repeat constructor; by eexists.
  - vm_compute. reflexivity.
Defined.

(** ** The webhook and the report on their own *)

(** X20: sendWebhookNotification never raises and never touches the store
    or the files. It either posts, to [WEBHOOK_URL] when that is set and
    not empty and to [https://example.com/webhook] otherwise, the job, the
    status [completed] and the download link of the report; or the post
    fails and the error is logged. *)
Theorem sendWebhookNotification_never_raises env requestId outputCsvPath w :
  let after := sendWebhookNotification env requestId outputCsvPath w in
  after.1 = Ok tt /\
  db after.2 = db w /\ txn after.2 = txn w /\ files after.2 = files w /\
  detached after.2 = detached w /\
  exists target,
    match WEBHOOK_URL env with
    | Some (String c rest) => target = String c rest
    | Some EmptyString | None => target = "https://example.com/webhook"
    end /\
    match http_post_error env (clock w) with
    | None =>
        log after.2 = log w ++
          [EvPost target requestId "completed"
                  ("https://your-api-domain.com/download/" +:+ outputCsvPath)]
    | Some e =>
        log after.2 = log w ++ [EvConsoleError "Error sending webhook notification:" e]
    end.
Proof.
  cbv zeta. unfold sendWebhookNotification. unfold_ops. cbn.
  destruct (http_post_error env (clock w)) as [e|]; cbn;
    repeat (split; [done|]);
    destruct (WEBHOOK_URL env) as [[|c rest]|]; cbn; eauto.
Qed.

(** X21: the path of a report is a function of the clock alone. Of two
    reports written one after the other, the second replaces the first
    when both are stamped with the same millisecond, and only then; with
    different stamps both files are on disk. *)
Theorem reports_of_one_millisecond_share_a_file env rows1 rows2 w path1 w1 path2 w2 :
  generateOutputCsv env rows1 w = (Ok path1, w1) ->
  generateOutputCsv env rows2 w1 = (Ok path2, w2) ->
  exists content1 content2,
    csv_stringify env rows1 = Resolved content1 /\
    csv_stringify env rows2 = Resolved content2 /\
    files w2 !! path2 = Some content2 /\
    (date_now env (clock w1) = date_now env (clock w) ->
     path2 = path1 /\ files w2 !! path1 = Some content2) /\
    (date_now env (clock w1) <> date_now env (clock w) ->
     path2 <> path1 /\ files w2 !! path1 = Some content1).
Proof.
  intros H1 H2.
  assert (Hrun : forall rows w0 p w0',
    generateOutputCsv env rows w0 = (Ok p, w0') ->
    p = reportPath (date_now env (clock w0)) /\
    exists content, csv_stringify env rows = Resolved content /\
      files w0' = <[p := content]> (files w0)).
  { intros rows w0 p w0'. unfold generateOutputCsv, reportPath. unfold_ops. cbn.
    destruct (csv_stringify env rows) as [content|e]; cbn; [|discriminate].
    destruct (write_file_error env (S (clock w0))); cbn; [discriminate|].
    intros [= <- <-]. split; [done|]. by exists content. }
  destruct (Hrun _ _ _ _ H1) as (-> & c1 & Hc1 & Hf1).
  destruct (Hrun _ _ _ _ H2) as (-> & c2 & Hc2 & Hf2).
  exists c1, c2. split; [done|]. split; [done|]. rewrite Hf2, Hf1.
  split; [by rewrite lookup_insert_eq|]. split.
  - intros ->. split; [done|]. by rewrite lookup_insert_eq.
  - intros Hne.
    assert (Hpaths : reportPath (date_now env (clock w1))
                     <> reportPath (date_now env (clock w))).
    { intros Heq. apply Hne. unfold reportPath in Heq.
      injection Heq as Heq.
      change (JsString.ofNumber (date_now env (clock w1)) +:+ ".csv"
              = JsString.ofNumber (date_now env (clock w)) +:+ ".csv") in Heq.
      by apply string_app_inj_r, ofNumber_inj in Heq. }
    split; [done|]. rewrite lookup_insert_ne by done. by rewrite lookup_insert_eq.
Qed.

(** Witness of X21: a clock that stands still. *)
Lemma reports_of_one_millisecond_share_a_file_witness :
  let env := Sample.environment Sample.twoRows None None Sample.frozen false in
  let first := generateOutputCsv env [] Sample.start in
  let second := generateOutputCsv env [] first.2 in
  first.1 = Ok "./output_1700000000000.csv" /\
  second.1 = Ok "./output_1700000000000.csv" /\
  exists content1 content2,
    csv_stringify env [] = Resolved content1 /\
    csv_stringify env [] = Resolved content2 /\
    files second.2 !! "./output_1700000000000.csv" = Some content2 /\
    (date_now env (clock first.2) = date_now env (clock Sample.start) ->
     "./output_1700000000000.csv" = "./output_1700000000000.csv" /\
     files second.2 !! "./output_1700000000000.csv" = Some content2) /\
    (date_now env (clock first.2) <> date_now env (clock Sample.start) ->
     "./output_1700000000000.csv" <> "./output_1700000000000.csv" /\
     files second.2 !! "./output_1700000000000.csv" = Some content1).
Proof.
  cbv zeta.
  pose (env := Sample.environment Sample.twoRows None None Sample.frozen false).
  pose (first := generateOutputCsv env [] Sample.start).
  pose (second := generateOutputCsv env [] first.2).
  split; [vm_compute; reflexivity|]. split; [vm_compute; reflexivity|].
  apply (reports_of_one_millisecond_share_a_file env [] [] Sample.start
           "./output_1700000000000.csv" first.2 "./output_1700000000000.csv" second.2).
  - vm_compute. reflexivity.
  - vm_compute. reflexivity.
Defined.
(** ** What the upload handler and the store operations do *)

(** *** Creation of a job *)

(** X8: when createRequest returns, in a store with referential integrity,
    the identifier it returns is the next value of the sequence and was
    held by no job; the job is there with status [pending]; no other job,
    no product and no ImageRef changed; no transaction is left open; and
    the store still has referential integrity. *)
Theorem createRequest_creates_pending_job env w id w' :
  createRequest env w = (Ok id, w') ->
  WellFormed (db w) ->
  id = requests_id_seq (db w) /\
  requests (db w) !! id = None /\
  requests (db w') = <[id := "pending"]> (requests (db w)) /\
  products (db w') = products (db w) /\
  images (db w') = images (db w) /\
  txn w' = None /\
  WellFormed (db w').
Proof.
  intros H (Hps & Himgs & Hfresh). apply createRequest_states in H as (-> & -> & ->).
  unfold WellFormed.
  cbn [execute fst requests products images requests_id_seq products_id_seq].
  split; [done|]. split; [by apply Hfresh|]. repeat split; try done.
  - eapply Forall_impl; [exact Hps|]. cbn. intros p. lia.
  - intros k Hk. rewrite lookup_insert_ne by lia. apply Hfresh. lia.
Qed.

(** Witness of X8: the first job of a fresh server. *)
Lemma createRequest_creates_pending_job_witness :
  let run := createRequest (Sample.calm Sample.twoRows) Sample.start in
  run.1 = Ok 1 /\
  1 = requests_id_seq (db Sample.start) /\
  requests (db Sample.start) !! 1 = None /\
  requests (db run.2) = <[1 := "pending"]> (requests (db Sample.start)) /\
  products (db run.2) = products (db Sample.start) /\
  images (db run.2) = images (db Sample.start) /\
  txn run.2 = None /\
  WellFormed (db run.2).
Proof.
  cbv zeta.
  pose (run := createRequest (Sample.calm Sample.twoRows) Sample.start).
  split; [vm_compute; reflexivity|].
  apply (createRequest_creates_pending_job (Sample.calm Sample.twoRows) Sample.start 1 run.2).
  - vm_compute. reflexivity.
  - exact Sample_start_WellFormed.
Defined.

Lemma no_new_events {A} (l evs : list A) : l = l ++ evs -> [] = evs.
Proof. intros H. apply (app_inv_head l). by rewrite app_nil_r. Qed.

(** X9: when createRequest raises, started outside a transaction, nothing
    was committed: no COMMIT was executed, and rolling back what is still
    open gives back the tables as they were; once the handler's ROLLBACK
    was executed the tables are already as they were and no transaction
    is open. *)
Theorem createRequest_failure_commits_nothing env w e w' evs :
  createRequest env w = (Throw e, w') ->
  txn w = None ->
  log w' = log w ++ evs ->
  ~ In (EvQuery Commit) evs /\
  sameTables (db w) (execute Rollback (db w') (txn w')).1.1 /\
  (In (EvQuery Rollback) evs -> sameTables (db w) (db w') /\ txn w' = None).
Proof.
  unfold createRequest. unfold_ops. cbn. case_store env; intros [= <- <-] Htxn Hlog;
    cbn in Hlog; rewrite <- ?app_assoc in Hlog;
    first [apply app_inv_head in Hlog | apply no_new_events in Hlog];
    subst evs; cbn; rewrite ?Htxn; cbn;
    unfold sameTables; cbn; intuition discriminate.
Qed.

(** Witness of X9: the store fails at the INSERT and answers again at the
    ROLLBACK. *)
Lemma createRequest_failure_commits_nothing_witness :
  let env := Sample.environment Sample.twoRows (Some 2) None Sample.ticking false in
  let run := createRequest env Sample.start in
  Scenario.added Sample.start run.2 = [EvQuery Begin; EvQuery Rollback] /\
  ~ In (EvQuery Commit) (Scenario.added Sample.start run.2) /\
  sameTables (db Sample.start) (execute Rollback (db run.2) (txn run.2)).1.1 /\
  (In (EvQuery Rollback) (Scenario.added Sample.start run.2) ->
   sameTables (db Sample.start) (db run.2) /\ txn run.2 = None).
Proof.
  cbv zeta.
  pose (env := Sample.environment Sample.twoRows (Some 2) None Sample.ticking false).
  pose (run := createRequest env Sample.start).
  split; [vm_compute; reflexivity|].
  apply (createRequest_failure_commits_nothing env Sample.start
           "connect ECONNREFUSED 127.0.0.1:5432" run.2
           (Scenario.added Sample.start run.2)).
  - vm_compute. reflexivity.
  - reflexivity.
  - vm_compute. reflexivity.
Defined.

(** *** Storage of a table *)

Lemma createdImages_urls firstId data :
  map input_url (createdImages firstId data) = allUrls data.
Proof.
  revert firstId. induction data as [|row data IH]; intros firstId; [done|].
  change (allUrls (row :: data)) with (rowUrls row ++ allUrls data).
  cbn [createdImages]. rewrite map_app, IH. f_equal.
  unfold insertedImages. rewrite map_map. cbn. apply map_id.
Qed.

Lemma createdImages_pending firstId data :
  Forall (fun img => processing_status img = "pending" /\ output_url img = None /\
                     firstId <= image_product_id img < firstId + length data)
         (createdImages firstId data).
Proof.
  revert firstId. induction data as [|row data IH]; intros firstId; [constructor|].
  cbn [createdImages]. apply Forall_app. split.
  - unfold insertedImages. apply Forall_forall. intros img Hin.
    apply list_elem_of_In, in_map_iff in Hin as (u & <- & _). cbn. repeat split; lia.
  - eapply Forall_impl; [apply IH|]. cbn. intros img (? & ? & ?). repeat split; try done; lia.
Qed.

Lemma createdProducts_rows requestId firstId data :
  map product_id (createdProducts requestId firstId data) = seq firstId (length data) /\
  Forall2 (fun row p => request_id p = requestId /\
                        serial_number p = row !! "S. No." /\
                        product_name p = row !! "Product Name")
          data (createdProducts requestId firstId data).
Proof.
  revert firstId. induction data as [|row data IH]; intros firstId; [by split; constructor|].
  destruct (IH (S firstId)) as (Hids & Hrows). split.
  - cbn. by rewrite Hids.
  - by constructor.
Qed.

(** X10: when storeProductData returns, it has appended to the store, and
    committed, one product per row of the table, in order, each under the
    job, with the row's label and name and with consecutive identifiers,
    and one ImageRef per URL of the table, in order, each pending, without
    output URL and attached to the product of its row; the jobs are as
    they were. *)
Theorem storeProductData_creates_rows env requestId data w w' :
  storeProductData env requestId data w = (Ok tt, w') ->
  let firstId := products_id_seq (db w) in
  txn w' = None /\
  requests (db w') = requests (db w) /\
  products (db w') = products (db w) ++ createdProducts requestId firstId data /\
  images (db w') = images (db w) ++ createdImages firstId data /\
  map product_id (createdProducts requestId firstId data) = seq firstId (length data) /\
  Forall2 (fun row p => request_id p = requestId /\
                        serial_number p = row !! "S. No." /\
                        product_name p = row !! "Product Name")
          data (createdProducts requestId firstId data) /\
  map input_url (createdImages firstId data) = allUrls data /\
  Forall (fun img => processing_status img = "pending" /\ output_url img = None /\
                     firstId <= image_product_id img < firstId + length data)
         (createdImages firstId data).
Proof.
  intros H firstId. apply storeProductData_states in H as (Ht & Hr & _ & Hp & Hi & _).
  split; [done|]. split; [done|]. split; [done|]. split; [done|].
  split; [apply createdProducts_rows|]. split; [apply createdProducts_rows|].
  split; [apply createdImages_urls|apply createdImages_pending].
Qed.

(** Witness of X10: two rows, three URLs. *)
Lemma storeProductData_creates_rows_witness :
  let env := Sample.calm Sample.twoRows in
  let w := (createRequest env Sample.start).2 in
  let run := storeProductData env 1 Sample.twoRows w in
  let firstId := products_id_seq (db w) in
  map input_url (images (db run.2))
    = ["https://cdn.example/a.png"; "https://cdn.example/b.png";
       "https://cdn.example/c.png"] /\
  txn run.2 = None /\
  requests (db run.2) = requests (db w) /\
  products (db run.2) = products (db w) ++ createdProducts 1 firstId Sample.twoRows /\
  images (db run.2) = images (db w) ++ createdImages firstId Sample.twoRows /\
  map product_id (createdProducts 1 firstId Sample.twoRows)
    = seq firstId (length Sample.twoRows) /\
  Forall2 (fun row p => request_id p = 1 /\
                        serial_number p = row !! "S. No." /\
                        product_name p = row !! "Product Name")
          Sample.twoRows (createdProducts 1 firstId Sample.twoRows) /\
  map input_url (createdImages firstId Sample.twoRows) = allUrls Sample.twoRows /\
  Forall (fun img => processing_status img = "pending" /\ output_url img = None /\
                     firstId <= image_product_id img < firstId + length Sample.twoRows)
         (createdImages firstId Sample.twoRows).
Proof.
  cbv zeta.
  pose (env := Sample.calm Sample.twoRows).
  pose (w := (createRequest env Sample.start).2).
  pose (run := storeProductData env 1 Sample.twoRows w).
  split; [vm_compute; reflexivity|].
  apply (storeProductData_creates_rows env 1 Sample.twoRows w run.2).
  vm_compute. reflexivity.
Defined.

Lemma products_id_seq_perform ev w :
  products_id_seq (db (perform ev w))
  = products_id_seq (db w) + length (productsInserted ev).
Proof.
  destruct ev as [q| | | | | | | | |]; cbn; try lia.
  destruct q; cbn; try lia. destruct (txn w); cbn; lia.
Qed.

(** Every executed [INSERT INTO products] takes one identifier from the
    sequence, and nothing gives one back, a ROLLBACK included. *)
Lemma products_id_seq_performAll evs w :
  products_id_seq (db (performAll evs w))
  = products_id_seq (db w) + length (flat_map productsInserted evs).
Proof.
  revert w. induction evs as [|ev evs IH]; intros w; [cbn; lia|].
  change (performAll (ev :: evs) w) with (performAll evs (perform ev w)).
  rewrite IH, products_id_seq_perform. cbn [flat_map]. rewrite length_app. lia.
Qed.

(** X11: when storeProductData raises, started outside a transaction, no
    part of the table stays: rolling back what is still open gives back
    the tables as they were, and once the handler's ROLLBACK was executed
    they are already as they were, with no transaction open. The product
    identifiers it consumed are not given back: the sequence stands
    above its value at the start by the number of [INSERT INTO products]
    that were executed, rolled back or not. *)
Theorem storeProductData_all_or_nothing env requestId data w e w' evs :
  storeProductData env requestId data w = (Throw e, w') ->
  txn w = None ->
  log w' = log w ++ evs ->
  sameTables (db w) (execute Rollback (db w') (txn w')).1.1 /\
  (In (EvQuery Rollback) evs -> sameTables (db w) (db w') /\ txn w' = None) /\
  products_id_seq (db w')
  = products_id_seq (db w) + length (flat_map productsInserted evs) /\
  products_id_seq (execute Rollback (db w') (txn w')).1.1 = products_id_seq (db w').
Proof.
  intros H Htxn Hlog. pose proof H as H'.
  apply storeProductData_run in H' as (evs' & Hw' & _).
  rewrite (Ran_events _ _ _ _ Hw' Hlog).
  apply storeProductData_states in H. split; [|split; [|split]].
  - destruct (H Htxn) as [(Hsame & ->)|(-> & _)]; [done|]. by cbn.
  - intros Hin. destruct (H Htxn) as [?|(_ & _ & Hno)]; [done|].
    by destruct (Hno _ Hw').
  - destruct (Ran_state _ _ _ Hw') as (-> & _). apply products_id_seq_performAll.
  - by destruct (txn w').
Qed.

(** Witness of X11: the store fails at the first ImageRef and answers again
    at the ROLLBACK; the product inserted before is gone, its identifier
    is spent. *)
Lemma storeProductData_all_or_nothing_witness :
  let env := Sample.environment Sample.twoRows (Some 7) None Sample.ticking false in
  let w := (createRequest env Sample.start).2 in
  let run := storeProductData env 1 Sample.twoRows w in
  Scenario.added w run.2
    = [EvQuery Begin; EvQuery (InsertProduct 1 (Some "1") (Some "Mug"));
       EvQuery Rollback] /\
  products (db run.2) = [] /\ products_id_seq (db run.2) = 2 /\
  sameTables (db w) (execute Rollback (db run.2) (txn run.2)).1.1 /\
  (In (EvQuery Rollback) (Scenario.added w run.2) ->
   sameTables (db w) (db run.2) /\ txn run.2 = None) /\
  products_id_seq (db run.2)
  = products_id_seq (db w) + length (flat_map productsInserted (Scenario.added w run.2)) /\
  products_id_seq (execute Rollback (db run.2) (txn run.2)).1.1
  = products_id_seq (db run.2).
Proof.
  cbv zeta.
  pose (env := Sample.environment Sample.twoRows (Some 7) None Sample.ticking false).
  pose (w := (createRequest env Sample.start).2).
  pose (run := storeProductData env 1 Sample.twoRows w).
  split; [vm_compute; reflexivity|]. split; [vm_compute; reflexivity|].
  split; [vm_compute; reflexivity|].
  apply (storeProductData_all_or_nothing env 1 Sample.twoRows w
           "connect ECONNREFUSED 127.0.0.1:5432" run.2 (Scenario.added w run.2)).
  - vm_compute. reflexivity.
  - vm_compute. reflexivity.
  - vm_compute. reflexivity.
Defined.

(** *** Uploads *)

(** X1: an upload whose file does not parse, or parses to a table with an
    invalid row, is answered 400 with the parser's message or with
    [Invalid CSV format or data]; its only effects are the removal of the
    uploaded file and the response: no statement is sent to the store, no
    job is created, nothing is detached, and no time passes. *)
Theorem refused_table_reaches_no_store env f content w r w' :
  files w !! path f = Some content ->
  (forall data, csv_parse env content = Resolved data -> isValid data = false) ->
  uploadDoc env {| file := Some f |} w = (r, w') ->
  r = Ok tt /\
  (exists e, log w' = log w ++ [EvUnlink (path f); EvResponse 400 (MessageBody e)] /\
     (csv_parse env content = Rejected e \/ e = "Invalid CSV format or data")) /\
  db w' = db w /\ txn w' = txn w /\ history w' = history w /\
  detached w' = detached w /\ clock w' = clock w /\
  files w' = delete (path f) (files w).
Proof.
  intros Hfile Hrefused. unfold uploadDoc, uploadDoc_try, validateCSV, read_and_parse,
    validateCSV_end, unlinkSync. unfold_ops. cbn. rewrite Hfile.
  destruct (csv_parse env content) as [data|e] eqn:Hparse; cbn.
  - rewrite (Hrefused data eq_refl). cbn. rewrite Hfile. cbn.
    intros [= <- <-]. cbn. rewrite <- app_assoc. repeat split; eauto.
  - rewrite Hfile. cbn. intros [= <- <-]. cbn. rewrite <- app_assoc. repeat split; eauto.
Qed.

(** Witness of X1: a table whose only URL is not [https]. *)
Lemma refused_table_reaches_no_store_witness :
  let env := Sample.calm [Sample.row "1" "Mug" "http://cdn.example/a.png"] in
  let run := uploadDoc env Sample.upload Sample.start in
  run.1 = Ok tt /\
  (exists e, log run.2 = log Sample.start ++
                         [EvUnlink "uploads/3f9a"; EvResponse 400 (MessageBody e)] /\
     (csv_parse env "csv" = Rejected e \/ e = "Invalid CSV format or data")) /\
  db run.2 = db Sample.start /\ txn run.2 = txn Sample.start /\
  history run.2 = history Sample.start /\
  detached run.2 = detached Sample.start /\ clock run.2 = clock Sample.start /\
  files run.2 = delete "uploads/3f9a" (files Sample.start).
Proof.
  cbv zeta.
  pose (env := Sample.calm [Sample.row "1" "Mug" "http://cdn.example/a.png"]).
  pose (run := uploadDoc env Sample.upload Sample.start).
  apply (refused_table_reaches_no_store env {| path := "uploads/3f9a" |} "csv"
           Sample.start run.1 run.2).
  - reflexivity.
  - intros data Hdata. injection Hdata as <-. vm_compute. reflexivity.
  - vm_compute. reflexivity.
Defined.

(** X2: when the uploaded file is not on disk, the read stream's error has
    no listener: neither handler of uploadDoc receives it, no response is
    sent, and nothing else happens. *)
Theorem unreadable_upload_is_not_answered env f w :
  files w !! path f = None ->
  uploadDoc env {| file := Some f |} w
  = (Uncaught "ENOENT: no such file or directory", w).
Proof.
  intros Hfile. unfold uploadDoc, uploadDoc_try, validateCSV, read_and_parse.
  unfold_ops. cbn. by rewrite Hfile.
Qed.

(** Witness of X2: the same upload sent again after its file was removed. *)
Lemma unreadable_upload_is_not_answered_witness :
  uploadDoc (Sample.calm Sample.sharedUrl) Sample.upload Sample.ingested
  = (Uncaught "ENOENT: no such file or directory", Sample.ingested).
Proof.
  apply (unreadable_upload_is_not_answered (Sample.calm Sample.sharedUrl)
           {| path := "uploads/3f9a" |} Sample.ingested).
  vm_compute. reflexivity.
Defined.

Lemma ingestionEvent_kind a b U ev :
  ingestionEvent a b U ev ->
  (exists q, ev = EvQuery q) \/ exists label e, ev = EvConsoleError label e.
Proof. destruct ev as [q| | | | | | | | |]; try done; eauto. Qed.

Lemma uploadDoc_single_response env f content w r w' :
  files w !! path f = Some content ->
  uploadDoc env {| file := Some f |} w = (r, w') ->
  r = Ok tt /\
  exists evs code body,
    log w' = log w ++ evs ++ [EvResponse code body] /\
    (forall c b, ~ In (EvResponse c b) evs) /\
    ((code = 200 /\
      exists data,
        body = UploadedBody "File uploaded and processing started" (requests_id_seq (db w)) /\
        csv_parse env content = Resolved data /\ isValid data = true /\
        detached w' = detached w ++ [(requests_id_seq (db w), data)]) \/
     (code = 400 /\ (exists e, body = MessageBody e) /\ detached w' = detached w)).
Proof.
  intros Hfile H. apply (uploadDoc_states _ _ _ _ _ _ Hfile) in H as (-> & Hcases).
  cbn zeta in Hcases. split; [done|].
  destruct Hcases as [(data & ins & Hparse & Hvalid & Hins & Hw' & _)
                     |(e & evs & U & Hw' & Hcl & _)].
  - set (id := requests_id_seq (db w)) in *.
    exists ([EvQuery Begin; EvQuery (InsertRequest "pending"); EvQuery Commit; EvQuery Begin]
            ++ ins ++ [EvQuery Commit; EvQuery (UpdateRequest "processing" id);
                       EvUnlink (path f); EvDetach id data]),
      200, (UploadedBody "File uploaded and processing started" id).
    split; [|split].
    + rewrite (Ran_log _ _ _ Hw'). f_equal. cbn. by rewrite <- !app_assoc.
    + intros c b Hin. cbn in Hin. repeat destruct Hin as [?|Hin]; try done.
      apply in_app_or in Hin as [Hin|Hin].
      * rewrite Forall_forall in Hins. by apply list_elem_of_In, Hins in Hin.
      * cbn in Hin. repeat destruct Hin as [?|Hin]; done.
    + left. split; [done|]. exists data. split; [done|]. split; [done|]. split; [done|].
      destruct (Ran_state _ _ _ Hw') as (_ & _ & _ & _ & ->).
      replace ([EvQuery Begin; EvQuery (InsertRequest "pending"); EvQuery Commit;
                EvQuery Begin] ++ ins ++
               [EvQuery Commit; EvQuery (UpdateRequest "processing" id);
                EvUnlink (path f); EvDetach id data;
                EvResponse 200 (UploadedBody "File uploaded and processing started" id)])
        with (([EvQuery Begin; EvQuery (InsertRequest "pending"); EvQuery Commit;
                EvQuery Begin] ++ ins ++
               [EvQuery Commit; EvQuery (UpdateRequest "processing" id)])
              ++ [EvUnlink (path f); EvDetach id data;
                  EvResponse 200 (UploadedBody "File uploaded and processing started" id)])
        by (cbn; by rewrite <- !app_assoc).
      rewrite performAll_app. cbn.
      edestruct (queries_keep_files) as [_ ->]; [|done].
      repeat (constructor; [by eauto|]).
      apply Forall_app. split; [by apply insertion_is_query|].
      repeat constructor; eauto.
  - exists (evs ++ [EvUnlink (path f)]), 400, (MessageBody e).
    split; [|split].
    + rewrite (Ran_log _ _ _ Hw'). by rewrite <- !app_assoc.
    + intros c b Hin. apply in_app_or in Hin as [Hin|[?|[]]]; [|done].
      rewrite Forall_forall in Hcl. apply list_elem_of_In, Hcl in Hin. done.
    + right. split; [done|]. split; [eauto|].
      destruct (Ran_state _ _ _ Hw') as (_ & _ & _ & _ & ->).
      rewrite performAll_app. cbn.
      by destruct (ingestion_keeps_files _ _ _ _ w Hcl) as (_ & ->).
Qed.

(** X3: an upload whose file is on disk is answered exactly once, as the
    last effect of the handler, with 200 or with 400, never with 500; the
    processing is detached exactly when the answer is 200, for the job
    the answer names and the table that was parsed and found valid. *)
Theorem upload_answers_once env f content w r w' :
  files w !! path f = Some content ->
  uploadDoc env {| file := Some f |} w = (r, w') ->
  r = Ok tt /\
  exists evs code body,
    log w' = log w ++ evs ++ [EvResponse code body] /\
    (forall c b, ~ In (EvResponse c b) evs) /\
    ((code = 200 /\
      exists data,
        body = UploadedBody "File uploaded and processing started" (requests_id_seq (db w)) /\
        csv_parse env content = Resolved data /\ isValid data = true /\
        detached w' = detached w ++ [(requests_id_seq (db w), data)]) \/
     (code = 400 /\ (exists e, body = MessageBody e) /\ detached w' = detached w)).
Proof. apply uploadDoc_single_response. Qed.

(** Witness of X3: a valid table, a store that answers. *)
Lemma upload_answers_once_witness :
  let env := Sample.calm Sample.twoRows in
  let run := uploadDoc env Sample.upload Sample.start in
  run.1 = Ok tt /\
  exists evs code body,
    log run.2 = log Sample.start ++ evs ++ [EvResponse code body] /\
    (forall c b, ~ In (EvResponse c b) evs) /\
    ((code = 200 /\
      exists data,
        body = UploadedBody "File uploaded and processing started"
                 (requests_id_seq (db Sample.start)) /\
        csv_parse env "csv" = Resolved data /\ isValid data = true /\
        detached run.2 = detached Sample.start ++ [(requests_id_seq (db Sample.start), data)]) \/
     (code = 400 /\ (exists e, body = MessageBody e) /\
      detached run.2 = detached Sample.start)).
Proof.
  cbv zeta.
  pose (env := Sample.calm Sample.twoRows).
  pose (run := uploadDoc env Sample.upload Sample.start).
  apply (upload_answers_once env {| path := "uploads/3f9a" |} "csv" Sample.start run.1 run.2).
  - reflexivity.
  - vm_compute. reflexivity.
Defined.
(** ** Where an exception of the store operations comes from *)

Section Causes.

Variable env : Env.

Lemma storeFailed_widen w0 w w' w1 e :
  clock w0 <= clock w -> clock w' <= clock w1 ->
  storeFailed env w w' e -> storeFailed env w0 w1 e.
Proof. intros H0 H1 (n & Hn & He). exists n. split; [lia|done]. Qed.

Lemma raises_ret {A} (a : A) : raisesStoreErrors env (mret a).
Proof. by intros w r w' [= <- <-]. Qed.

Lemma raises_bind {A B} (m : M A) (f : A -> M B) :
  raisesStoreErrors env m -> (forall a, raisesStoreErrors env (f a)) ->
  raisesStoreErrors env (m ≫= f).
Proof.
  intros Hm Hf w r w' H.
  apply bind_run in H as [(a & w1 & Hma & Hfa)|[(e & Hma & ->)|(e & Hma & ->)]].
  - destruct (Hm _ _ _ Hma) as (Hc1 & Hf1 & _).
    destruct (Hf a _ _ _ Hfa) as (Hc2 & Hf2 & Hr).
    split; [lia|]. split; [congruence|]. destruct r as [?|e|?]; [done| |done].
    exact (storeFailed_widen _ _ _ _ _ Hc1 (le_n _) Hr).
  - exact (Hm _ _ _ Hma).
  - exact (Hm _ _ _ Hma).
Qed.

Lemma raises_client_query q : raisesStoreErrors env (client_query env q).
Proof.
  intros w r w'. unfold client_query. unfold_ops.
  destruct (store_error env (clock w)) as [e|] eqn:He; intros [= <- <-].
  - cbn. split; [lia|]. split; [done|]. exists (clock w). cbn. split; [lia|done].
  - cbn. destruct (execute q (db w) (txn w)) as [[d t] rows]. cbn.
    split; [lia|done].
Qed.

Lemma raises_pool_connect : raisesStoreErrors env (pool_connect env).
Proof.
  intros w r w'. unfold pool_connect. unfold_ops.
  destruct (store_error env (clock w)) as [e|] eqn:He; intros [= <- <-].
  - cbn. split; [lia|]. split; [done|]. exists (clock w). cbn. split; [lia|done].
  - cbn. split; [lia|done].
Qed.

(** [try { m } catch (e) { h e }] where the handler raises [e] again or
    what the store raises meanwhile. *)
Lemma raises_try_catch {A} (m : M A) (h : string -> M A) :
  raisesStoreErrors env m ->
  (forall e w1 r w', h e w1 = (r, w') ->
     clock w1 <= clock w' /\ files w' = files w1 /\
     match r with
     | Ok _ => True
     | Throw e' => e' = e \/ storeFailed env w1 w' e'
     | Uncaught _ => False
     end) ->
  raisesStoreErrors env (try_catch m h).
Proof.
  intros Hm Hh w r w' H.
  apply try_catch_run in H as [(e & w1 & Hme & Hhe)|(Hmr & _)]; [|exact (Hm _ _ _ Hmr)].
  destruct (Hm _ _ _ Hme) as (Hc1 & Hf1 & Hcause).
  destruct (Hh _ _ _ _ Hhe) as (Hc2 & Hf2 & Hr).
  split; [lia|]. split; [congruence|]. destruct r as [?|e'|?]; [done| |done].
  destruct Hr as [-> |Hr].
  - eapply storeFailed_widen; [| |exact Hcause]; lia.
  - eapply storeFailed_widen; [| |exact Hr]; lia.
Qed.

Lemma rollback_rethrows {A} e w1 (r : Result A) w' :
  (client_query env Rollback;; throw e) w1 = (r, w') ->
  clock w1 <= clock w' /\ files w' = files w1 /\
  match r with
  | Ok _ => True
  | Throw e' => e' = e \/ storeFailed env w1 w' e'
  | Uncaught _ => False
  end.
Proof.
  intros H. apply bind_run in H as [(a & w2 & Hq & H)|[(e' & Hq & ->)|(e' & Hq & ->)]];
    destruct (raises_client_query _ _ _ _ Hq) as (Hc & Hf & Hr); [|by auto|done].
  injection H as <- <-. auto.
Qed.

Lemma log_rethrows {A} label e w1 (r : Result A) w' :
  (console_error label e;; throw e) w1 = (r, w') ->
  clock w1 <= clock w' /\ files w' = files w1 /\
  match r with
  | Ok _ => True
  | Throw e' => e' = e \/ storeFailed env w1 w' e'
  | Uncaught _ => False
  end.
Proof. unfold_ops. intros [= <- <-]. cbn. auto. Qed.

Lemma raises_createRequest : raisesStoreErrors env (createRequest env).
Proof.
  unfold createRequest. apply raises_bind; [apply raises_pool_connect|]. intros _.
  intros w r w'. rewrite try_finally_release. revert w r w'.
  apply raises_try_catch; [|intros e; apply rollback_rethrows].
  apply raises_bind; [apply raises_client_query|]. intros _.
  intros w r w' H.
  apply bind_run in H as [(rows & w1 & Hq & H)|[(e & Hq & ->)|(e & Hq & ->)]];
    pose proof (raises_client_query _ _ _ _ Hq) as (Hc1 & Hf1 & Hr1); try done.
  apply client_query_run in Hq as [([= ->] & _)|(e & ? & _)]; [|discriminate].
  apply bind_run in H as [(rows & w2 & Hq & H)|[(e & Hq & ->)|(e & Hq & ->)]];
    pose proof (raises_client_query _ _ _ _ Hq) as (Hc2 & Hf2 & Hr2).
  - injection H as <- <-. split; [lia|]. split; [congruence|done].
  - split; [lia|]. split; [congruence|]. eapply storeFailed_widen; [| |exact Hr2]; lia.
  - done.
Qed.

Lemma raises_updateRequestStatus id s : raisesStoreErrors env (updateRequestStatus env id s).
Proof.
  unfold updateRequestStatus. apply raises_bind; [apply raises_pool_connect|]. intros _.
  intros w r w'. rewrite try_finally_release. revert w r w'.
  apply raises_try_catch; [|intros e; apply log_rethrows].
  apply raises_bind; [apply raises_client_query|]. intros _. apply raises_ret.
Qed.

Lemma raises_insertImages productId urls :
  raisesStoreErrors env (insertImages env productId urls).
Proof.
  induction urls as [|u urls IH]; [apply raises_ret|].
  cbn [insertImages]. apply raises_bind; [apply raises_client_query|]. by intros _.
Qed.

Lemma raises_insertRows id data :
  Forall (fun row => is_Some (row !! "Input Image Urls")) data ->
  raisesStoreErrors env (insertRows env id data).
Proof.
  induction 1 as [|row data [s Hs] _ IH]; [apply raises_ret|].
  cbn [insertRows]. rewrite Hs. intros w r w' H.
  apply bind_run in H as [(rows & w1 & Hq & H)|[(e & Hq & ->)|(e & Hq & ->)]];
    pose proof (raises_client_query _ _ _ _ Hq) as (Hc1 & Hf1 & Hr1); try done.
  apply client_query_run in Hq as [([= ->] & _)|(e & ? & _)]; [|discriminate].
  cbn [execute snd first_id split_and_trim] in H.
  assert (Hrest : raisesStoreErrors env
            (insertImages env (products_id_seq (db w))
               (map JsString.trim (JsString.split "," s));;
             insertRows env id data)).
  { apply raises_bind; [apply raises_insertImages|]. by intros _. }
  destruct (Hrest _ _ _ H) as (Hc2 & Hf2 & Hr2). split; [lia|]. split; [congruence|].
  destruct r as [?|e|?]; [done| |done].
  eapply storeFailed_widen; [| |exact Hr2]; lia.
Qed.

Lemma raises_storeProductData id data :
  Forall (fun row => is_Some (row !! "Input Image Urls")) data ->
  raisesStoreErrors env (storeProductData env id data).
Proof.
  intros Hcols. unfold storeProductData.
  apply raises_bind; [apply raises_pool_connect|]. intros _.
  intros w r w'. rewrite try_finally_release. revert w r w'.
  apply raises_try_catch; [|intros e; apply rollback_rethrows].
  apply raises_bind; [apply raises_client_query|]. intros _.
  apply raises_bind; [by apply raises_insertRows|]. intros _.
  apply raises_bind; [apply raises_client_query|]. intros _. apply raises_ret.
Qed.

(** Why the [try] block of uploadDoc raises. *)
Lemma uploadDoc_try_cause filePath content w e w' :
  files w !! filePath = Some content ->
  uploadDoc_try env filePath w = (Throw e, w') ->
  csv_parse env content = Rejected e \/
  (e = "Invalid CSV format or data" /\
   exists data, csv_parse env content = Resolved data /\ isValid data = false) \/
  storeFailed env w w' e.
Proof.
  intros Hfile H. unfold uploadDoc_try in H.
  apply bind_run in H as [(data & w0 & Hv & H)|[(e0 & Hv & [= ->])|(e0 & _ & ?)]];
    [| |discriminate].
  all: unfold validateCSV, read_and_parse, validateCSV_end in Hv; unfold_ops;
    rewrite Hfile in Hv; destruct (csv_parse env content) as [results|e'] eqn:Hparse;
    [destruct (isValid results) eqn:Hvalid|]; try discriminate.
  2:{ injection Hv as <- _. right. left. eauto. }
  2:{ injection Hv as <- _. by left. }
  injection Hv as <- <-. right. right.
  pose proof (isValid_has_urls _ Hvalid) as Hcols.
  apply bind_run in H as [(id & w1 & Hc & H)|[(e0 & Hc & [= ->])|(e0 & _ & ?)]];
    [| |discriminate];
    destruct (raises_createRequest _ _ _ Hc) as (Hc1 & Hf1 & Hr1); [|done].
  apply bind_run in H as [([] & w2 & Hs & H)|[(e0 & Hs & [= ->])|(e0 & _ & ?)]];
    [| |discriminate];
    destruct (raises_storeProductData id _ Hcols _ _ _ Hs) as (Hc2 & Hf2 & Hr2).
  2:{ eapply storeFailed_widen; [| |exact Hr2]; lia. }
  apply bind_run in H as [([] & w3 & Hu & H)|[(e0 & Hu & [= ->])|(e0 & _ & ?)]];
    [| |discriminate];
    destruct (raises_updateRequestStatus id "processing" _ _ _ Hu) as (Hc3 & Hf3 & Hr3).
  2:{ eapply storeFailed_widen; [| |exact Hr3]; lia. }
  exfalso. unfold unlinkSync in H. unfold_ops.
  rewrite Hf3, Hf2, Hf1, Hfile in H. discriminate.
Qed.

Lemma uploadDoc_refusal_cause f content w r w' evs e :
  files w !! path f = Some content ->
  uploadDoc env {| file := Some f |} w = (r, w') ->
  log w' = log w ++ evs ->
  In (EvResponse 400 (MessageBody e)) evs ->
  csv_parse env content = Rejected e \/
  (e = "Invalid CSV format or data" /\
   exists data, csv_parse env content = Resolved data /\ isValid data = false) \/
  storeFailed env w w' e.
Proof.
  intros Hfile H Hlog Hin. unfold uploadDoc in H. cbn [file] in H.
  assert (Hrefused : forall e0 w2 r1 w1,
    uploadDoc_try env (path f) w = (Throw e0, w2) ->
    (unlinkSync (path f);; res_status_json 400 (MessageBody e0)) w2 = (r1, w1) ->
    r1 = Ok tt /\
    (w1 = w' ->
     csv_parse env content = Rejected e \/
     (e = "Invalid CSV format or data" /\
      exists data, csv_parse env content = Resolved data /\ isValid data = false) \/
     storeFailed env w w' e)).
  { intros e0 w2 r1 w1 Hbody Hh.
    pose proof (uploadDoc_try_run _ _ _ _ _ _ Hfile Hbody) as (U & evs0 & Hcl & Hr).
    pose proof (uploadDoc_try_cause _ _ _ _ _ Hfile Hbody) as Hcause.
    assert (Hf2 : files w2 = files w).
    { destruct (Ran_state _ _ _ Hr) as (_ & _ & -> & _).
      eapply ingestion_keeps_files, Hcl. }
    unfold unlinkSync in Hh. unfold_ops. rewrite Hf2, Hfile in Hh.
    injection Hh as <- <-. split; [done|]. intros <-.
    cbn in Hlog. rewrite (Ran_log _ _ _ Hr), <- !app_assoc in Hlog.
    apply app_inv_head in Hlog. subst evs.
    apply in_app_or in Hin as [Hin|[?|[Hin|[]]]]; [|done|].
    - rewrite Forall_forall in Hcl. by apply list_elem_of_In, Hcl in Hin.
    - injection Hin as <-. exact Hcause. }
  apply try_catch_run in H as [(e0 & w1 & H & _)|(H & _)];
    apply try_catch_run in H as [(e1 & w2 & Hbody & Hh)|(Hbody & Hnothrow)].
  - by destruct (Hrefused _ _ _ _ Hbody Hh).
  - by destruct (Hnothrow e0).
  - destruct (Hrefused _ _ _ _ Hbody Hh) as (_ & Hc). by apply Hc.
  - pose proof (uploadDoc_try_states _ _ _ _ _ _ Hfile Hbody) as Hst; cbn zeta in Hst.
    destruct r as [[]|e1|e1]; [|by destruct (Hnothrow e1)|done].
    destruct Hst as (data & ins & _ & _ & Hins & Hw' & _). exfalso.
    rewrite (Ran_events _ _ _ _ Hw' Hlog) in Hin.
    cbn in Hin. repeat destruct Hin as [?|Hin]; try done.
    apply in_app_or in Hin as [Hin|Hin].
    + rewrite Forall_forall in Hins. by apply list_elem_of_In, Hins in Hin.
    + cbn in Hin. repeat destruct Hin as [?|Hin]; done.
Qed.

End Causes.

(** X4: an upload is refused for one of three reasons only, and the message
    of the 400 response is the reason's: the file did not parse; the
    table has an invalid row; or the store failed, while the handler ran,
    with that very message. *)
Theorem refusal_has_a_cause env f content w r w' evs e :
  files w !! path f = Some content ->
  uploadDoc env {| file := Some f |} w = (r, w') ->
  log w' = log w ++ evs ->
  In (EvResponse 400 (MessageBody e)) evs ->
  csv_parse env content = Rejected e \/
  (e = "Invalid CSV format or data" /\
   exists data, csv_parse env content = Resolved data /\ isValid data = false) \/
  exists n, clock w <= n < clock w' /\ store_error env n = Some e.
Proof. apply uploadDoc_refusal_cause. Qed.

(** Witness of X4: the store refuses the connection once the job has been
    created. *)
Lemma refusal_has_a_cause_witness :
  let env := Sample.environment Sample.twoRows (Some 4) None Sample.ticking false in
  let run := uploadDoc env Sample.upload Sample.start in
  let e := "connect ECONNREFUSED 127.0.0.1:5432" in
  csv_parse env "csv" = Rejected e \/
  (e = "Invalid CSV format or data" /\
   exists data, csv_parse env "csv" = Resolved data /\ isValid data = false) \/
  exists n, clock Sample.start <= n < clock run.2 /\ store_error env n = Some e.
Proof.
  cbv zeta.
  pose (env := Sample.environment Sample.twoRows (Some 4) None Sample.ticking false).
  pose (run := uploadDoc env Sample.upload Sample.start).
  apply (refusal_has_a_cause env {| path := "uploads/3f9a" |} "csv" Sample.start
           run.1 run.2 (Scenario.added Sample.start run.2)
           "connect ECONNREFUSED 127.0.0.1:5432").
  - reflexivity.
  - vm_compute. reflexivity.
  - vm_compute. reflexivity.
  - apply (nth_error_In _ 4). vm_compute. reflexivity.
Defined.

(** X5: an upload whose file parses to a valid table is accepted whenever
    the store answers from then on: the handler answers 200 with the
    identifier of the new job, the job is in status [processing], and its
    processing is detached with the parsed table. *)
Theorem valid_table_accepted_when_store_answers env f content data w r w' :
  files w !! path f = Some content ->
  csv_parse env content = Resolved data ->
  isValid data = true ->
  (forall n, clock w <= n -> store_error env n = None) ->
  uploadDoc env {| file := Some f |} w = (r, w') ->
  r = Ok tt /\
  exists evs,
    log w' = log w ++ evs ++
      [EvResponse 200 (UploadedBody "File uploaded and processing started"
                         (requests_id_seq (db w)))] /\
    detached w' = detached w ++ [(requests_id_seq (db w), data)] /\
    requests (db w') !! requests_id_seq (db w) = Some "processing".
Proof.
  intros Hfile Hparse Hvalid Hup H.
  pose proof (uploadDoc_states _ _ _ _ _ _ Hfile H) as (-> & Hcases). cbn zeta in Hcases.
  split; [done|].
  destruct (uploadDoc_single_response _ _ _ _ _ _ Hfile H) as (_ & evs & code & body & Hlog & _ & Hcode).
  destruct Hcode as [(-> & data' & -> & Hparse' & _ & Hdet)|(-> & (e & ->) & _)].
  - rewrite Hparse in Hparse'. injection Hparse' as <-.
    exists evs. split; [done|]. split; [done|].
    destruct Hcases as [(? & ? & _ & _ & _ & _ & _ & -> & _)|(e & evs0 & U & Hw' & Hcl & _)].
    + by rewrite lookup_insert_eq.
    + exfalso. rewrite (Ran_log _ _ _ Hw') in Hlog. apply app_inv_head in Hlog.
      assert (Hlast : last (evs0 ++ [EvUnlink (path f); EvResponse 400 (MessageBody e)])
                      = last (evs ++ [EvResponse 200
                                        (UploadedBody "File uploaded and processing started"
                                           (requests_id_seq (db w)))]))
        by (by rewrite Hlog).
      rewrite !last_app in Hlast. cbn in Hlast. discriminate.
  - exfalso. assert (Hin : In (EvResponse 400 (MessageBody e))
                             (evs ++ [EvResponse 400 (MessageBody e)]))
      by (apply in_or_app; right; by left).
    destruct (uploadDoc_refusal_cause _ _ _ _ _ _ _ _ Hfile H Hlog Hin)
      as [Hc|[(_ & data' & Hc & Hv)|(n & Hn & Hc)]].
    + congruence.
    + rewrite Hparse in Hc. injection Hc as <-. congruence.
    + rewrite Hup in Hc by lia. discriminate.
Qed.

(** Witness of X5: the sample server. *)
Lemma valid_table_accepted_when_store_answers_witness :
  let env := Sample.calm Sample.twoRows in
  let run := uploadDoc env Sample.upload Sample.start in
  run.1 = Ok tt /\
  exists evs,
    log run.2 = log Sample.start ++ evs ++
      [EvResponse 200 (UploadedBody "File uploaded and processing started"
                         (requests_id_seq (db Sample.start)))] /\
    detached run.2 = detached Sample.start
                     ++ [(requests_id_seq (db Sample.start), Sample.twoRows)] /\
    requests (db run.2) !! requests_id_seq (db Sample.start) = Some "processing".
Proof.
  cbv zeta.
  pose (env := Sample.calm Sample.twoRows).
  pose (run := uploadDoc env Sample.upload Sample.start).
  apply (valid_table_accepted_when_store_answers env {| path := "uploads/3f9a" |} "csv"
           Sample.twoRows Sample.start run.1 run.2).
  - reflexivity.
  - reflexivity.
  - vm_compute. reflexivity.
  - intros n _. reflexivity.
  - vm_compute. reflexivity.
Defined.

Lemma accepted_trace_has_no_refusal ins (f : UploadedFile) id data c b :
  Forall insertion ins ->
  In (EvResponse c b)
     ([EvQuery Begin; EvQuery (InsertRequest "pending"); EvQuery Commit; EvQuery Begin]
      ++ ins ++
      [EvQuery Commit; EvQuery (UpdateRequest "processing" id);
       EvUnlink (path f); EvDetach id data;
       EvResponse 200 (UploadedBody "File uploaded and processing started" id)]) ->
  c = 200 /\ b = UploadedBody "File uploaded and processing started" id.
Proof.
  intros Hins Hin. cbn in Hin. repeat destruct Hin as [?|Hin]; try done.
  apply in_app_or in Hin as [Hin|Hin].
  - rewrite Forall_forall in Hins. by apply list_elem_of_In, Hins in Hin.
  - cbn in Hin. repeat destruct Hin as [Hin|Hin]; try done. by injection Hin as <- <-.
Qed.

(** X6: once an upload has been answered 200, the response names the job
    the sequence issued, and the store holds, committed, exactly what it
    held before plus that job in status [processing], one product per row
    and one pending ImageRef per URL of the table that was parsed and
    found valid; the uploaded file is gone. *)
Theorem accepted_upload_stores_the_table env f content w r w' evs body :
  files w !! path f = Some content ->
  uploadDoc env {| file := Some f |} w = (r, w') ->
  log w' = log w ++ evs ->
  In (EvResponse 200 body) evs ->
  let id := requests_id_seq (db w) in
  let firstId := products_id_seq (db w) in
  body = UploadedBody "File uploaded and processing started" id /\
  exists data,
    csv_parse env content = Resolved data /\ isValid data = true /\
    txn w' = None /\
    requests (db w') = <[id := "processing"]> (requests (db w)) /\
    products (db w') = products (db w) ++ createdProducts id firstId data /\
    images (db w') = images (db w) ++ createdImages firstId data /\
    files w' = delete (path f) (files w).
Proof.
  intros Hfile H Hlog Hin id firstId.
  pose proof (uploadDoc_states _ _ _ _ _ _ Hfile H) as (-> & Hcases). cbn zeta in Hcases.
  destruct Hcases as [(data & ins & Hparse & Hvalid & Hins & Hw' & Ht & Hrq & Hp & Hi & _)
                     |(e & evs0 & U & Hw' & Hcl & _)].
  - rewrite (Ran_events _ _ _ _ Hw' Hlog) in Hin.
    destruct (accepted_trace_has_no_refusal _ _ _ _ _ _ Hins Hin) as (_ & ->).
    split; [done|]. exists data. repeat (split; [done|]).
    destruct (Ran_state _ _ _ Hw') as (_ & _ & -> & _).
    replace ([EvQuery Begin; EvQuery (InsertRequest "pending"); EvQuery Commit;
              EvQuery Begin] ++ ins ++
             [EvQuery Commit; EvQuery (UpdateRequest "processing" (requests_id_seq (db w)));
              EvUnlink (path f); EvDetach (requests_id_seq (db w)) data;
              EvResponse 200 (UploadedBody "File uploaded and processing started"
                                (requests_id_seq (db w)))])
      with (([EvQuery Begin; EvQuery (InsertRequest "pending"); EvQuery Commit;
              EvQuery Begin] ++ ins ++
             [EvQuery Commit; EvQuery (UpdateRequest "processing" (requests_id_seq (db w)))])
            ++ [EvUnlink (path f); EvDetach (requests_id_seq (db w)) data;
                EvResponse 200 (UploadedBody "File uploaded and processing started"
                                  (requests_id_seq (db w)))])
      by (cbn; by rewrite <- !app_assoc).
    rewrite performAll_app. cbn.
    edestruct queries_keep_files as [-> _]; [|done].
    repeat (constructor; [by eauto|]).
    apply Forall_app. split; [by apply insertion_is_query|].
    repeat constructor; eauto.
  - exfalso. rewrite (Ran_events _ _ _ _ Hw' Hlog) in Hin.
    apply in_app_or in Hin as [Hin|[?|[?|[]]]]; [|done|done].
    rewrite Forall_forall in Hcl. by apply list_elem_of_In, Hcl in Hin.
Qed.

(** Witness of X6: the sample server. *)
Lemma accepted_upload_stores_the_table_witness :
  let env := Sample.calm Sample.twoRows in
  let run := uploadDoc env Sample.upload Sample.start in
  let id := requests_id_seq (db Sample.start) in
  let firstId := products_id_seq (db Sample.start) in
  UploadedBody "File uploaded and processing started" 1
    = UploadedBody "File uploaded and processing started" id /\
  exists data,
    csv_parse env "csv" = Resolved data /\ isValid data = true /\
    txn run.2 = None /\
    requests (db run.2) = <[id := "processing"]> (requests (db Sample.start)) /\
    products (db run.2) = products (db Sample.start) ++ createdProducts id firstId data /\
    images (db run.2) = images (db Sample.start) ++ createdImages firstId data /\
    files run.2 = delete "uploads/3f9a" (files Sample.start).
Proof.
  cbv zeta.
  pose (env := Sample.calm Sample.twoRows).
  pose (run := uploadDoc env Sample.upload Sample.start).
  apply (accepted_upload_stores_the_table env {| path := "uploads/3f9a" |} "csv"
           Sample.start run.1 run.2 (Scenario.added Sample.start run.2)
           (UploadedBody "File uploaded and processing started" 1)).
  - reflexivity.
  - vm_compute. reflexivity.
  - vm_compute. reflexivity.
  - apply (nth_error_In _ 13). vm_compute. reflexivity.
Defined.

(** X7: when an upload is refused after its job was committed, the job
    stays in the store in status [pending]: the handler does not remove
    it or mark it, no processing is detached for it, and nothing of the
    upload runs after the response. *)
Theorem refused_upload_may_leave_a_pending_job env f content w r w' evs body :
  files w !! path f = Some content ->
  uploadDoc env {| file := Some f |} w = (r, w') ->
  log w' = log w ++ evs ->
  In (EvQuery Commit) evs ->
  In (EvResponse 400 body) evs ->
  requests (db w') !! requests_id_seq (db w) = Some "pending" /\
  detached w' = detached w /\
  (detached w = [] -> serveUpload env {| file := Some f |} w = w').
Proof.
  intros Hfile H Hlog Hcommit Hin.
  pose proof (uploadDoc_states _ _ _ _ _ _ Hfile H) as (-> & Hcases). cbn zeta in Hcases.
  destruct Hcases as [(data & ins & _ & _ & Hins & Hw' & _)
                     |(e & evs0 & U & Hw' & Hcl & Hpend)].
  { exfalso. rewrite (Ran_events _ _ _ _ Hw' Hlog) in Hin.
    by destruct (accepted_trace_has_no_refusal _ _ _ _ _ _ Hins Hin). }
  rewrite (Ran_events _ _ _ _ Hw' Hlog) in Hcommit.
  apply in_app_or in Hcommit as [Hcommit|[?|[?|[]]]]; [|done|done].
  split; [by apply Hpend|].
  assert (Hdet : detached w' = detached w).
  { destruct (Ran_state _ _ _ Hw') as (_ & _ & _ & _ & ->).
    rewrite performAll_app. cbn.
    by destruct (ingestion_keeps_files _ _ _ _ w Hcl) as (_ & ->). }
  split; [done|]. intros Hnone. unfold serveUpload, runDetached. rewrite H. cbn [snd].
  by rewrite Hdet, Hnone.
Qed.

(** Witness of X7: the store refuses the connection once the job has been
    created. *)
Lemma refused_upload_may_leave_a_pending_job_witness :
  let env := Sample.environment Sample.twoRows (Some 4) None Sample.ticking false in
  let run := uploadDoc env Sample.upload Sample.start in
  requests (db run.2) !! requests_id_seq (db Sample.start) = Some "pending" /\
  detached run.2 = detached Sample.start /\
  (detached Sample.start = [] -> serveUpload env Sample.upload Sample.start = run.2).
Proof.
  cbv zeta.
  pose (env := Sample.environment Sample.twoRows (Some 4) None Sample.ticking false).
  pose (run := uploadDoc env Sample.upload Sample.start).
  apply (refused_upload_may_leave_a_pending_job env {| path := "uploads/3f9a" |} "csv"
           Sample.start run.1 run.2 (Scenario.added Sample.start run.2)
           (MessageBody "connect ECONNREFUSED 127.0.0.1:5432")).
  - reflexivity.
  - vm_compute. reflexivity.
  - vm_compute. reflexivity.
  - apply (nth_error_In _ 2). vm_compute. reflexivity.
  - apply (nth_error_In _ 4). vm_compute. reflexivity.
Defined.
(** ** The whole life of an upload *)

Lemma insertion_statusWrites ins : Forall insertion ins -> flat_map statusWrites ins = [].
Proof.
  induction 1 as [|ev ins Hev _ IH]; [done|]. cbn. rewrite IH.
  destruct ev as [q| | | | | | | | |]; try done. by destruct q.
Qed.

Section Served.

Variable env : Env.

(** An accepted upload, then its background work. *)
Lemma serveUpload_accepted f content w r1 w1 :
  files w !! path f = Some content -> detached w = [] ->
  uploadDoc env {| file := Some f |} w = (r1, w1) ->
  let id := requests_id_seq (db w) in
  (exists e evs0, log w1 = log w ++ evs0 ++ [EvResponse 400 (MessageBody e)] /\
     (forall c b, ~ In (EvResponse c b) evs0) /\
     serveUpload env {| file := Some f |} w = w1) \/
  (exists data ins r2 w2,
     csv_parse env content = Resolved data /\ isValid data = true /\
     Forall insertion ins /\
     log w1 = log w ++
       [EvQuery Begin; EvQuery (InsertRequest "pending"); EvQuery Commit; EvQuery Begin]
       ++ ins ++
       [EvQuery Commit; EvQuery (UpdateRequest "processing" id);
        EvUnlink (path f); EvDetach id data;
        EvResponse 200 (UploadedBody "File uploaded and processing started" id)] /\
     requests (db w1) = <[id := "processing"]> (requests (db w)) /\
     products (db w1) = products (db w) ++ createdProducts id (products_id_seq (db w)) data /\
     images (db w1) = images (db w) ++ createdImages (products_id_seq (db w)) data /\
     processImages env id data (perform (EvResume id) w1) = (r2, w2) /\
     serveUpload env {| file := Some f |} w =
       match r2 with
       | Ok _ => w2
       | Throw e | Uncaught e => perform (EvUnhandledRejection e) w2
       end).
Proof.
  intros Hfile Hdet H id.
  pose proof (uploadDoc_states _ _ _ _ _ _ Hfile H) as (_ & Hcases). cbn zeta in Hcases.
  pose proof (uploadDoc_single_response _ _ _ _ _ _ Hfile H)
    as (_ & evs & code & body & Hlog & Hone & Hcode).
  unfold serveUpload, runDetached. rewrite H. cbn [snd].
  destruct Hcases as [(data & ins & Hparse & Hvalid & Hins & Hw' & _ & Hrq & Hps & Himgs & _)
                     |(e & evs0 & U & Hw' & Hcl & _)].
  - right. destruct Hcode as [(_ & data' & _ & Hparse' & _ & Hd)|(-> & _ & _)].
    2:{ exfalso. rewrite (Ran_log _ _ _ Hw') in Hlog. apply app_inv_head in Hlog.
        assert (Hin : In (EvResponse 400 body) (evs ++ [EvResponse 400 body]))
          by (apply in_or_app; right; by left).
        rewrite <- Hlog in Hin.
        by destruct (accepted_trace_has_no_refusal _ _ _ _ _ _ Hins Hin). }
    rewrite Hparse in Hparse'. injection Hparse' as <-.
    rewrite Hd, Hdet. cbn [app fold_left]. unfold settle. cbn [fst snd]. fold id.
    destruct (processImages env id data (perform (EvResume id) w1)) as [r2 w2] eqn:Hp.
    exists data, ins, r2, w2. repeat (split; [done|]).
    split; [exact (Ran_log _ _ _ Hw')|]. do 4 (split; [done|]).
    by destruct r2.
  - left. destruct Hcode as [(-> & _)|(_ & _ & Hd)].
    { exfalso. rewrite (Ran_log _ _ _ Hw') in Hlog. apply app_inv_head in Hlog.
      assert (Hlast : last (evs0 ++ [EvUnlink (path f); EvResponse 400 (MessageBody e)])
                      = last (evs ++ [EvResponse 200 body])) by (by rewrite Hlog).
      rewrite !last_app in Hlast. cbn in Hlast. discriminate. }
    exists e, (evs0 ++ [EvUnlink (path f)]). split; [|split].
    + rewrite (Ran_log _ _ _ Hw'). by rewrite <- !app_assoc.
    + intros c b Hin. apply in_app_or in Hin as [Hin|[?|[]]]; [|done].
      rewrite Forall_forall in Hcl. by apply list_elem_of_In, Hcl in Hin.
    + by rewrite Hd, Hdet.
Qed.

End Served.

Lemma serveUpload_status_writes env f content w evs body :
  files w !! path f = Some content -> detached w = [] ->
  let served := serveUpload env {| file := Some f |} w in
  let id := requests_id_seq (db w) in
  log served = log w ++ evs ->
  In (EvResponse 200 body) evs ->
  exists outcome,
    (outcome = [] /\ (exists e, In (EvUnhandledRejection e) evs) \/
     outcome = ["completed"] \/ outcome = ["failed"]) /\
    flat_map statusWrites evs = map (pair id) ("processing" :: outcome) /\
    requests (db served) !! id = last ("processing" :: outcome).
Proof.
  intros Hfile Hdet served id Hlog Hin.
  destruct (uploadDoc env {| file := Some f |} w) as [r1 w1] eqn:H.
  destruct (serveUpload_accepted env _ _ _ _ _ Hfile Hdet H)
    as [(e & evs0 & Hlog1 & Hone & Hserved)
       |(data & ins & r2 & w2 & _ & _ & Hins & Hlog1 & Hrq1 & _ & _ & Hp & Hserved)].
  { exfalso. unfold served in Hlog. rewrite Hserved, Hlog1 in Hlog.
    apply app_inv_head in Hlog. subst evs.
    apply in_app_or in Hin as [Hin|[?|[]]]; [by apply Hone in Hin|done]. }
  clear Hin. fold id in Hlog1, Hrq1, Hp.
  set (evs1 := [EvQuery Begin; EvQuery (InsertRequest "pending"); EvQuery Commit;
                EvQuery Begin] ++ ins ++
               [EvQuery Commit; EvQuery (UpdateRequest "processing" id);
                EvUnlink (path f); EvDetach id data;
                EvResponse 200 (UploadedBody "File uploaded and processing started" id)])
    in *.
  assert (Hsw1 : flat_map statusWrites (evs1 ++ [EvResume id]) = [(id, "processing")]).
  { unfold evs1. rewrite !flat_map_app, (insertion_statusWrites _ Hins). done. }
  set (wR := perform (EvResume id) w1) in *.
  assert (HlogR : log wR = log w ++ evs1 ++ [EvResume id]).
  { unfold wR. cbn. by rewrite Hlog1, <- app_assoc. }
  assert (HrqR : requests (db wR) = <[id := "processing"]> (requests (db w))) by done.
  assert (Hlog2 : exists evs2, log w2 = log wR ++ evs2).
  { apply processImages_run in Hp as (cs & tail & Hw2 & _). eexists.
    exact (Ran_log _ _ _ Hw2). }
  destruct Hlog2 as (evs2 & Hlog2).
  destruct (processImages_status_writes _ _ _ _ _ _ _ Hp Hlog2)
    as [(e & -> & Hsw2 & Hrq2)
       |(-> & status & before & after & Hstatus & Hsw2 & _ & _ & Hrq2)].
  - exists []. unfold served in *. rewrite Hserved in *.
    cbn in Hlog. rewrite Hlog2, HlogR, <- !app_assoc in Hlog.
    apply app_inv_head in Hlog. subst evs.
    split; [left; split; [done|]|split].
    + exists e. rewrite !app_assoc. apply in_or_app. right. by left.
    + rewrite (app_assoc evs1), flat_map_app, Hsw1, flat_map_app, Hsw2. done.
    + cbn. by rewrite Hrq2, HrqR, lookup_insert_eq.
  - exists [status]. unfold served in *. rewrite Hserved in *.
    rewrite Hlog2, HlogR, <- !app_assoc in Hlog.
    apply app_inv_head in Hlog. subst evs.
    split; [destruct Hstatus as [(-> & _)| ->]; auto|split].
    + rewrite (app_assoc evs1), flat_map_app, Hsw1, Hsw2. done.
    + rewrite Hrq2, HrqR, lookup_alter_eq, lookup_insert_eq. done.
Qed.

(** X22: the statuses of a job over the life of an accepted upload, from
    the request to the end of its background work. After its creation as
    [pending] the job is written [processing], then at most one of
    [completed] and [failed], in this order and to this job only; the
    store ends with the last status written. The job stays [processing]
    only when the background routine raised, which the event loop reports
    as an unhandled rejection. *)
Theorem job_status_over_its_life env f content w evs body :
  files w !! path f = Some content -> detached w = [] ->
  let served := serveUpload env {| file := Some f |} w in
  let id := requests_id_seq (db w) in
  log served = log w ++ evs ->
  In (EvResponse 200 body) evs ->
  exists outcome,
    (outcome = [] /\ (exists e, In (EvUnhandledRejection e) evs) \/
     outcome = ["completed"] \/ outcome = ["failed"]) /\
    flat_map statusWrites evs = map (pair id) ("processing" :: outcome) /\
    requests (db served) !! id = last ("processing" :: outcome).
Proof. apply serveUpload_status_writes. Qed.

(** Witness of X22: the store stops answering when the job is to be
    marked completed and again when it is to be marked failed; the job
    stays in [processing]. *)
Lemma job_status_over_its_life_witness :
  let env :=
    {| store_error := fun n => if decide (27 <= n)
                               then Some "connect ECONNREFUSED 127.0.0.1:5432" else None;
       http_get := http_get (Sample.calm Sample.twoRows);
       sharp_jpeg := sharp_jpeg (Sample.calm Sample.twoRows);
       date_now := date_now (Sample.calm Sample.twoRows);
       csv_parse := csv_parse (Sample.calm Sample.twoRows);
       csv_stringify := csv_stringify (Sample.calm Sample.twoRows);
       write_file_error := write_file_error (Sample.calm Sample.twoRows);
       http_post_error := http_post_error (Sample.calm Sample.twoRows);
       WEBHOOK_URL := None |} in
  let served := serveUpload env Sample.upload Sample.start in
  let id := requests_id_seq (db Sample.start) in
  let evs := Scenario.added Sample.start served in
  requests (db served) !! 1 = Some "processing" /\
  exists outcome,
    (outcome = [] /\ (exists e, In (EvUnhandledRejection e) evs) \/
     outcome = ["completed"] \/ outcome = ["failed"]) /\
    flat_map statusWrites evs = map (pair id) ("processing" :: outcome) /\
    requests (db served) !! id = last ("processing" :: outcome).
Proof.
  cbv zeta.
  pose (env :=
    {| store_error := fun n => if decide (27 <= n)
                               then Some "connect ECONNREFUSED 127.0.0.1:5432" else None;
       http_get := http_get (Sample.calm Sample.twoRows);
       sharp_jpeg := sharp_jpeg (Sample.calm Sample.twoRows);
       date_now := date_now (Sample.calm Sample.twoRows);
       csv_parse := csv_parse (Sample.calm Sample.twoRows);
       csv_stringify := csv_stringify (Sample.calm Sample.twoRows);
       write_file_error := write_file_error (Sample.calm Sample.twoRows);
       http_post_error := http_post_error (Sample.calm Sample.twoRows);
       WEBHOOK_URL := None |}).
  pose (served := serveUpload env Sample.upload Sample.start).
  split; [vm_compute; reflexivity|].
  apply (job_status_over_its_life env {| path := "uploads/3f9a" |} "csv" Sample.start
           (Scenario.added Sample.start served)
           (UploadedBody "File uploaded and processing started" 1)).
  - reflexivity.
  - reflexivity.
  - vm_compute. reflexivity.
  - apply (nth_error_In _ 13). vm_compute. reflexivity.
Defined.

(** ** The status query *)

Section StatusQueryProperties.

Variable env : Env.
Variable id_of_param : string -> Settled nat.

Lemma getRequestStatus_unpooled requestId w :
  let after := getRequestStatus env id_of_param requestId w in
  (exists reply, after.1 = Ok reply) /\
  db after.2 = db w /\ txn after.2 = txn w /\ history after.2 = history w /\
  files after.2 = files w /\ detached after.2 = detached w /\
  (log after.2 = log w \/
   exists e, log after.2 = log w ++ [EvConsoleError "Error getting request status:" e]).
Proof.
  cbv zeta. unfold getRequestStatus, select_status, statusRows. unfold_ops. cbn.
  destruct (store_error env (clock w)); cbn; [by eauto 10|].
  destruct (store_error env (S (clock w))); cbn; [by eauto 10|].
  destruct (id_of_param requestId) as [id|e]; cbn; [|by eauto 10].
  destruct (requests (db w) !! id); cbn; by eauto 10.
Qed.

(** With a client to hand out, the handler does to the world, and answers,
    what the handler without the pool does. *)
Lemma getRequestStatus_pooled pool_max requestId leased w :
  leased < pool_max ->
  let pooled := Pooled.getRequestStatus env id_of_param pool_max requestId leased w in
  let plain := getRequestStatus env id_of_param requestId w in
  pooled.1.1 = Settles plain.1 /\ pooled.1.2 = plain.2 /\
  pooled.2 = match store_error env (clock w) with
             | Some _ => leased
             | None =>
                 match store_error env (S (clock w)), id_of_param requestId with
                 | None, Resolved _ => leased
                 | _, _ => S leased
                 end
             end.
Proof.
  intros Hfree. cbv zeta.
  unfold Pooled.getRequestStatus, Pooled.try_catch, Pooled.pool_connect, Pooled.unpooled,
    Pooled.client_release, getRequestStatus, select_status, statusRows.
  unfold mbind, Pooled.P_bind, mret, Pooled.P_ret. unfold_ops.
  destruct (decide (pool_max <= leased)) as [?|_]; [lia|]. cbn.
  destruct (store_error env (clock w)); cbn; [done|].
  destruct (store_error env (S (clock w))); cbn; [done|].
  destruct (id_of_param requestId) as [id|e]; cbn; [|done].
  by destruct (requests (db w) !! id).
Qed.

Lemma getRequestStatus_waits pool_max requestId leased w :
  pool_max <= leased ->
  Pooled.getRequestStatus env id_of_param pool_max requestId leased w = (Waits, w, leased).
Proof.
  intros Hfull. unfold Pooled.getRequestStatus, Pooled.try_catch, Pooled.pool_connect.
  unfold mbind, Pooled.P_bind. by destruct (decide (pool_max <= leased)).
Qed.

(** X23: the status query only reads the store, and what it does to the
    pool. Whatever the parameter and whatever the store answers,
    getRequestStatus leaves the store, the open transaction, the files and
    the detached work as they were. With every client of the pool checked
    out it waits at [pool.connect()]: it sends no response and does
    nothing. With a client to hand out it sends a response, with at most
    one line on the error console; it gives its client back only when the
    query succeeded: when the store fails at the query, or does not read
    the parameter as an identifier, one more client stays checked out. *)
Theorem getRequestStatus_reads_only pool_max requestId leased w :
  let after := Pooled.getRequestStatus env id_of_param pool_max requestId leased w in
  db after.1.2 = db w /\ txn after.1.2 = txn w /\ history after.1.2 = history w /\
  files after.1.2 = files w /\ detached after.1.2 = detached w /\
  (pool_max <= leased -> after = (Waits, w, leased)) /\
  (leased < pool_max ->
   (exists reply, after.1.1 = Settles (Ok reply)) /\
   (log after.1.2 = log w \/
    exists e, log after.1.2 = log w ++ [EvConsoleError "Error getting request status:" e]) /\
   after.2 = match store_error env (clock w) with
             | Some _ => leased
             | None =>
                 match store_error env (S (clock w)), id_of_param requestId with
                 | None, Resolved _ => leased
                 | _, _ => S leased
                 end
             end).
Proof.
  cbv zeta.
  destruct (getRequestStatus_unpooled requestId w)
    as ((reply & Hreply) & Hdb & Htxn & Hhist & Hfiles & Hdet & Hlog).
  destruct (decide (pool_max <= leased)) as [Hfull|Hfree].
  - rewrite (getRequestStatus_waits _ _ _ _ Hfull). cbn. do 6 (split; [done|]). intros ?. lia.
  - destruct (getRequestStatus_pooled pool_max requestId leased w) as (Hr & Hw & Hl);
      [lia|].
    rewrite Hw. do 5 (split; [done|]). split; [intros ?; lia|]. intros _.
    rewrite Hr, Hreply. eauto.
Qed.

Lemma getRequestStatus_cases requestId w :
  let after := getRequestStatus env id_of_param requestId w in
  (store_error env (clock w) = None /\ store_error env (S (clock w)) = None /\
   log after.2 = log w /\
   exists id, id_of_param requestId = Resolved id /\
     match requests (db w) !! id with
     | Some status =>
         after.1 = Ok {| reply_code := 200; reply_body := StatusOf requestId status |}
     | None =>
         after.1 = Ok {| reply_code := 404;
                         reply_body := StatusMessage "Request not found" |}
     end) \/
  (exists e,
     (store_error env (clock w) = Some e \/
      store_error env (clock w) = None /\
      (store_error env (S (clock w)) = Some e \/
       store_error env (S (clock w)) = None /\ id_of_param requestId = Rejected e)) /\
     after.1 = Ok {| reply_code := 500;
                     reply_body := StatusMessage "Internal server error" |} /\
     log after.2 = log w ++ [EvConsoleError "Error getting request status:" e]).
Proof.
  cbv zeta. unfold getRequestStatus, select_status, statusRows. unfold_ops. cbn.
  destruct (store_error env (clock w)) as [e|]; cbn; [right; by eauto 10|].
  destruct (store_error env (S (clock w))) as [e|]; cbn; [right; exists e; by auto 10|].
  destruct (id_of_param requestId) as [id|e]; cbn; [|right; exists e; by auto 10].
  left. split; [done|]. split; [done|].
  destruct (requests (db w) !! id) eqn:Hid; cbn; (split; [done|]); exists id;
    by rewrite Hid.
Qed.

(** X24: what the status query answers. When the store answers and reads
    the parameter as an identifier, the answer is 200 with the parameter
    as it was sent and the status the job has, or 404 with
    [Request not found] when there is no such job, and nothing is logged.
    When the store fails at the connection or at the query, or does not
    read the parameter as an identifier, the answer is 500 with
    [Internal server error]; the store's message goes to the error
    console and not to the client. *)
Theorem getRequestStatus_contract requestId w :
  let after := getRequestStatus env id_of_param requestId w in
  (store_error env (clock w) = None /\ store_error env (S (clock w)) = None /\
   log after.2 = log w /\
   exists id, id_of_param requestId = Resolved id /\
     match requests (db w) !! id with
     | Some status =>
         after.1 = Ok {| reply_code := 200; reply_body := StatusOf requestId status |}
     | None =>
         after.1 = Ok {| reply_code := 404;
                         reply_body := StatusMessage "Request not found" |}
     end) \/
  (exists e,
     (store_error env (clock w) = Some e \/
      store_error env (clock w) = None /\
      (store_error env (S (clock w)) = Some e \/
       store_error env (S (clock w)) = None /\ id_of_param requestId = Rejected e)) /\
     after.1 = Ok {| reply_code := 500;
                     reply_body := StatusMessage "Internal server error" |} /\
     log after.2 = log w ++ [EvConsoleError "Error getting request status:" e]).
Proof. apply getRequestStatus_cases. Qed.


(** X26: the status a client reads once its upload has been accepted and
    its background work has ended. Asked with the identifier the 200
    response gave, a store that answers replies 200 with [processing],
    [completed] or [failed]: never 404, and never [pending]. *)
Theorem status_after_accepted_upload f content w evs body requestId :
  files w !! path f = Some content -> detached w = [] ->
  let served := serveUpload env {| file := Some f |} w in
  let id := requests_id_seq (db w) in
  log served = log w ++ evs ->
  In (EvResponse 200 body) evs ->
  id_of_param requestId = Resolved id ->
  store_error env (clock served) = None ->
  store_error env (S (clock served)) = None ->
  exists status,
    (status = "processing" \/ status = "completed" \/ status = "failed") /\
    (getRequestStatus env id_of_param requestId served).1
    = Ok {| reply_code := 200; reply_body := StatusOf requestId status |}.
Proof.
  intros Hfile Hdet served id Hlog Hin Hid Hup1 Hup2.
  destruct (serveUpload_status_writes env f content w evs body Hfile Hdet Hlog Hin)
    as (outcome & Hout & _ & Hreq).
  fold served id in Hreq.
  destruct (getRequestStatus_cases requestId served)
    as [(_ & _ & _ & id' & Hid' & Hreply)|(e & Hcause & _)].
  2:{ exfalso. destruct Hcause as [?|(_ & [?|(_ & ?)])]; congruence. }
  rewrite Hid in Hid'. injection Hid' as <-. rewrite Hreq in Hreply.
  destruct Hout as [(-> & _)|[-> | ->]]; cbn in Hreply; eauto 6.
Qed.

(** X27: status queries that fail at the query use the pool up. When the
    store answers but reads none of the parameters as an identifier, each
    query is answered 500 and leaves its client checked out; after as many
    of them as the pool has clients, every further status query waits for
    a client and is never answered. *)
Theorem failing_status_queries_exhaust_the_pool pool_max requestIds w :
  (forall n, store_error env n = None) ->
  Forall (fun requestId => exists e, id_of_param requestId = Rejected e) requestIds ->
  length requestIds = pool_max ->
  let after := Pooled.asked env id_of_param pool_max requestIds 0 w in
  after.2 = pool_max /\ db after.1 = db w /\
  forall requestId,
    Pooled.getRequestStatus env id_of_param pool_max requestId after.2 after.1
    = (Waits, after.1, after.2).
Proof.
  intros Hup Hbad Hlen. cbv zeta.
  assert (Hleak : forall ids leased w0,
    Forall (fun requestId => exists e, id_of_param requestId = Rejected e) ids ->
    leased + length ids <= pool_max ->
    (Pooled.asked env id_of_param pool_max ids leased w0).2 = leased + length ids /\
    db (Pooled.asked env id_of_param pool_max ids leased w0).1 = db w0).
  { intros ids. induction ids as [|requestId ids IH]; intros leased w0 Hids Hroom.
    - cbn. split; [lia|done].
    - apply Forall_cons in Hids as ((e & He) & Hids). cbn [Pooled.asked length] in *.
      destruct (getRequestStatus_pooled pool_max requestId leased w0) as (_ & Hw & Hl);
        [lia|].
      destruct (getRequestStatus_unpooled requestId w0) as (_ & Hdb & _).
      destruct (Pooled.getRequestStatus env id_of_param pool_max requestId leased w0)
        as [[p w1] leased1]. cbn in Hw, Hl.
      rewrite !Hup, He in Hl. subst leased1 w1.
      destruct (IH (S leased) (getRequestStatus env id_of_param requestId w0).2 Hids)
        as (IH1 & IH2); [lia|].
      rewrite IH1, IH2. split; [lia|done]. }
  destruct (Hleak requestIds 0 w Hbad) as (Hl & Hdb); [lia|].
  split; [lia|]. split; [done|]. intros requestId.
  apply getRequestStatus_waits. lia.
Qed.

End StatusQueryProperties.


(** Witness of X26: the sample server, two rows, every collaborator works;
    the client reads [completed]. *)
Lemma status_after_accepted_upload_witness :
  let env := Sample.calm Sample.twoRows in
  let served := serveUpload env Sample.upload Sample.start in
  (getRequestStatus env Scenario.asInteger "1" served).1
    = Ok {| reply_code := 200; reply_body := StatusOf "1" "completed" |} /\
  exists status,
    (status = "processing" \/ status = "completed" \/ status = "failed") /\
    (getRequestStatus env Scenario.asInteger "1" served).1
    = Ok {| reply_code := 200; reply_body := StatusOf "1" status |}.
Proof.
  cbv zeta.
  pose (env := Sample.calm Sample.twoRows).
  pose (served := serveUpload env Sample.upload Sample.start).
  split; [vm_compute; reflexivity|].
  apply (status_after_accepted_upload env Scenario.asInteger {| path := "uploads/3f9a" |}
           "csv" Sample.start (Scenario.added Sample.start served)
           (UploadedBody "File uploaded and processing started" 1) "1").
  - reflexivity.
  - reflexivity.
  - vm_compute. reflexivity.
  - apply (nth_error_In _ 13). vm_compute. reflexivity.
  - vm_compute. reflexivity.
  - reflexivity.
  - reflexivity.
Defined.

(** Witness of X27: a pool of two clients, two queries whose parameter is
    not a number; a third query, for the job that exists, is not
    answered. *)
Lemma failing_status_queries_exhaust_the_pool_witness :
  let env := Sample.calm Sample.sharedUrl in
  let after := Pooled.asked env Scenario.asInteger 2 ["abc"; "12x"] 0 Sample.ingested in
  Pooled.getRequestStatus env Scenario.asInteger 2 "1" 0 Sample.ingested
  = (Settles (Ok {| reply_code := 200; reply_body := StatusOf "1" "processing" |}),
     (getRequestStatus env Scenario.asInteger "1" Sample.ingested).2, 0) /\
  Pooled.getRequestStatus env Scenario.asInteger 2 "1" after.2 after.1
  = (Waits, after.1, after.2) /\
  after.2 = 2 /\ db after.1 = db Sample.ingested /\
  forall requestId,
    Pooled.getRequestStatus env Scenario.asInteger 2 requestId after.2 after.1
    = (Waits, after.1, after.2).
Proof.
  cbv zeta.
  pose (env := Sample.calm Sample.sharedUrl).
  split; [vm_compute; reflexivity|]. split; [vm_compute; reflexivity|].
  apply (failing_status_queries_exhaust_the_pool env Scenario.asInteger 2 ["abc"; "12x"]
           Sample.ingested).
  - intros n. reflexivity.
  - constructor; [exists "invalid input syntax for type integer: abc"; reflexivity|].
    constructor; [exists "invalid input syntax for type integer: 12x"; reflexivity|].
    constructor.
  - reflexivity.
Defined.
(** ** Status of a job against the status of its ImageRefs *)




Section LifecycleClaims.

Variable env : Env.




End LifecycleClaims.




